(** * ECE-Lab USB MultiTool firmware: command decoder, trigger engine and
      streaming scheduler

    A shallow embedding of the hand-written firmware logic of the STM32H5
    instrument (DACprocess.c, main.c, stm32h5xx_it.c) and the properties the
    specification states about it.

    Conventions of the embedding
    - C globals live in a store indexed by their names ([gvar], [garr]);
      every assignment truncates to the declared width of the variable.
    - Memory-mapped timer registers the firmware stores plain values into
      are kept in a register file ([reg]); it holds what the firmware wrote
      last, the hardware side (counting, flag setting) is not modelled.
    - Calls into the vendor HAL/LL library and read-modify-write accesses to
      hardware-owned registers are appended to a log ([hw]); frames handed
      to [CDC_Transmit_FS] are appended to [usb_tx].
    - Volatile status registers read by interrupt handlers are inputs of
      the handler. *)

From Stdlib Require Import ZArith List Bool Lia.
Import ListNotations.
Open Scope Z_scope.

(** ** Machine integers *)

Definition wrap (w x : Z) : Z := x mod 2 ^ w.
Definition u8 : Z -> Z := wrap 8.
Definition u16 : Z -> Z := wrap 16.
Definition u32 : Z -> Z := wrap 32.

(** Value of a C comparison, and the test of an [if]. *)
Definition c_bool (b : bool) : Z := if b then 1 else 0.
Definition truthy (z : Z) : bool := negb (z =? 0).

(** ** Constants of the device header

    The CMSIS device header is vendor code outside this source tree; the
    bit masks the firmware takes from it are parameters of the development.
    [stm32h563] gives the values of the STM32H563 reference manual and is
    used for concrete runs only. *)

Class DeviceHeader : Type := {
  TIM_EGR_UG : Z;
  TIM_CR1_CEN : Z;
  ADC_CR_ADEN : Z;
  ADC_CR_ADSTART : Z;
  ADC_ISR_AWD1 : Z;
  ADC_ISR_AWD2 : Z
}.

Definition stm32h563 : DeviceHeader := {|
  TIM_EGR_UG := 1;
  TIM_CR1_CEN := 1;
  ADC_CR_ADEN := 1;
  ADC_CR_ADSTART := 4;
  ADC_ISR_AWD1 := 128;
  ADC_ISR_AWD2 := 256
|}.

(** ** DACprocess.h *)

Definition AWG_SAMPLES : Z := 1024 * 4.
Definition AWG_NUM_CHAN : Z := 2.
Definition HS_STRING_LEN : nat := 4.
Definition ACK_STRING_LEN : nat := 8.

(** main.c *)
Definition ADC_BUFF : Z := 30000.
Definition LOGIC_BUFF : Z := 30000.

(** Modelled from the spec: main.h, which defines [datalength], is not in
    the source tree; section 4.4 fixes the window at 8 samples per frame. *)
Definition datalength : Z := 8.

(** ** The store *)

(** Scalar globals of main.c, stm32h5xx_it.c and DACprocess.c.
    [BULK_BUFF] is a pointer into [awg_lut]; it is kept as the byte offset
    from the start of that array. *)
Inductive gvar : Set :=
| pauseTransmit | ADCmode | shadowCount | adcpos | triggerType
| triggerDuration | adcsend | logicpos | logicsend | trigger
| period16 | prescaler16 | period32 | trigPin | trigEdge
| halfcomplete | fullcomplete
| pastValue | logicWritePointer | currentValue
| firstTrigger
| BULK_BUFF_RECV | BULK_BUFF.

Scheme Equality for gvar.

(** Declared width of each global, in bits. *)
Definition width (x : gvar) : Z :=
  match x with
  | pauseTransmit | ADCmode | triggerType | adcsend | logicsend
  | trigPin | trigEdge | firstTrigger => 8
  | shadowCount | adcpos | triggerDuration | logicpos
  | period16 | prescaler16 | pastValue | logicWritePointer | currentValue
  | BULK_BUFF_RECV => 16
  | trigger | period32 | halfcomplete | fullcomplete | BULK_BUFF => 32
  end.

(** Global arrays.  [awg_lut] is the two-row table flattened to bytes. *)
Inductive garr : Set :=
| adc_buff | adc_buff1 | Logic_buff | awg_lut
| numSamples | phaseARR | ARR_hold.

Scheme Equality for garr.

Definition arr_len (a : garr) : Z :=
  match a with
  | adc_buff | adc_buff1 => ADC_BUFF
  | Logic_buff => LOGIC_BUFF
  | awg_lut => AWG_NUM_CHAN * (AWG_SAMPLES * 2)
  | numSamples | phaseARR | ARR_hold => AWG_NUM_CHAN
  end.

Definition elt_width (a : garr) : Z :=
  match a with
  | awg_lut => 8
  | _ => 16
  end.

(** Timer registers written with plain stores. *)
Inductive reg : Set :=
| TIM1_CCR1 | TIM1_CCR2
| TIM6_ARR | TIM6_PSC | TIM6_EGR | TIM6_CNT
| TIM7_ARR | TIM7_PSC | TIM7_EGR | TIM7_CNT
| TIM8_ARR | TIM8_PSC | TIM8_EGR | TIM8_CNT
| TIM17_ARR | TIM17_PSC | TIM17_EGR | TIM17_CNT.

Scheme Equality for reg.

(** Hardware-owned registers the firmware only touches with [|=] and
    [&= ~]; the access is logged, its result depends on the hardware. *)
Inductive hwreg : Set :=
| ADC1_CR | ADC2_CR | ADC1_ISR | ADC2_ISR | TIM6_CR1 | TIM7_CR1.

Inductive triggerStates : Set :=
| triggerState | postTrigger | preTrigger | noTrigger.

(** ** Calls into the HAL, LL and board libraries *)

Inductive hal_fn : Set :=
| HAL_GPIO_WritePin | HAL_GPIO_TogglePin
| HAL_TIM_DISABLE
| HAL_DAC_Stop_DMA | HAL_DAC_Start_DMA
| HAL_ADC_Stop_DMA | HAL_ADC_Start_DMA
| HAL_ADC_IRQHandler | HAL_TIM_IRQHandler
| HAL_NVIC_DisableIRQ | HAL_NVIC_EnableIRQ
| HAL_TIM_PWM_Start_IT | HAL_TIM_PWM_Stop_IT | HAL_TIM_PWM_Stop
| HAL_TIM_Base_Start_IT | HAL_TIM_Base_Stop_IT | HAL_TIM_Base_Stop
| HAL_TIM_Base_Init | HAL_TIM_PWM_Init
| HAL_TIMEx_MasterConfigSynchronization | HAL_TIM_PWM_ConfigChannel
| LL_ADC_SetChannelSamplingTime
| LL_ADC_SetAnalogWDMonitChannels | LL_ADC_SetAnalogWDThresholds
| LL_ADC_EnableIT_AWD1 | LL_ADC_EnableIT_AWD2
| LL_ADC_DisableIT_AWD1 | LL_ADC_DisableIT_AWD2
| LL_DMA_EnableIT_TC | LL_DMA_EnableIT_HT
| LL_DMA_DisableIT_TC | LL_DMA_DisableIT_HT
| delay_us.

(** Named handles and macros passed to those calls. *)
Inductive sym : Set :=
| GPIOB | GPIOC | GPIOD | GPIOE | GPIOG
| hdac1 | hadc1 | hadc2
| htim5 | htim6 | htim7 | htim16 | htim17
| handle_GPDMA2_Channel0 | handle_GPDMA2_Channel1
| ADC1 | ADC2 | ADC1_IRQn
| TIM_CHANNEL_1 | TIM_CHANNEL_2
| DAC_CHANNEL_1 | DAC_CHANNEL_2 | DAC_ALIGN_12B_R
| LL_ADC_CHANNEL_0 | LL_ADC_CHANNEL_3
| LL_ADC_AWD1 | LL_ADC_AWD2
| LL_ADC_AWD_CHANNEL_0_REG | LL_ADC_AWD_CHANNEL_3_REG
| LL_ADC_AWD_THRESHOLD_HIGH | LL_ADC_AWD_THRESHOLD_LOW
| LL_ADC_SAMPLINGTIME_2CYCLES_5 | LL_ADC_SAMPLINGTIME_6CYCLES_5
| LL_ADC_SAMPLINGTIME_12CYCLES_5 | LL_ADC_SAMPLINGTIME_24CYCLES_5
| LL_ADC_SAMPLINGTIME_47CYCLES_5 | LL_ADC_SAMPLINGTIME_92CYCLES_5
| LL_ADC_SAMPLINGTIME_247CYCLES_5 | LL_ADC_SAMPLINGTIME_640CYCLES_5.

Inductive arg : Set :=
| Sym (c : sym)
| Num (z : Z)
| Pin (n : Z)          (* GPIO_PIN_n *)
| Row (a : garr) (i : Z). (* address of a[i] *)

Inductive hw_op : Set :=
| Call (f : hal_fn) (args : list arg)
| RegOr (r : hwreg) (mask : Z)       (* r |= mask  *)
| RegAndNot (r : hwreg) (mask : Z).  (* r &= ~mask *)

(** ** Frames on the USB link *)

Module TRANS_Packet.
(** The 55 bytes of [whitespace] are copied from an uninitialised local
    and carry no information. *)
Record t : Set := mk { packet_type : Z; ack_string : list Z }.
End TRANS_Packet.

Module DATA_Packet.
(** Modelled from the spec: the struct is declared in main.h, which is not
    in the source tree; section 6 gives its layout. *)
Record t : Set := mk {
  packet_type : Z;
  adcpos : Z;
  logicpos : Z;
  oscch1 : list (option Z);
  oscch2 : list (option Z);
  logic : list (option Z)
}.
End DATA_Packet.

Inductive usb_frame : Set :=
| TxAck (p : TRANS_Packet.t)
| TxData (p : DATA_Packet.t)
| TxBytes (b : list Z).

(** ** Device state *)

Record state : Type := mkState {
  gv : gvar -> Z;
  ga : garr -> Z -> Z;
  Logicstate : triggerStates;
  ADCstate : triggerStates;
  regs : reg -> Z;
  usb_tx : list usb_frame;
  hw : list hw_op
}.

Definition rd (x : gvar) (s : state) : Z := gv s x.

Definition wr (x : gvar) (v : Z) (s : state) : state :=
  mkState (fun y => if gvar_beq x y then wrap (width x) v else gv s y)
          (ga s) (Logicstate s) (ADCstate s) (regs s) (usb_tx s) (hw s).

(** [a[i]] for an index inside the array.  Reads the program does not keep
    inside the array go through [cell] below. *)
Definition rd_arr (a : garr) (i : Z) (s : state) : Z := ga s a i.

Definition wr_arr (a : garr) (i v : Z) (s : state) : state :=
  mkState (gv s)
          (fun b j => if garr_beq a b && (i =? j)
                      then wrap (elt_width a) v else ga s b j)
          (Logicstate s) (ADCstate s) (regs s) (usb_tx s) (hw s).

Definition in_bounds (a : garr) (i : Z) : bool :=
  (0 <=? i) && (i <? arr_len a).

Definition rd_reg (r : reg) (s : state) : Z := regs s r.

Definition wr_reg (r : reg) (v : Z) (s : state) : state :=
  mkState (gv s) (ga s) (Logicstate s) (ADCstate s)
          (fun q => if reg_beq r q then u32 v else regs s q)
          (usb_tx s) (hw s).

Definition set_Logicstate (t : triggerStates) (s : state) : state :=
  mkState (gv s) (ga s) t (ADCstate s) (regs s) (usb_tx s) (hw s).

Definition set_ADCstate (t : triggerStates) (s : state) : state :=
  mkState (gv s) (ga s) (Logicstate s) t (regs s) (usb_tx s) (hw s).

Definition emit (o : hw_op) (s : state) : state :=
  mkState (gv s) (ga s) (Logicstate s) (ADCstate s) (regs s) (usb_tx s)
          (hw s ++ [o]).

Definition call (f : hal_fn) (args : list arg) : state -> state :=
  emit (Call f args).

Definition CDC_Transmit_FS (f : usb_frame) (s : state) : state :=
  mkState (gv s) (ga s) (Logicstate s) (ADCstate s) (regs s)
          (usb_tx s ++ [f]) (hw s).

(** Statements are state transformers; [c1 ;; c2] runs [c1] first. *)
Definition seq_ (c1 c2 : state -> state) : state -> state :=
  fun s => c2 (c1 s).
Notation "c1 ;; c2" := (seq_ c1 c2) (at level 61, right associativity).

Definition skip : state -> state := fun s => s.

(** [memset(a, 0, sizeof a)] and [memcpy(a + off, src, n)]. *)
Definition memset0 (a : garr) (s : state) : state :=
  mkState (gv s)
          (fun b j => if garr_beq a b && in_bounds a j then 0 else ga s b j)
          (Logicstate s) (ADCstate s) (regs s) (usb_tx s) (hw s).

Fixpoint memcpy_to (a : garr) (off : Z) (src : list Z) (s : state) : state :=
  match src with
  | [] => s
  | b :: rest => memcpy_to a (off + 1) rest (wr_arr a off b s)
  end.

(** An unguarded read of [a[i]].  Inside the array it yields the element.
    Past the end the C code reads whatever lies behind the array (another
    global, or nothing the program owns): C does not define the value, and
    it is left open here as [None]. *)
Definition cell (a : garr) (i : Z) (s : state) : option Z :=
  if in_bounds a i then Some (rd_arr a i s) else None.

(** [memcpy(dst, &a[off], n * sizeof a[0])]: the [n] cells read, starting at
    [a[off]]. *)
Definition window (a : garr) (off : Z) (n : Z) (s : state)
    : list (option Z) :=
  map (fun k => cell a (off + Z.of_nat k) s) (seq 0 (Z.to_nat n)).

(** ** Incoming frames (DACprocess.h, [RECV_Packet])

    A frame is the byte buffer handed over by the USB stack.  The struct is
    packed, multi-byte fields are little-endian. *)

Definition frame : Set := list Z.

Definition byte_at (p : frame) (i : nat) : Z := u8 (nth i p 0).
Definition le16 (p : frame) (i : nat) : Z :=
  byte_at p i + 256 * byte_at p (i + 1).
Definition le32 (p : frame) (i : nat) : Z :=
  le16 p i + 65536 * le16 p (i + 2).

Module RECV_Packet.
Definition packet_type (p : frame) : Z := byte_at p 0.
Module HandShake.
Definition handshake_string (p : frame) : list Z :=
  map (fun i => byte_at p (1 + i)) (seq 0 HS_STRING_LEN).
End HandShake.
Module AWG_SET.
Definition channel (p : frame) : Z := byte_at p 1.
Definition gain (p : frame) : Z := byte_at p 2.
Definition PSC (p : frame) : Z := le16 p 3.
Definition ARR (p : frame) : Z := le16 p 5.
Definition CCR_offset (p : frame) : Z := le16 p 7.
Definition numSamples (p : frame) : Z := le16 p 9.
Definition phaseARR (p : frame) : Z := le16 p 11.
End AWG_SET.
Module ADC_SET.
Definition channel (p : frame) : Z := byte_at p 1.
Definition adcmode (p : frame) : Z := byte_at p 2.
Definition triggermode (p : frame) : Z := byte_at p 3.
Definition triggerval (p : frame) : Z := le16 p 4.
Definition sampletime (p : frame) : Z := byte_at p 6.
Definition offset (p : frame) : Z := byte_at p 7.
Definition attenuation (p : frame) : Z := byte_at p 8.
Definition amp10 (p : frame) : Z := byte_at p 9.
Definition amp5 (p : frame) : Z := byte_at p 10.
Definition amp2_5 (p : frame) : Z := byte_at p 11.
Definition amp1 (p : frame) : Z := byte_at p 12.
End ADC_SET.
Module LOGIC_SET.
Definition control (p : frame) : Z := byte_at p 1.
Definition triggerpin (p : frame) : Z := le16 p 2.
Definition triggeredge (p : frame) : Z := le16 p 4.
Definition period16 (p : frame) : Z := le16 p 6.
Definition prescaler (p : frame) : Z := le16 p 8.
Definition period32 (p : frame) : Z := le32 p 10.
End LOGIC_SET.
End RECV_Packet.

(** ['S','T','M','A','W','G','2','3'] and ['I','N','I','T']. *)
Definition ACK_STRING : list Z := [83; 84; 77; 65; 87; 71; 50; 51].
Definition HS_STRING : list Z := [73; 78; 73; 84].

(** The string literal "nopacket" with its terminator: [sizeof] is 9. *)
Definition nopacket : list Z := [110; 111; 112; 97; 99; 107; 101; 116; 0].

(** ** Outcome of code that may not return

    [Halted]: [Error_Handler] was entered (interrupts off, endless loop).
    [OutOfBounds]: a store went outside its array; C leaves what happens
    next undefined. *)

Inductive outcome : Type :=
| Returned (s : state)
| Halted (s : state)
| OutOfBounds.

Definition and_then (o : outcome) (k : state -> outcome) : outcome :=
  match o with
  | Returned s => k s
  | Halted s => Halted s
  | OutOfBounds => OutOfBounds
  end.

(** Status returned by the HAL initialisation calls of [MX_TIM16_Init] and
    [MX_TIM5_Init] ([true] for [HAL_OK]). *)
Record hal_results : Set := {
  tim16_base_init : bool;
  tim5_pwm_init : bool;
  tim5_master_config : bool;
  tim5_config_channel_1 : bool;
  tim5_config_channel_2 : bool
}.

Definition hal_ok : hal_results := Build_hal_results true true true true true.

Definition check (ok : bool) (s : state) : outcome :=
  if ok then Returned s else Halted s.

Section Firmware.

Context {hdr : DeviceHeader}.

(** ** main.c: acquisition start and stop *)

Definition GPIO_PIN_SET : Z := 1.
Definition GPIO_PIN_RESET : Z := 0.

Definition ADCstop : state -> state :=
  call HAL_ADC_Stop_DMA [Sym hadc1] ;;
  call HAL_ADC_Stop_DMA [Sym hadc2].

(** Start the buffers and reset any counts. *)
Definition ADCstart : state -> state :=
  call HAL_ADC_Start_DMA [Sym hadc1; Row adc_buff 0; Num ADC_BUFF] ;;
  call HAL_ADC_Start_DMA [Sym hadc2; Row adc_buff1 0; Num ADC_BUFF] ;;
  emit (RegOr ADC2_ISR ADC_ISR_AWD1) ;;
  emit (RegOr ADC2_ISR ADC_ISR_AWD2) ;;
  emit (RegOr ADC1_ISR ADC_ISR_AWD1) ;;
  emit (RegOr ADC1_ISR ADC_ISR_AWD2) ;;
  call HAL_GPIO_WritePin [Sym GPIOD; Pin 6; Num GPIO_PIN_SET] ;;
  wr_reg TIM8_CNT 0 ;;
  wr_reg TIM17_CNT 0 ;;
  wr_reg TIM8_EGR TIM_EGR_UG ;;
  wr_reg TIM17_EGR TIM_EGR_UG ;;
  wr_reg TIM8_CNT 0 ;;
  wr_reg TIM17_CNT 0 ;;
  wr adcpos 0 ;;
  wr shadowCount 0.

(** ** main.c: logic timer re-initialisation *)

Definition MX_TIM16_Init (env : hal_results) (period prescaler : Z)
    (s : state) : outcome :=
  check (tim16_base_init env)
    (call HAL_TIM_Base_Init [Sym htim16; Num prescaler; Num period] s).

Definition MX_TIM5_Init (env : hal_results) (period : Z)
    (s : state) : outcome :=
  let s := memset0 Logic_buff s in
  and_then (check (tim5_pwm_init env)
              (call HAL_TIM_PWM_Init [Sym htim5; Num period] s))
  (fun s =>
  and_then (check (tim5_master_config env)
              (call HAL_TIMEx_MasterConfigSynchronization [Sym htim5] s))
  (fun s =>
  and_then (check (tim5_config_channel_1 env)
              (call HAL_TIM_PWM_ConfigChannel [Sym htim5; Sym TIM_CHANNEL_1] s))
  (fun s =>
  check (tim5_config_channel_2 env)
    (call HAL_TIM_PWM_ConfigChannel [Sym htim5; Sym TIM_CHANNEL_2] s)))).

Definition changeLogic (env : hal_results) (s : state) : outcome :=
  and_then (MX_TIM16_Init env (rd period16 s) (rd prescaler16 s) s)
  (fun s => MX_TIM5_Init env (rd period32 s) s).

(** ** DACprocess.c *)

Definition SendAck : state -> state :=
  CDC_Transmit_FS (TxAck (TRANS_Packet.mk 0 ACK_STRING)).

(** [hadc->Instance] and its status register. *)
Definition Instance (hadc : sym) : sym :=
  match hadc with
  | hadc1 => ADC1
  | hadc2 => ADC2
  | h => h
  end.

Definition ISR_of (hadc : sym) : hwreg :=
  match hadc with
  | hadc2 => ADC2_ISR
  | _ => ADC1_ISR
  end.

Definition disableDMAIT (hdma : sym) : state -> state :=
  call LL_DMA_DisableIT_TC [Sym hdma; Num 0] ;;
  call LL_DMA_DisableIT_TC [Sym hdma; Num 1] ;;
  call LL_DMA_DisableIT_HT [Sym hdma; Num 0] ;;
  call LL_DMA_DisableIT_HT [Sym hdma; Num 1].

Definition enableDMAIT (hdma : sym) : state -> state :=
  call LL_DMA_EnableIT_TC [Sym hdma; Num 0] ;;
  call LL_DMA_EnableIT_TC [Sym hdma; Num 1] ;;
  call LL_DMA_EnableIT_HT [Sym hdma; Num 0] ;;
  call LL_DMA_EnableIT_HT [Sym hdma; Num 1].

Definition enableAWDIT (hadc : sym) : state -> state :=
  call LL_ADC_EnableIT_AWD1 [Sym (Instance hadc)] ;;
  call LL_ADC_EnableIT_AWD2 [Sym (Instance hadc)] ;;
  emit (RegOr (ISR_of hadc) ADC_ISR_AWD1) ;;
  emit (RegOr (ISR_of hadc) ADC_ISR_AWD2).

Definition disableAWDIT (hadc : sym) : state -> state :=
  call LL_ADC_DisableIT_AWD1 [Sym (Instance hadc)] ;;
  call LL_ADC_DisableIT_AWD2 [Sym (Instance hadc)] ;;
  emit (RegOr (ISR_of hadc) ADC_ISR_AWD1) ;;
  emit (RegOr (ISR_of hadc) ADC_ISR_AWD2).

Definition SetSamplingTime (code : sym) : state -> state :=
  call LL_ADC_SetChannelSamplingTime [Sym ADC1; Sym LL_ADC_CHANNEL_0; Sym code] ;;
  call LL_ADC_SetChannelSamplingTime [Sym ADC2; Sym LL_ADC_CHANNEL_3; Sym code].

(** Change the varying sample times for the ADC. *)
Definition changeSamplingtime (sampletime : Z) : state -> state :=
  match sampletime with
  | 0 => SetSamplingTime LL_ADC_SAMPLINGTIME_2CYCLES_5
  | 1 => SetSamplingTime LL_ADC_SAMPLINGTIME_6CYCLES_5
  | 2 => SetSamplingTime LL_ADC_SAMPLINGTIME_12CYCLES_5
  | 3 => SetSamplingTime LL_ADC_SAMPLINGTIME_24CYCLES_5
  | 4 => SetSamplingTime LL_ADC_SAMPLINGTIME_47CYCLES_5
  | 5 => SetSamplingTime LL_ADC_SAMPLINGTIME_92CYCLES_5
  | 6 => SetSamplingTime LL_ADC_SAMPLINGTIME_247CYCLES_5
  | 7 => SetSamplingTime LL_ADC_SAMPLINGTIME_640CYCLES_5
  | _ => skip
  end.

Definition changeADCmode (mode : Z) : state -> state :=
  match mode with
  | 0 => (* 5Mhz sampling with shadow sampling at 1/100 or 50Khz *)
    wr_reg TIM8_PSC (25 - 1) ;; wr_reg TIM8_ARR (2 - 1) ;;
    wr_reg TIM17_PSC (500 - 1) ;; wr_reg TIM17_ARR (10 - 1) ;;
    changeSamplingtime 0
  | 1 => wr_reg TIM8_ARR (5 - 1) ;; wr_reg TIM17_ARR (25 - 1) ;;
         changeSamplingtime 0
  | 2 => wr_reg TIM8_ARR (10 - 1) ;; wr_reg TIM17_ARR (50 - 1) ;;
         changeSamplingtime 2
  | 3 => wr_reg TIM8_ARR (20 - 1) ;; wr_reg TIM17_ARR (100 - 1) ;;
         changeSamplingtime 4
  | 4 => wr_reg TIM8_ARR (50 - 1) ;; wr_reg TIM17_ARR (250 - 1) ;;
         changeSamplingtime 5
  | 5 => wr_reg TIM8_ARR (100 - 1) ;; wr_reg TIM17_ARR (500 - 1) ;;
         changeSamplingtime 6
  | 6 => wr_reg TIM8_ARR (200 - 1) ;; wr_reg TIM17_ARR (1000 - 1) ;;
         changeSamplingtime 7
  | 7 => wr_reg TIM8_ARR (500 - 1) ;; wr_reg TIM17_ARR (2500 - 1) ;;
         changeSamplingtime 7
  | 8 => wr_reg TIM8_ARR (1000 - 1) ;; wr_reg TIM17_ARR (5000 - 1) ;;
         changeSamplingtime 7
  | 9 => wr_reg TIM8_ARR (2000 - 1) ;; wr_reg TIM17_ARR (10000 - 1) ;;
         changeSamplingtime 7
  | 10 => wr_reg TIM8_ARR (5000 - 1) ;; wr_reg TIM17_ARR (25000 - 1) ;;
          changeSamplingtime 7
  | 11 => wr_reg TIM8_ARR (10000 - 1) ;; wr_reg TIM17_ARR (50000 - 1) ;;
          changeSamplingtime 7
  | _ =>
    wr_reg TIM8_PSC (25 - 1) ;; wr_reg TIM8_ARR (2 - 1) ;;
    wr_reg TIM17_PSC (500 - 1) ;; wr_reg TIM17_ARR (10 - 1) ;;
    changeSamplingtime 0
  end.

(** *** The command handler, branch by branch *)

(** Handshake: compare the embedded string with [HS_STRING] byte by byte. *)
Definition hs_match (magic : list Z) : Z :=
  fold_left
    (fun (match_ : Z) (i : nat) =>
       if negb (nth i magic 0 =? nth i HS_STRING 0) then 0 else match_)
    (seq 0 HS_STRING_LEN) 1.

Definition on_HandShake (packet : frame) : state -> state :=
  let magic := RECV_Packet.HandShake.handshake_string packet in
  (if truthy (hs_match magic) then SendAck else skip) ;;
  call HAL_GPIO_TogglePin [Sym GPIOD; Pin 6].

(** Waveform set.  [chan] indexes the two-element arrays [numSamples],
    [phaseARR] and the rows of [awg_lut] without a range check. *)
Definition on_AWG_SET (packet : frame) (s : state) : outcome :=
  let s := SendAck s in
  let chan := RECV_Packet.AWG_SET.channel packet in
  let PSC := RECV_Packet.AWG_SET.PSC packet in
  let ARR := RECV_Packet.AWG_SET.ARR packet in
  let CCR_offset := RECV_Packet.AWG_SET.CCR_offset packet in
  if negb (in_bounds numSamples chan) then OutOfBounds else
  let s := wr_arr numSamples chan (RECV_Packet.AWG_SET.numSamples packet) s in
  let s := wr_arr phaseARR chan (RECV_Packet.AWG_SET.phaseARR packet) s in
  let gain := RECV_Packet.AWG_SET.gain packet in
  let s := wr BULK_BUFF_RECV
              (if rd_arr numSamples chan s <? 32 then 128
               else rd_arr numSamples chan s * 2) s in
  let s := wr BULK_BUFF (chan * (AWG_SAMPLES * 2)) s in
  let s :=
    if chan =? 0 then
      (wr_reg TIM1_CCR1 CCR_offset ;;
       wr_reg TIM6_ARR ARR ;;
       wr_reg TIM6_PSC PSC ;;
       wr_arr ARR_hold 0 ARR ;;
       call HAL_GPIO_WritePin [Sym GPIOE; Pin 13; Num gain]) s
    else
      (wr_reg TIM1_CCR2 CCR_offset ;;
       wr_reg TIM7_ARR ARR ;;
       wr_reg TIM7_PSC PSC ;;
       wr_arr ARR_hold 1 ARR ;;
       call HAL_GPIO_WritePin [Sym GPIOE; Pin 12; Num gain]) s in
  (* restart both channels to get correct phase *)
  let s :=
    (call HAL_TIM_DISABLE [Sym htim6] ;;
     call HAL_TIM_DISABLE [Sym htim7] ;;
     call HAL_DAC_Stop_DMA [Sym hdac1; Sym DAC_CHANNEL_1] ;;
     call HAL_DAC_Stop_DMA [Sym hdac1; Sym DAC_CHANNEL_2]) s in
  let s :=
    call HAL_DAC_Start_DMA
      [Sym hdac1; Sym DAC_CHANNEL_1; Row awg_lut 0;
       Num (rd_arr numSamples 0 s); Sym DAC_ALIGN_12B_R] s in
  let s :=
    call HAL_DAC_Start_DMA
      [Sym hdac1; Sym DAC_CHANNEL_2; Row awg_lut (AWG_SAMPLES * 2);
       Num (rd_arr numSamples 1 s); Sym DAC_ALIGN_12B_R] s in
  let s := (wr_reg TIM6_EGR TIM_EGR_UG ;; wr_reg TIM7_EGR TIM_EGR_UG) s in
  (* set clock phase *)
  let s := wr_reg TIM6_CNT (rd_arr phaseARR 0 s - rd_arr ARR_hold 1 s) s in
  let s := wr_reg TIM7_CNT (rd_arr phaseARR 1 s - rd_arr ARR_hold 0 s) s in
  Returned
    ((emit (RegOr TIM6_CR1 TIM_CR1_CEN) ;;
      emit (RegOr TIM7_CR1 TIM_CR1_CEN)) s).

Definition SetAnalogWDThresholds (adc awd : sym) (high low : Z)
    : state -> state :=
  call LL_ADC_SetAnalogWDThresholds
    [Sym adc; Sym awd; Sym LL_ADC_AWD_THRESHOLD_HIGH; Num (u32 high)] ;;
  call LL_ADC_SetAnalogWDThresholds
    [Sym adc; Sym awd; Sym LL_ADC_AWD_THRESHOLD_LOW; Num (u32 low)].

(** Arm both watchdogs of one converter around [triggerval]; [d2hi] and
    [d2lo] place the window of the second watchdog. *)
Definition armAWD (hadc adc chreg : sym) (triggerval d2hi d2lo : Z)
    : state -> state :=
  call LL_ADC_SetAnalogWDMonitChannels [Sym adc; Sym LL_ADC_AWD1; Sym chreg] ;;
  call LL_ADC_SetAnalogWDMonitChannels [Sym adc; Sym LL_ADC_AWD2; Sym chreg] ;;
  SetAnalogWDThresholds adc LL_ADC_AWD1 (triggerval + 15) (triggerval - 15) ;;
  SetAnalogWDThresholds adc LL_ADC_AWD2
    (Z.shiftr (triggerval + d2hi) 4) (Z.shiftr (triggerval + d2lo) 4) ;;
  enableAWDIT hadc.

(** Front-end outputs of the selected channel. *)
Definition write_front_end (packet : frame) : state -> state :=
  let chan := RECV_Packet.ADC_SET.channel packet in
  let offset := RECV_Packet.ADC_SET.offset packet in
  let attenuation := RECV_Packet.ADC_SET.attenuation packet in
  let amp10 := RECV_Packet.ADC_SET.amp10 packet in
  let amp5 := RECV_Packet.ADC_SET.amp5 packet in
  let amp2_5 := RECV_Packet.ADC_SET.amp2_5 packet in
  let amp1 := RECV_Packet.ADC_SET.amp1 packet in
  (if chan =? 0 then
     call HAL_GPIO_WritePin [Sym GPIOD; Pin 2; Num offset] ;;
     call HAL_GPIO_WritePin [Sym GPIOD; Pin 1; Num attenuation] ;;
     call HAL_GPIO_WritePin [Sym GPIOD; Pin 0; Num amp10] ;;
     call HAL_GPIO_WritePin [Sym GPIOC; Pin 12; Num amp5] ;;
     call HAL_GPIO_WritePin [Sym GPIOC; Pin 11; Num amp2_5] ;;
     call HAL_GPIO_WritePin [Sym GPIOC; Pin 10; Num amp1]
   else skip) ;;
  (if chan =? 1 then
     call HAL_GPIO_WritePin [Sym GPIOE; Pin 7; Num offset] ;;
     call HAL_GPIO_WritePin [Sym GPIOG; Pin 1; Num attenuation] ;;
     call HAL_GPIO_WritePin [Sym GPIOG; Pin 0; Num amp10] ;;
     call HAL_GPIO_WritePin [Sym GPIOB; Pin 10; Num amp5] ;;
     call HAL_GPIO_WritePin [Sym GPIOE; Pin 15; Num amp2_5] ;;
     call HAL_GPIO_WritePin [Sym GPIOE; Pin 14; Num amp1]
   else skip).

(** [switch (triggermode)]. *)
Definition switch_triggermode (chan triggermode triggerval : Z)
    : state -> state :=
  match triggermode with
  | 0 => (* No trigger (sample and send) *)
    set_ADCstate noTrigger ;;
    emit (RegAndNot ADC1_CR ADC_CR_ADSTART) ;;
    emit (RegAndNot ADC2_CR ADC_CR_ADSTART) ;;
    disableAWDIT hadc1 ;;
    disableAWDIT hadc2 ;;
    enableDMAIT handle_GPDMA2_Channel0 ;;
    enableDMAIT handle_GPDMA2_Channel1
  | 1 => (* Rising edge trigger *)
    set_ADCstate preTrigger ;;
    emit (RegOr ADC1_CR ADC_CR_ADSTART) ;;
    emit (RegOr ADC2_CR ADC_CR_ADSTART) ;;
    disableDMAIT handle_GPDMA2_Channel0 ;;
    disableDMAIT handle_GPDMA2_Channel1 ;;
    (if chan =? 0
     then armAWD hadc1 ADC1 LL_ADC_AWD_CHANNEL_0_REG triggerval (-35) (-65)
     else armAWD hadc2 ADC2 LL_ADC_AWD_CHANNEL_3_REG triggerval (-35) (-65))
  | 2 => (* Falling edge trigger, same logic as rising edge trigger *)
    set_ADCstate preTrigger ;;
    disableDMAIT handle_GPDMA2_Channel0 ;;
    disableDMAIT handle_GPDMA2_Channel1 ;;
    (if chan =? 0
     then armAWD hadc1 ADC1 LL_ADC_AWD_CHANNEL_0_REG triggerval 65 35
     else armAWD hadc2 ADC2 LL_ADC_AWD_CHANNEL_3_REG triggerval 65 35)
  | _ => set_ADCstate noTrigger
  end.

(** ADC packet.  First configure GPIO outputs, then adjust the ADC sampling
    rate, lastly change things depending on trigger mode. *)
Definition on_ADC_SET (packet : frame) : state -> state :=
  SendAck ;;
  write_front_end packet ;;
  ADCstop ;;
  changeADCmode (RECV_Packet.ADC_SET.adcmode packet) ;;
  switch_triggermode (RECV_Packet.ADC_SET.channel packet)
                     (RECV_Packet.ADC_SET.triggermode packet)
                     (RECV_Packet.ADC_SET.triggerval packet) ;;
  ADCstart ;;
  emit (RegOr ADC1_CR ADC_CR_ADEN) ;;
  emit (RegOr ADC2_CR ADC_CR_ADEN) ;;
  emit (RegOr ADC1_CR ADC_CR_ADSTART) ;;
  emit (RegOr ADC2_CR ADC_CR_ADSTART).

Definition on_LOGIC_SET (env : hal_results) (packet : frame)
    (s : state) : outcome :=
  let s := SendAck s in
  let control := RECV_Packet.LOGIC_SET.control packet in
  let s :=
    (wr trigPin (RECV_Packet.LOGIC_SET.triggerpin packet) ;;
     wr trigEdge (RECV_Packet.LOGIC_SET.triggeredge packet) ;;
     wr period16 (RECV_Packet.LOGIC_SET.period16 packet) ;;
     wr prescaler16 (RECV_Packet.LOGIC_SET.prescaler packet) ;;
     wr period32 (RECV_Packet.LOGIC_SET.period32 packet)) s in
  if control =? 1 then
    (* Start PWM timer and set to pretrigger *)
    let s :=
      (call HAL_TIM_PWM_Start_IT [Sym htim5; Sym TIM_CHANNEL_1] ;;
       call HAL_TIM_PWM_Stop [Sym htim5; Sym TIM_CHANNEL_1] ;;
       call HAL_TIM_Base_Stop [Sym htim16]) s in
    and_then (changeLogic env s)
      (fun s =>
         Returned
           ((call HAL_TIM_PWM_Start_IT [Sym htim5; Sym TIM_CHANNEL_1] ;;
             set_Logicstate preTrigger) s))
  else
    (* Stop *)
    Returned
      ((call HAL_TIM_PWM_Stop_IT [Sym htim5; Sym TIM_CHANNEL_1] ;;
        call HAL_TIM_Base_Stop [Sym htim16] ;;
        set_Logicstate preTrigger) s).

(** A frame received while a bulk transfer is pending is table data: its
    64 bytes are copied to [BULK_BUFF], which moves on by 64. *)
Definition on_bulk (ptr : frame) (s : state) : outcome :=
  let dst := rd BULK_BUFF s in
  if negb (in_bounds awg_lut dst && in_bounds awg_lut (dst + 63))
  then OutOfBounds else
  let s := memcpy_to awg_lut dst (map (byte_at ptr) (seq 0 64)) s in
  let s := wr BULK_BUFF (rd BULK_BUFF s + 64) s in
  let s := wr BULK_BUFF_RECV (rd BULK_BUFF_RECV s - 64) s in
  Returned (if negb (truthy (rd BULK_BUFF_RECV s)) then SendAck s else s).

Definition dispatch (env : hal_results) (ptr : frame) (s : state)
    : outcome :=
  if negb (truthy (rd BULK_BUFF_RECV s)) then
    let packet := ptr in
    if RECV_Packet.packet_type packet =? 0 then
      Returned (on_HandShake packet s)
    else if RECV_Packet.packet_type packet =? 1 then
      on_AWG_SET packet s
    else if RECV_Packet.packet_type packet =? 2 then
      Returned (on_ADC_SET packet s)
    else if RECV_Packet.packet_type packet =? 3 then
      on_LOGIC_SET env packet s
    else
      Returned (CDC_Transmit_FS (TxBytes nopacket) s)
  else
    on_bulk ptr s.

Definition GotCDC_64B_Packet (env : hal_results) (ptr : frame) (s : state)
    : outcome :=
  and_then (dispatch env ptr (wr pauseTransmit 1 s))
    (fun s => Returned (wr pauseTransmit 0 s)).

(** ** stm32h5xx_it.c *)

(** ADC1 interrupt.  [isr_awd2] and [isr_awd1] are the values of [ADC1->ISR]
    at the two places the handler reads it. *)
Definition ADC1_IRQHandler (isr_awd2 isr_awd1 : Z) (s : state) : state :=
  let s :=
    if rd firstTrigger s =? 0 then
      wr firstTrigger (rd firstTrigger s + 1) s
    else
      let s :=
        if truthy (Z.land isr_awd2 ADC_ISR_AWD2)
        then wr triggerType 1 s (* Ensures that the proper edge is occurring *)
        else s in
      if truthy (Z.land isr_awd1 ADC_ISR_AWD1) then
        (* If analog watchdog 1 is triggered *)
        if rd triggerType s =? 1 then
          (call HAL_GPIO_TogglePin [Sym GPIOD; Pin 5] ;;
           wr triggerType 2 ;;
           wr firstTrigger 0 ;;
           call HAL_NVIC_DisableIRQ [Sym ADC1_IRQn]) s
        else s
      else s in
  call HAL_ADC_IRQHandler [Sym hadc1] s.

Definition gotAWD1 (hadc : sym) : state -> state :=
  call LL_ADC_DisableIT_AWD1 [Sym (Instance hadc)] ;;
  emit (RegOr (ISR_of hadc) ADC_ISR_AWD1).

Definition gotAWD2 (hadc : sym) : state -> state :=
  call LL_ADC_DisableIT_AWD2 [Sym (Instance hadc)] ;;
  emit (RegOr (ISR_of hadc) ADC_ISR_AWD2).

(** ADC2 interrupt.  The second test is written
    [(ADC2->ISR & ADC_ISR_AWD1) & triggerType==1]: [==] binds tighter than
    [&], so the masked status is and-ed bitwise with the 0/1 value of the
    comparison. *)
Definition ADC2_IRQHandler (isr_awd2 isr_awd1 : Z) (s : state) : state :=
  let s :=
    if truthy (Z.land isr_awd2 ADC_ISR_AWD2)
    then (wr triggerType 1 ;; emit (RegOr ADC2_ISR ADC_ISR_AWD2)) s
    else s in
  let s :=
    if truthy (Z.land (Z.land isr_awd1 ADC_ISR_AWD1)
                      (c_bool (rd triggerType s =? 1)))
    then
      (call HAL_GPIO_TogglePin [Sym GPIOD; Pin 5] ;;
       wr triggerType 2 ;;
       emit (RegOr ADC2_ISR ADC_ISR_AWD1) ;;
       gotAWD2 hadc2 ;;
       gotAWD1 hadc2) s
    else s in
  call HAL_ADC_IRQHandler [Sym hadc2] s.

(** Shadow timer: counts up in hundreds, doesnt go past 30000. *)
Definition TIM17_IRQHandler (s : state) : state :=
  let s :=
    if rd shadowCount s <? 30000
    then wr shadowCount (rd shadowCount s + 100) s
    else s in
  call HAL_TIM_IRQHandler [Sym htim17] s.

(** ** main.c: callbacks *)

Definition HAL_ADC_ConvHalfCpltCallback : state -> state :=
  wr halfcomplete 1.

Definition HAL_ADC_ConvCpltCallback (s : state) : state :=
  let s :=
    (call HAL_GPIO_WritePin [Sym GPIOD; Pin 6; Num GPIO_PIN_RESET] ;;
     call HAL_GPIO_TogglePin [Sym GPIOD; Pin 7] ;;
     ADCstop) s in
  let s :=
    match ADCstate s with
    | noTrigger => ADCstop s (* Should only ever be the case *)
    | _ => s
    end in
  wr fullcomplete 1 s.

(** Timer 16 elapsed: signal the start of data transmission. *)
Definition HAL_TIM_PeriodElapsedCallback (htim : sym) : state -> state :=
  match htim with
  | htim16 =>
    set_Logicstate postTrigger ;;
    wr logicpos 0 ;;
    call HAL_TIM_PWM_Stop_IT [Sym htim5; Sym TIM_CHANNEL_1] ;;
    call HAL_TIM_Base_Stop_IT [Sym htim16]
  | _ => skip
  end.

(** [htim->Channel], set by the HAL before it calls a channel callback. *)
Inductive HAL_TIM_ActiveChannel : Set :=
| HAL_TIM_ACTIVE_CHANNEL_1 | HAL_TIM_ACTIVE_CHANNEL_2
| HAL_TIM_ACTIVE_CHANNEL_3 | HAL_TIM_ACTIVE_CHANNEL_4
| HAL_TIM_ACTIVE_CHANNEL_5 | HAL_TIM_ACTIVE_CHANNEL_6
| HAL_TIM_ACTIVE_CHANNEL_CLEARED.

Definition is_preTrigger (t : triggerStates) : bool :=
  match t with preTrigger => true | _ => false end.

Definition fire_logic_trigger : state -> state :=
  set_Logicstate triggerState ;;
  call HAL_TIM_Base_Start_IT [Sym htim16].

(** The edge test of the capture callback, lines 1765-1792.  The tests
    [pastValue &= trigPin] and [currentValue &= trigPin] are compound
    assignments: they store the masked value before testing it. *)
Definition logic_trigger_check (s : state) : state :=
  if is_preTrigger (Logicstate s) then
    let s :=
      if rd trigEdge s =? 0 then
        let s := wr pastValue (Z.land (rd pastValue s) (rd trigPin s)) s in
        if truthy (rd pastValue s) then
          if negb (truthy (Z.land (rd currentValue s) (rd trigPin s)))
          then fire_logic_trigger s
          else s
        else s
      else s in
    if rd trigEdge s =? 1 then
      if negb (truthy (Z.land (rd pastValue s) (rd trigPin s))) then
        let s :=
          wr currentValue (Z.land (rd currentValue s) (rd trigPin s)) s in
        if truthy (rd currentValue s)
        then fire_logic_trigger s
        else s
      else s
    else s
  else s.

(** Store the sample and advance the circular write pointer. *)
Definition store_logic_sample (s : state) : state :=
  let s := wr_arr Logic_buff (rd logicWritePointer s) (rd currentValue s) s in
  let s := wr logicWritePointer (rd logicWritePointer s + 1) s in
  let s :=
    if rd logicWritePointer s >=? LOGIC_BUFF
    then wr logicWritePointer 0 s
    else s in
  wr pastValue (rd currentValue s) s.

(** Per-sample capture of the logic analyser.  [IDR] is the value read from
    [GPIOF->IDR]. *)
Definition HAL_TIM_PWM_PulseFinishedCallback
    (Channel : HAL_TIM_ActiveChannel) (IDR : Z) (s : state) : state :=
  (* Read the current value from the input pin *)
  let s := wr currentValue IDR s in
  let s :=
    match Channel with
    | HAL_TIM_ACTIVE_CHANNEL_1 => logic_trigger_check s
    | _ => s
    end in
  store_logic_sample s.

(** ** main.c: the outgoing data frame *)

Definition sendData (adco lgco : Z) (s : state) : state :=
  CDC_Transmit_FS
    (TxData
       (DATA_Packet.mk 5 (u16 adco) (u16 lgco)
          (window adc_buff adco datalength s)
          (window adc_buff1 adco datalength s)
          (window Logic_buff lgco datalength s)))
    s.

(** ** main.c: one pass of the [while (1)] loop, in its three parts *)

Definition ADC_BUFF_full (s : state) : bool := rd adcpos s >? 30000 - 1.

(** [switch (ADCstate)], lines 333-393. *)
Definition adc_phase (s : state) : state :=
  match ADCstate s with
  | noTrigger =>
    let s :=
      if ADC_BUFF_full s then
        (* Finished transmitting buffer so reset n and shadowCount,
           restart ADC *)
        (wr adcsend 0 ;;
         wr adcpos 0 ;;
         wr shadowCount 0 ;;
         wr_reg TIM17_EGR TIM_EGR_UG ;;
         ADCstart) s
      else s in
    if truthy (Z.land (c_bool (rd shadowCount s - rd adcpos s >? 0))
                      (c_bool (rd pauseTransmit s =? 0)))
    then wr adcsend 1 s (* Sample is ready and no active USB transmission *)
    else s
  | preTrigger =>
    if rd triggerType s =? 2 then
      (* Confirmed trigger, reset shadow count and buffer position *)
      (wr adcpos 0 ;;
       wr shadowCount 0 ;;
       set_ADCstate triggerState) s
    else s
  | triggerState =>
    if rd shadowCount s >=? rd triggerDuration s then
      (* Finished sampling after the trigger, stop the ADC *)
      (ADCstop ;; set_ADCstate postTrigger) s
    else s
  | postTrigger =>
    if ADC_BUFF_full s then
      (* If done sending, reset counters and restart AWD IT *)
      (wr adcsend 0 ;;
       wr adcpos 0 ;;
       wr shadowCount 0 ;;
       wr triggerType 0 ;;
       set_ADCstate preTrigger ;;
       ADCstart ;;
       call delay_us [Num 10] ;;
       call HAL_NVIC_EnableIRQ [Sym ADC1_IRQn] ;;
       call HAL_GPIO_TogglePin [Sym GPIOD; Pin 4]) s
    else if rd pauseTransmit s =? 0 then
      wr adcsend 1 s (* Send the data *)
    else s
  end.

(** [switch (Logicstate)], lines 394-419. *)
Definition logic_phase (s : state) : state :=
  match Logicstate s with
  | postTrigger =>
    let s := wr trigger 0 s in
    if rd logicpos s >=? LOGIC_BUFF then
      (* Done sending *)
      (memset0 Logic_buff ;;
       wr logicpos 0 ;;
       wr logicsend 0 ;;
       call HAL_TIM_PWM_Start_IT [Sym htim5; Sym TIM_CHANNEL_1] ;;
       set_Logicstate preTrigger) s
    else
      let s := wr logicsend 1 s in
      wr logicpos (rd logicpos s + datalength) s
  | _ => s
  end.

(** Lines 421-442: if either the logic analyzer or oscilloscope are ready
    to send data. *)
Definition send_phase (s : state) : state :=
  if truthy (Z.land (c_bool ((rd adcsend s =? 1) || (rd logicsend s =? 1)))
                    (c_bool (rd pauseTransmit s =? 0)))
  then
    let s :=
      if truthy (Z.land (c_bool (rd adcsend s =? 1))
                        (c_bool (rd logicsend s =? 1))) then
        let s := sendData (rd adcpos s) (rd logicpos s) s in
        let s := wr adcpos (rd adcpos s + datalength) s in
        wr logicpos (rd logicpos s + datalength) s
      else if truthy (Z.land (c_bool (rd adcsend s =? 0))
                             (c_bool (rd logicsend s =? 1))) then
        let s := sendData 40000 (rd logicpos s) s in
        wr logicpos (rd logicpos s + datalength) s
      else if truthy (Z.land (c_bool (rd adcsend s =? 1))
                             (c_bool (rd logicsend s =? 0))) then
        let s := sendData (rd adcpos s) 40000 s in
        wr adcpos (rd adcpos s + datalength) s
      else s in
    (wr adcsend 0 ;;
     wr logicsend 0 ;;
     call delay_us [Num 150]) s
  else s.

Definition main_loop_pass : state -> state :=
  adc_phase ;; logic_phase ;; send_phase.

(** ** The firmware as a transition system

    The main loop and the interrupt sources interleave.  An event is one
    part of a main-loop pass or one complete handler or callback; a sample
    stored by the ADC DMA is an event of the hardware. *)

Inductive event : Type :=
| MainADC
| MainLogic
| MainSend
| IrqADC1 (isr_awd2 isr_awd1 : Z)
| IrqADC2 (isr_awd2 isr_awd1 : Z)
| IrqTIM17
| PeriodElapsed (htim : sym)
| PulseFinished (Channel : HAL_TIM_ActiveChannel) (IDR : Z)
| ConvHalfCplt
| ConvCplt
| Sample (a : garr) (i v : Z)
| Packet (env : hal_results) (ptr : frame).

Definition is_adc_buffer (a : garr) : bool :=
  match a with adc_buff | adc_buff1 => true | _ => false end.

Definition step (e : event) (s : state) : outcome :=
  match e with
  | MainADC => Returned (adc_phase s)
  | MainLogic => Returned (logic_phase s)
  | MainSend => Returned (send_phase s)
  | IrqADC1 i2 i1 => Returned (ADC1_IRQHandler i2 i1 s)
  | IrqADC2 i2 i1 => Returned (ADC2_IRQHandler i2 i1 s)
  | IrqTIM17 => Returned (TIM17_IRQHandler s)
  | PeriodElapsed htim => Returned (HAL_TIM_PeriodElapsedCallback htim s)
  | PulseFinished ch idr =>
    Returned (HAL_TIM_PWM_PulseFinishedCallback ch idr s)
  | ConvHalfCplt => Returned (HAL_ADC_ConvHalfCpltCallback s)
  | ConvCplt => Returned (HAL_ADC_ConvCpltCallback s)
  | Sample a i v =>
    Returned (if is_adc_buffer a && in_bounds a i then wr_arr a i v s else s)
  | Packet env ptr => GotCDC_64B_Packet env ptr s
  end.

Definition run (tr : list event) (s : state) : outcome :=
  fold_left (fun o e => and_then o (step e)) tr (Returned s).

(** State on entry to the main loop: the initialisers of the globals, the
    two assignments of [main] before the loop, and the timer registers as
    the HAL initialisation left them ([r0]). *)
Definition boot (r0 : reg -> Z) : state :=
  mkState
    (fun x =>
       match x with
       | triggerDuration => 100
       | period16 => 65535
       | prescaler16 => 1
       | period32 => 36000
       | _ => 0
       end)
    (fun _ _ => 0)
    preTrigger noTrigger r0 [] [].

Definition reachable (s : state) : Prop :=
  exists r0 tr, run tr (boot r0) = Returned s.

(** Frames handed to the USB stack by a run, whether or not it returned. *)
Definition sent (o : outcome) : list usb_frame :=
  match o with
  | Returned s | Halted s => usb_tx s
  | OutOfBounds => []
  end.

(** ** Reasoning support *)

(** Unfold the store primitives and nothing else. *)
Ltac store :=
  unfold seq_, skip in *;
  cbn [rd wr rd_arr wr_arr rd_reg wr_reg set_Logicstate set_ADCstate
       emit call CDC_Transmit_FS seq_ skip memset0 SendAck
       gv ga Logicstate ADCstate regs usb_tx hw
       gvar_beq garr_beq reg_beq andb orb negb width elt_width] in *.

Lemma wrap_range (w x : Z) : 0 <= w -> 0 <= wrap w x < 2 ^ w.
Proof.
  intros Hw. unfold wrap. apply Z.mod_pos_bound. apply Z.pow_pos_nonneg; lia.
Qed.

Lemma wrap_small (w x : Z) : 0 <= x < 2 ^ w -> wrap w x = x.
Proof. intros H. unfold wrap. apply Z.mod_small; exact H. Qed.

Lemma usb_tx_wr (x : gvar) (v : Z) (s : state) :
  usb_tx (wr x v s) = usb_tx s.
Proof. reflexivity. Qed.

Lemma rd_reg_wr (r : reg) (x : gvar) (v : Z) (s : state) :
  rd_reg r (wr x v s) = rd_reg r s.
Proof. reflexivity. Qed.

Lemma rd_wr_same (x : gvar) (v : Z) (s : state) :
  rd x (wr x v s) = wrap (width x) v.
Proof. unfold rd, wr. cbn [gv]. destruct x; reflexivity. Qed.

Lemma rd_wr_other (x y : gvar) (v : Z) (s : state) :
  x <> y -> rd y (wr x v s) = rd y s.
Proof.
  intros H. unfold rd, wr. cbn [gv].
  destruct x, y; try reflexivity; contradiction H; reflexivity.
Qed.

Lemma truthy_true (z : Z) : truthy z = true <-> z <> 0.
Proof.
  unfold truthy. destruct (Z.eqb_spec z 0); cbn; split; intros; congruence.
Qed.

Lemma truthy_false (z : Z) : truthy z = false <-> z = 0.
Proof.
  unfold truthy. destruct (Z.eqb_spec z 0); cbn; split; intros; congruence.
Qed.

Lemma run_app (tr1 tr2 : list event) (s : state) :
  run (tr1 ++ tr2) s =
  fold_left (fun o e => and_then o (step e)) tr2 (run tr1 s).
Proof. unfold run. apply fold_left_app. Qed.

Lemma run_snoc (tr : list event) (e : event) (s : state) :
  run (tr ++ [e]) s = and_then (run tr s) (step e).
Proof. rewrite run_app. reflexivity. Qed.

Lemma fold_stuck_Halted (tr : list event) (s : state) :
  fold_left (fun o e => and_then o (step e)) tr (Halted s) = Halted s.
Proof. induction tr as [|e tr IH]; cbn; auto. Qed.

Lemma fold_stuck_OutOfBounds (tr : list event) :
  fold_left (fun o e => and_then o (step e)) tr OutOfBounds = OutOfBounds.
Proof. induction tr as [|e tr IH]; cbn; auto. Qed.

Lemma run_cons (e : event) (tr : list event) (s : state) :
  run (e :: tr) s = and_then (step e s) (run tr).
Proof.
  unfold run. cbn [fold_left and_then].
  destruct (step e s) as [s1| s1 |]; cbn [and_then].
  - reflexivity.
  - apply fold_stuck_Halted.
  - apply fold_stuck_OutOfBounds.
Qed.

(** Reachability is closed under events that return. *)
Lemma reachable_step (e : event) (s s' : state) :
  reachable s -> step e s = Returned s' -> reachable s'.
Proof.
  intros (r0 & tr & Hrun) Hstep. exists r0, (tr ++ [e]).
  rewrite run_snoc, Hrun. exact Hstep.
Qed.

Lemma reachable_boot (r0 : reg -> Z) : reachable (boot r0).
Proof. exists r0, []. reflexivity. Qed.

(** Induction over the reachable states. *)
Lemma reachable_ind (P : state -> Prop) :
  (forall r0, P (boot r0)) ->
  (forall e s s', reachable s -> P s -> step e s = Returned s' -> P s') ->
  forall s, reachable s -> P s.
Proof.
  intros Hboot Hstep s (r0 & tr & Hrun). revert s Hrun.
  induction tr as [|e tr IH] using rev_ind; intros s Hrun.
  - cbn in Hrun. injection Hrun as <-. apply Hboot.
  - rewrite run_snoc in Hrun.
    destruct (run tr (boot r0)) as [m| m |] eqn:Hm; cbn in Hrun;
      try discriminate.
    apply (Hstep e m s); auto. exists r0, tr. exact Hm.
Qed.

(** *** Code that only talks to the hardware *)

(** [hw_only f]: [f] leaves the store and the USB queue alone; it may write
    timer registers and it appends to the log. *)
Definition hw_only (f : state -> state) : Prop :=
  forall s,
    gv (f s) = gv s /\ ga (f s) = ga s /\
    Logicstate (f s) = Logicstate s /\ ADCstate (f s) = ADCstate s /\
    usb_tx (f s) = usb_tx s /\
    exists l, hw (f s) = hw s ++ l.

(** [log_only f]: moreover the register file is untouched. *)
Definition log_only (f : state -> state) : Prop :=
  hw_only f /\ forall s, regs (f s) = regs s.

Lemma hw_only_skip : hw_only skip.
Proof.
  intros s. repeat split. exists []. symmetry. apply app_nil_r.
Qed.

Lemma hw_only_emit (o : hw_op) : hw_only (emit o).
Proof. intros s. repeat split. exists [o]. reflexivity. Qed.

Lemma hw_only_call (f : hal_fn) (args : list arg) : hw_only (call f args).
Proof. apply hw_only_emit. Qed.

Lemma hw_only_wr_reg (r : reg) (v : Z) : hw_only (wr_reg r v).
Proof.
  intros s. repeat split. exists []. symmetry. apply app_nil_r.
Qed.

Lemma hw_only_seq (f g : state -> state) :
  hw_only f -> hw_only g -> hw_only (f ;; g).
Proof.
  intros Hf Hg s. unfold seq_.
  destruct (Hf s) as (f1 & f2 & f3 & f4 & f5 & l1 & f6).
  destruct (Hg (f s)) as (g1 & g2 & g3 & g4 & g5 & l2 & g6).
  repeat split; try congruence.
  exists (l1 ++ l2). rewrite g6, f6. symmetry. apply app_assoc.
Qed.

Lemma hw_only_if (b : bool) (f g : state -> state) :
  hw_only f -> hw_only g -> hw_only (if b then f else g).
Proof. destruct b; auto. Qed.

Lemma log_only_hw_only (f : state -> state) : log_only f -> hw_only f.
Proof. intros [H _]. exact H. Qed.

Lemma log_only_skip : log_only skip.
Proof. split; [apply hw_only_skip | reflexivity]. Qed.

Lemma log_only_emit (o : hw_op) : log_only (emit o).
Proof. split; [apply hw_only_emit | reflexivity]. Qed.

Lemma log_only_call (f : hal_fn) (args : list arg) : log_only (call f args).
Proof. apply log_only_emit. Qed.

Lemma log_only_seq (f g : state -> state) :
  log_only f -> log_only g -> log_only (f ;; g).
Proof.
  intros [Hf Rf] [Hg Rg]. split; [apply hw_only_seq; assumption|].
  intros s. unfold seq_. rewrite Rg, Rf. reflexivity.
Qed.

Lemma log_only_if (b : bool) (f g : state -> state) :
  log_only f -> log_only g -> log_only (if b then f else g).
Proof. destruct b; auto. Qed.

Create HintDb hw_only.
#[local] Hint Resolve hw_only_skip hw_only_emit hw_only_call hw_only_wr_reg
  hw_only_seq hw_only_if log_only_skip log_only_emit log_only_call
  log_only_seq log_only_if : hw_only.

Lemma log_only_ADCstop : log_only ADCstop.
Proof. unfold ADCstop. auto with hw_only. Qed.

Lemma log_only_SetSamplingTime (code : sym) : log_only (SetSamplingTime code).
Proof. unfold SetSamplingTime. auto with hw_only. Qed.

#[local] Hint Resolve log_only_ADCstop log_only_SetSamplingTime : hw_only.

Lemma log_only_changeSamplingtime (t : Z) : log_only (changeSamplingtime t).
Proof.
  unfold changeSamplingtime.
  repeat match goal with
         | |- log_only (match ?x with _ => _ end) => destruct x
         end; auto with hw_only.
Qed.

Lemma hw_only_changeSamplingtime (t : Z) : hw_only (changeSamplingtime t).
Proof. apply log_only_hw_only, log_only_changeSamplingtime. Qed.

#[local] Hint Resolve log_only_changeSamplingtime
  hw_only_changeSamplingtime : hw_only.

Lemma hw_only_changeADCmode (mode : Z) : hw_only (changeADCmode mode).
Proof.
  unfold changeADCmode.
  repeat match goal with
         | |- hw_only (match ?x with _ => _ end) => destruct x
         end; auto 10 with hw_only.
Qed.

#[local] Hint Resolve hw_only_changeADCmode : hw_only.

Lemma log_only_DMAIT (hdma : sym) :
  log_only (disableDMAIT hdma) /\ log_only (enableDMAIT hdma).
Proof. unfold disableDMAIT, enableDMAIT. split; auto 10 with hw_only. Qed.

Lemma log_only_AWDIT (hadc : sym) :
  log_only (disableAWDIT hadc) /\ log_only (enableAWDIT hadc).
Proof. unfold disableAWDIT, enableAWDIT. split; auto 10 with hw_only. Qed.

Lemma log_only_disableDMAIT (hdma : sym) : log_only (disableDMAIT hdma).
Proof. exact (proj1 (log_only_DMAIT hdma)). Qed.

Lemma log_only_enableDMAIT (hdma : sym) : log_only (enableDMAIT hdma).
Proof. exact (proj2 (log_only_DMAIT hdma)). Qed.

Lemma log_only_disableAWDIT (hadc : sym) : log_only (disableAWDIT hadc).
Proof. exact (proj1 (log_only_AWDIT hadc)). Qed.

Lemma log_only_enableAWDIT (hadc : sym) : log_only (enableAWDIT hadc).
Proof. exact (proj2 (log_only_AWDIT hadc)). Qed.

#[local] Hint Resolve log_only_disableDMAIT log_only_enableDMAIT
  log_only_disableAWDIT log_only_enableAWDIT : hw_only.

Lemma log_only_armAWD (hadc adc chreg : sym) (tv hi lo : Z) :
  log_only (armAWD hadc adc chreg tv hi lo).
Proof. unfold armAWD, SetAnalogWDThresholds. auto 12 with hw_only. Qed.

Lemma log_only_write_front_end (packet : frame) :
  log_only (write_front_end packet).
Proof. unfold write_front_end. auto 12 with hw_only. Qed.

Lemma log_only_gotAWD (hadc : sym) :
  log_only (gotAWD1 hadc) /\ log_only (gotAWD2 hadc).
Proof. unfold gotAWD1, gotAWD2. split; auto with hw_only. Qed.

#[local] Hint Resolve log_only_armAWD log_only_write_front_end : hw_only.

(** Phase the oscilloscope is put in by a trigger mode. *)
Definition armed_state (triggermode : Z) : triggerStates :=
  match triggermode with
  | 1 | 2 => preTrigger
  | _ => noTrigger
  end.

Lemma switch_triggermode_split (chan triggermode triggerval : Z) :
  exists h, log_only h /\
    switch_triggermode chan triggermode triggerval =
    set_ADCstate (armed_state triggermode) ;; h.
Proof.
  unfold switch_triggermode, armed_state.
  destruct triggermode as [|[p|[p|p|]|]|p];
    try (exists skip; split; [auto with hw_only | reflexivity]);
    eexists; (split; [| reflexivity]); auto 12 with hw_only.
Qed.

(** What handling an acquisition command leaves behind. *)
Lemma on_ADC_SET_effect (packet : frame) (s : state) :
  let s' := on_ADC_SET packet s in
  (forall x, rd x s' = rd x ((wr adcpos 0 ;; wr shadowCount 0) s)) /\
  ga s' = ga s /\
  Logicstate s' = Logicstate s /\
  ADCstate s' = armed_state (RECV_Packet.ADC_SET.triggermode packet) /\
  usb_tx s' = usb_tx s ++ [TxAck (TRANS_Packet.mk 0 ACK_STRING)].
Proof.
  cbv zeta. unfold on_ADC_SET.
  destruct (switch_triggermode_split
              (RECV_Packet.ADC_SET.channel packet)
              (RECV_Packet.ADC_SET.triggermode packet)
              (RECV_Packet.ADC_SET.triggerval packet)) as (h & [Hh _] & ->).
  unfold ADCstart.
  cbn [seq_ rd wr wr_reg emit call gv ga Logicstate ADCstate regs usb_tx hw].
  set (s1 := write_front_end packet (SendAck s)).
  set (s2 := ADCstop s1).
  set (s3 := changeADCmode _ s2).
  unfold seq_. set (s4 := set_ADCstate _ s3).
  destruct (log_only_write_front_end packet) as [Ha _].
  destruct (Ha (SendAck s)) as (a1 & a2 & a3 & a4 & a5 & _).
  destruct log_only_ADCstop as [Hb _].
  destruct (Hb s1) as (b1 & b2 & b3 & b4 & b5 & _).
  destruct (hw_only_changeADCmode (RECV_Packet.ADC_SET.adcmode packet) s2)
    as (c1 & c2 & c3 & c4 & c5 & _).
  destruct (Hh s4) as (d1 & d2 & d3 & d4 & d5 & _).
  fold s1 in a1, a2, a3, a4, a5. fold s2 in b1, b2, b3, b4, b5.
  fold s3 in c1, c2, c3, c4, c5.
  rewrite d1, d2, d3, d4, d5. subst s4.
  cbn [set_ADCstate gv ga Logicstate ADCstate regs usb_tx hw].
  rewrite c1, c2, c3, c5, b1, b2, b3, b5, a1, a2, a3, a5.
  repeat split.
Qed.

(** *** The other branches of the handler *)

Definition ack : usb_frame := TxAck (TRANS_Packet.mk 0 ACK_STRING).

Lemma on_HandShake_effect (packet : frame) (s : state) :
  let s' := on_HandShake packet s in
  gv s' = gv s /\ ga s' = ga s /\
  Logicstate s' = Logicstate s /\ ADCstate s' = ADCstate s /\
  usb_tx s' =
  usb_tx s ++
  (if truthy (hs_match (RECV_Packet.HandShake.handshake_string packet))
   then [ack] else []).
Proof.
  cbv zeta. unfold on_HandShake.
  destruct (truthy _); store; rewrite ?app_nil_r; repeat split.
Qed.

(** The handshake loop accepts exactly [HS_STRING]. *)
Lemma hs_match_spec (magic : list Z) :
  length magic = HS_STRING_LEN ->
  (truthy (hs_match magic) = true <-> magic = HS_STRING).
Proof.
  intros Hlen.
  destruct magic as [|a [|b [|c [|d [|e l]]]]]; try discriminate.
  unfold hs_match, HS_STRING. cbn [seq HS_STRING_LEN fold_left nth].
  split.
  - destruct (Z.eqb_spec a 73), (Z.eqb_spec b 78), (Z.eqb_spec c 73),
      (Z.eqb_spec d 84); cbn; intros; try discriminate; subst; reflexivity.
  - intros [= -> -> -> ->]. reflexivity.
Qed.

Lemma handshake_string_length (packet : frame) :
  length (RECV_Packet.HandShake.handshake_string packet) = HS_STRING_LEN.
Proof.
  unfold RECV_Packet.HandShake.handshake_string.
  rewrite length_map, length_seq. reflexivity.
Qed.

Lemma check_cases (ok : bool) (s : state) :
  check ok s = Returned s \/ check ok s = Halted s.
Proof. destruct ok; cbn; auto. Qed.

(** Final state of a run that returned or halted. *)
Definition final (o : outcome) : option state :=
  match o with
  | Returned s | Halted s => Some s
  | OutOfBounds => None
  end.

Lemma changeLogic_effect (env : hal_results) (s m : state) :
  final (changeLogic env s) = Some m ->
  gv m = gv s /\ Logicstate m = Logicstate s /\ ADCstate m = ADCstate s /\
  usb_tx m = usb_tx s /\
  (forall a i, a <> Logic_buff -> ga m a i = ga s a i).
Proof.
  unfold changeLogic, MX_TIM16_Init, MX_TIM5_Init.
  destruct env as [e1 e2 e3 e4 e5].
  cbn [tim16_base_init tim5_pwm_init tim5_master_config
       tim5_config_channel_1 tim5_config_channel_2].
  destruct e1; cbn [check and_then final];
    [destruct e2; cbn [check and_then final];
     [destruct e3; cbn [check and_then final];
      [destruct e4; cbn [check and_then final];
       [destruct e5; cbn [check and_then final]|]|]|]|];
    intros [= <-]; store; repeat split;
    intros a i Ha; destruct a; try congruence; reflexivity.
Qed.

Lemma on_LOGIC_SET_effect (env : hal_results) (packet : frame)
    (s m : state) :
  final (on_LOGIC_SET env packet s) = Some m ->
  (forall x, x <> trigPin -> x <> trigEdge -> x <> period16 ->
             x <> prescaler16 -> x <> period32 -> rd x m = rd x s) /\
  ADCstate m = ADCstate s /\
  usb_tx m = usb_tx s ++ [ack] /\
  (forall a i, a <> Logic_buff -> ga m a i = ga s a i).
Proof.
  unfold on_LOGIC_SET.
  destruct (RECV_Packet.LOGIC_SET.control packet =? 1).
  - match goal with
    | |- final (and_then (changeLogic env ?t) _) = _ -> _ =>
      set (s1 := t);
      pose proof (changeLogic_effect env s1) as Hcl;
      destruct (changeLogic env s1) as [k|k|]; cbn [and_then final];
      try discriminate
    end.
    + destruct (Hcl k eq_refl) as (h1 & h2 & h3 & h4 & h5).
      intros [= <-]. store. rewrite h3, h4. subst s1. store.
      repeat split.
      * intros x H1 H2 H3 H4 H5. rewrite h1.
        destruct x; try congruence; reflexivity.
      * intros a i Ha. rewrite (h5 a i Ha). reflexivity.
    + destruct (Hcl k eq_refl) as (h1 & h2 & h3 & h4 & h5).
      intros [= <-]. rewrite h3, h4. subst s1. store.
      repeat split.
      * intros x H1 H2 H3 H4 H5. unfold rd. rewrite h1. cbn [gv].
        destruct x; try congruence; reflexivity.
      * intros a i Ha. rewrite (h5 a i Ha). reflexivity.
  - cbn [final]. intros [= <-]. store. repeat split.
    intros x H1 H2 H3 H4 H5. destruct x; try congruence; reflexivity.
Qed.

Lemma byte_at_range (p : frame) (i : nat) : 0 <= byte_at p i < 256.
Proof. unfold byte_at, u8. apply (wrap_range 8). lia. Qed.

Lemma le16_range (p : frame) (i : nat) : 0 <= le16 p i < 65536.
Proof.
  unfold le16.
  pose proof (byte_at_range p i). pose proof (byte_at_range p (i + 1)). lia.
Qed.

Lemma wrap16_le16 (p : frame) (i : nat) : wrap 16 (le16 p i) = le16 p i.
Proof. apply wrap_small. pose proof (le16_range p i). lia. Qed.

Lemma memcpy_to_effect (a : garr) (src : list Z) (off : Z) (s : state) :
  let m := memcpy_to a off src s in
  gv m = gv s /\ Logicstate m = Logicstate s /\ ADCstate m = ADCstate s /\
  regs m = regs s /\ usb_tx m = usb_tx s /\ hw m = hw s /\
  (forall b i, b <> a -> ga m b i = ga s b i).
Proof.
  revert off s. induction src as [|b src IH]; intros off s; cbn [memcpy_to].
  - repeat split.
  - destruct (IH (off + 1) (wr_arr a off b s))
      as (h1 & h2 & h3 & h4 & h5 & h6 & h7).
    cbv zeta. rewrite h1, h2, h3, h4, h5, h6. repeat split.
    intros c i Hc. rewrite (h7 c i Hc). store.
    destruct a, c; try congruence; reflexivity.
Qed.

Lemma on_bulk_effect (ptr : frame) (s m : state) :
  on_bulk ptr s = Returned m ->
  (forall x, x <> BULK_BUFF -> x <> BULK_BUFF_RECV -> rd x m = rd x s) /\
  rd BULK_BUFF_RECV m = u16 (rd BULK_BUFF_RECV s - 64) /\
  Logicstate m = Logicstate s /\ ADCstate m = ADCstate s /\
  regs m = regs s /\
  (forall b i, b <> awg_lut -> ga m b i = ga s b i) /\
  usb_tx m =
  usb_tx s ++ (if rd BULK_BUFF_RECV m =? 0 then [ack] else []).
Proof.
  unfold on_bulk.
  destruct (negb _); [discriminate|].
  generalize (map (byte_at ptr) (seq 0 64)). intros src.
  destruct (memcpy_to_effect awg_lut src (rd BULK_BUFF s) s)
    as (h1 & h2 & h3 & h4 & h5 & h6 & h7).
  cbv zeta in h1, h2, h3, h4, h5, h6, h7.
  generalize dependent (memcpy_to awg_lut (rd BULK_BUFF s) src s).
  intros s1 h1 h2 h3 h4 h5 h6 h7.
  set (s2 := wr BULK_BUFF (rd BULK_BUFF s1 + 64) s1).
  set (s3 := wr BULK_BUFF_RECV (rd BULK_BUFF_RECV s2 - 64) s2).
  assert (Hgv : forall x, x <> BULK_BUFF -> x <> BULK_BUFF_RECV ->
                          rd x s3 = rd x s).
  { intros x H1 H2. subst s3 s2. unfold rd, wr. cbn [gv]. rewrite h1.
    destruct x; try congruence; reflexivity. }
  assert (Hrecv : rd BULK_BUFF_RECV s3 = u16 (rd BULK_BUFF_RECV s - 64)).
  { subst s3 s2. unfold rd, wr. cbn [gv gvar_beq]. rewrite h1. reflexivity. }
  assert (Hrest : Logicstate s3 = Logicstate s /\ ADCstate s3 = ADCstate s /\
                  regs s3 = regs s /\ ga s3 = ga s1 /\ usb_tx s3 = usb_tx s).
  { subst s3 s2. unfold wr. cbn [Logicstate ADCstate regs ga usb_tx].
    rewrite h2, h3, h4, h5. repeat split. }
  clearbody s3. clear s2.
  destruct Hrest as (r1 & r2 & r3 & r4 & r5).
  unfold truthy. rewrite negb_involutive.
  intros [= <-].
  destruct (rd BULK_BUFF_RECV s3 =? 0) eqn:Hr.
  - unfold SendAck, CDC_Transmit_FS, rd.
    cbn [gv ga Logicstate ADCstate regs usb_tx].
    fold (rd BULK_BUFF_RECV s3). rewrite Hr, r5.
    split; [exact Hgv|]. split; [exact Hrecv|].
    split; [exact r1|]. split; [exact r2|]. split; [exact r3|].
    split; [|reflexivity].
    intros b i Hb. rewrite r4. auto.
  - rewrite Hr, app_nil_r.
    split; [exact Hgv|]. split; [exact Hrecv|].
    split; [exact r1|]. split; [exact r2|]. split; [exact r3|].
    split; [|exact r5].
    intros b i Hb. rewrite r4. auto.
Qed.

Lemma in_bounds_two (a : garr) (chan : Z) :
  arr_len a = 2 -> in_bounds a chan = true -> chan = 0 \/ chan = 1.
Proof.
  unfold in_bounds. intros ->.
  destruct (Z.leb_spec 0 chan), (Z.ltb_spec chan 2); cbn; intros;
    try discriminate; lia.
Qed.

(** What handling a waveform command leaves behind. *)
Lemma on_AWG_SET_effect (packet : frame) (s : state) :
  let chan := RECV_Packet.AWG_SET.channel packet in
  match on_AWG_SET packet s with
  | Returned m =>
    (chan = 0 \/ chan = 1) /\
    (forall x, x <> BULK_BUFF -> x <> BULK_BUFF_RECV -> rd x m = rd x s) /\
    Logicstate m = Logicstate s /\ ADCstate m = ADCstate s /\
    usb_tx m = usb_tx s ++ [ack] /\
    (forall a i, a <> numSamples -> a <> phaseARR -> a <> ARR_hold ->
                 ga m a i = ga s a i) /\
    rd_arr phaseARR chan m = RECV_Packet.AWG_SET.phaseARR packet /\
    rd_arr phaseARR (1 - chan) m = rd_arr phaseARR (1 - chan) s /\
    rd_arr ARR_hold chan m = RECV_Packet.AWG_SET.ARR packet /\
    rd_arr ARR_hold (1 - chan) m = rd_arr ARR_hold (1 - chan) s /\
    rd_reg TIM6_CNT m = u32 (rd_arr phaseARR 0 m - rd_arr ARR_hold 1 m) /\
    rd_reg TIM7_CNT m = u32 (rd_arr phaseARR 1 m - rd_arr ARR_hold 0 m)
  | Halted _ => False
  | OutOfBounds => ~ (0 <= chan < AWG_NUM_CHAN)
  end.
Proof.
  cbv zeta. unfold on_AWG_SET.
  destruct (in_bounds numSamples (RECV_Packet.AWG_SET.channel packet))
    eqn:Hb; cbn [negb].
  - apply in_bounds_two in Hb; [|reflexivity].
    pose proof (wrap16_le16 packet 11) as Hph.
    pose proof (wrap16_le16 packet 5) as Harr.
    unfold RECV_Packet.AWG_SET.phaseARR, RECV_Packet.AWG_SET.ARR.
    destruct Hb as [-> | ->]; cbn [Z.eqb Pos.eqb Z.sub Z.opp Z.add Z.pos_sub];
      store; cbn [Z.eqb Pos.eqb]; rewrite ?Hph, ?Harr;
      repeat split; auto;
      try (intros x H1 H2; destruct x; try congruence; reflexivity);
      try (intros a i H1 H2 H3; destruct a; try congruence; reflexivity).
  - unfold in_bounds, AWG_NUM_CHAN in *. cbn [arr_len] in Hb.
    unfold AWG_NUM_CHAN in Hb.
    destruct (Z.leb_spec 0 (RECV_Packet.AWG_SET.channel packet)),
      (Z.ltb_spec (RECV_Packet.AWG_SET.channel packet) 2);
      cbn in Hb; try discriminate; lia.
Qed.

(** *** The handler as a whole *)

(** Globals a command may overwrite. *)
Definition command_writes (x : gvar) : bool :=
  match x with
  | BULK_BUFF | BULK_BUFF_RECV | adcpos | shadowCount
  | trigPin | trigEdge | period16 | prescaler16 | period32 => true
  | _ => false
  end.

Lemma dispatch_globals (env : hal_results) (ptr : frame) (s m : state)
    (x : gvar) :
  final (dispatch env ptr s) = Some m ->
  command_writes x = false -> rd x m = rd x s.
Proof.
  unfold dispatch. intros Hm Hx.
  destruct (negb (truthy (rd BULK_BUFF_RECV s))).
  - destruct (RECV_Packet.packet_type ptr =? 0).
    { injection Hm as <-.
      destruct (on_HandShake_effect ptr s) as (h & _). unfold rd.
      rewrite h. reflexivity. }
    destruct (RECV_Packet.packet_type ptr =? 1).
    { pose proof (on_AWG_SET_effect ptr s) as H.
      destruct (on_AWG_SET ptr s) as [k|k|]; try discriminate;
      [|exact (False_ind _ H)].
      injection Hm as <-. destruct H as (_ & H & _).
      apply H; intros ->; discriminate. }
    destruct (RECV_Packet.packet_type ptr =? 2).
    { injection Hm as <-.
      destruct (on_ADC_SET_effect ptr s) as (h & _). rewrite h.
      destruct x; try discriminate; reflexivity. }
    destruct (RECV_Packet.packet_type ptr =? 3).
    { destruct (on_LOGIC_SET_effect env ptr s m Hm) as (h & _).
      apply h; intros ->; discriminate. }
    injection Hm as <-. reflexivity.
  - destruct (on_bulk ptr s) as [k|k|] eqn:Hk; try discriminate.
    + injection Hm as <-.
      destruct (on_bulk_effect ptr s k Hk) as (h & _).
      apply h; intros ->; discriminate.
    + unfold on_bulk in Hk. destruct (negb _); discriminate.
Qed.

Lemma GotCDC_cases (env : hal_results) (ptr : frame) (s m : state) :
  GotCDC_64B_Packet env ptr s = Returned m ->
  exists k, dispatch env ptr (wr pauseTransmit 1 s) = Returned k /\
            m = wr pauseTransmit 0 k.
Proof.
  unfold GotCDC_64B_Packet.
  destruct (dispatch env ptr (wr pauseTransmit 1 s)) as [k|k|];
    cbn [and_then]; try discriminate.
  intros [= <-]. exists k. split; reflexivity.
Qed.

(** A command leaves every global it does not own as it was. *)
Lemma GotCDC_globals (env : hal_results) (ptr : frame) (s m : state)
    (x : gvar) :
  GotCDC_64B_Packet env ptr s = Returned m ->
  command_writes x = false -> x <> pauseTransmit -> rd x m = rd x s.
Proof.
  intros Hm Hx Hp. apply GotCDC_cases in Hm. destruct Hm as (k & Hk & ->).
  assert (H : rd x k = rd x (wr pauseTransmit 1 s)).
  { apply (dispatch_globals env ptr); [rewrite Hk; reflexivity | exact Hx]. }
  destruct x; try discriminate; try congruence; store; exact H.
Qed.

(** Frames the decoder answers a command with. *)
Definition reply (ptr : frame) : list usb_frame :=
  let t := RECV_Packet.packet_type ptr in
  if t =? 0 then
    if truthy (hs_match (RECV_Packet.HandShake.handshake_string ptr))
    then [ack] else []
  else if (t =? 1) || (t =? 2) || (t =? 3) then [ack]
  else [TxBytes nopacket].

Lemma dispatch_reply (env : hal_results) (ptr : frame) (s m : state) :
  rd BULK_BUFF_RECV s = 0 ->
  final (dispatch env ptr s) = Some m ->
  usb_tx m = usb_tx s ++ reply ptr.
Proof.
  unfold dispatch, reply. intros Hb Hm. rewrite Hb in Hm. cbn in Hm.
  cbv zeta.
  destruct (RECV_Packet.packet_type ptr =? 0).
  { injection Hm as <-. apply on_HandShake_effect. }
  destruct (RECV_Packet.packet_type ptr =? 1); cbn [orb].
  { pose proof (on_AWG_SET_effect ptr s) as H.
    destruct (on_AWG_SET ptr s) as [k|k|]; try discriminate;
      [|exact (False_ind _ H)].
    injection Hm as <-. apply H. }
  destruct (RECV_Packet.packet_type ptr =? 2); cbn [orb].
  { injection Hm as <-. apply on_ADC_SET_effect. }
  destruct (RECV_Packet.packet_type ptr =? 3); cbn [orb].
  { apply (on_LOGIC_SET_effect env ptr s m Hm). }
  injection Hm as <-. reflexivity.
Qed.

Lemma GotCDC_reply (env : hal_results) (ptr : frame) (s m : state) :
  rd BULK_BUFF_RECV s = 0 ->
  GotCDC_64B_Packet env ptr s = Returned m ->
  usb_tx m = usb_tx s ++ reply ptr.
Proof.
  intros Hb Hm. apply GotCDC_cases in Hm. destruct Hm as (k & Hk & ->).
  change (usb_tx (wr pauseTransmit 0 k)) with (usb_tx k).
  change (usb_tx s) with (usb_tx (wr pauseTransmit 1 s)).
  apply (dispatch_reply env); [exact Hb | rewrite Hk; reflexivity].
Qed.

(** A handshake frame is always handled to the end. *)
Lemma GotCDC_HandShake_returns (env : hal_results) (ptr : frame)
    (s : state) :
  rd BULK_BUFF_RECV s = 0 ->
  RECV_Packet.packet_type ptr = 0 ->
  exists m, GotCDC_64B_Packet env ptr s = Returned m.
Proof.
  intros Hb Ht. unfold GotCDC_64B_Packet, dispatch.
  change (rd BULK_BUFF_RECV (wr pauseTransmit 1 s))
    with (rd BULK_BUFF_RECV s).
  rewrite Hb, Ht. cbn. eexists. reflexivity.
Qed.

(** ** Properties of the command decoder *)

(** C3.  The handler raises [pauseTransmit] on entry, the flag stays raised
    while the frame is dispatched, and it is 0 when the handler returns --
    whatever the frame is: a command of any tag, an unknown tag, or table
    data of a bulk transfer. *)
Theorem pauseTransmit_raised_then_cleared :
  forall (env : hal_results) (ptr : frame) (s m : state),
    GotCDC_64B_Packet env ptr s = Returned m ->
    rd pauseTransmit (wr pauseTransmit 1 s) = 1 /\
    (exists k, dispatch env ptr (wr pauseTransmit 1 s) = Returned k /\
               rd pauseTransmit k = 1 /\ m = wr pauseTransmit 0 k) /\
    rd pauseTransmit m = 0.
Proof.
  intros env ptr s m Hm. split; [reflexivity|].
  destruct (GotCDC_cases env ptr s m Hm) as (k & Hk & ->). split.
  - exists k. repeat split; auto.
    rewrite (dispatch_globals env ptr (wr pauseTransmit 1 s) k pauseTransmit);
      [reflexivity | rewrite Hk; reflexivity | reflexivity].
  - reflexivity.
Qed.

(** C2, amended.  For a frame decoded as a command (no bulk transfer is
    pending) and handled to the end: tags 1, 2 and 3 are answered with
    exactly one acknowledgment frame; tag 0 is answered with exactly one
    acknowledgment frame when the magic string is [HS_STRING] and with
    nothing otherwise; any other tag is answered with exactly one
    "nopacket" frame. *)
Theorem command_reply_frames :
  forall (env : hal_results) (ptr : frame) (s m : state),
    rd BULK_BUFF_RECV s = 0 ->
    GotCDC_64B_Packet env ptr s = Returned m ->
    let t := RECV_Packet.packet_type ptr in
    let magic := RECV_Packet.HandShake.handshake_string ptr in
    (t = 1 \/ t = 2 \/ t = 3 -> usb_tx m = usb_tx s ++ [ack]) /\
    (t = 0 -> magic = HS_STRING -> usb_tx m = usb_tx s ++ [ack]) /\
    (t = 0 -> magic <> HS_STRING -> usb_tx m = usb_tx s) /\
    (t <> 0 -> t <> 1 -> t <> 2 -> t <> 3 ->
     usb_tx m = usb_tx s ++ [TxBytes nopacket]).
Proof.
  intros env ptr s m Hb Hm. cbv zeta.
  rewrite (GotCDC_reply env ptr s m Hb Hm). unfold reply.
  pose proof (hs_match_spec _ (handshake_string_length ptr)) as Hs.
  revert Hs.
  generalize (RECV_Packet.HandShake.handshake_string ptr).
  generalize (RECV_Packet.packet_type ptr).
  intros t magic Hs.
  destruct (Z.eqb_spec t 0) as [E0|E0]; [|cbn [orb];
    destruct (Z.eqb_spec t 1) as [E1|E1]; [|cbn [orb];
    destruct (Z.eqb_spec t 2) as [E2|E2]; [|cbn [orb];
    destruct (Z.eqb_spec t 3) as [E3|E3]]]]; cbn [orb].
  - destruct (truthy (hs_match magic)) eqn:Hm'.
    + assert (Heq : magic = HS_STRING) by (apply Hs; reflexivity).
      repeat split; intros; try reflexivity; try lia; contradiction.
    + assert (Hne : magic <> HS_STRING).
      { intros Heq. apply Hs in Heq. discriminate. }
      rewrite app_nil_r.
      repeat split; intros; try reflexivity; try lia; contradiction.
  - repeat split; intros; try reflexivity; lia.
  - repeat split; intros; try reflexivity; lia.
  - repeat split; intros; try reflexivity; lia.
  - repeat split; intros; try reflexivity; lia.
Qed.

(** C6, as amended.  A frame with tag 0 that arrives while no table
    transfer is pending ([BULK_BUFF_RECV] is 0) is handled to the end, and
    an acknowledgment frame is sent exactly when its four magic bytes are
    "INIT"; on a mismatch nothing is sent.  While a transfer is pending the
    handler does not look at the tag. *)
Theorem handshake_ack_iff_magic :
  forall (env : hal_results) (ptr : frame) (s : state),
    rd BULK_BUFF_RECV s = 0 ->
    RECV_Packet.packet_type ptr = 0 ->
    exists m,
      GotCDC_64B_Packet env ptr s = Returned m /\
      (usb_tx m = usb_tx s ++ [ack] <->
       RECV_Packet.HandShake.handshake_string ptr = HS_STRING) /\
      (RECV_Packet.HandShake.handshake_string ptr <> HS_STRING ->
       usb_tx m = usb_tx s).
Proof.
  intros env ptr s Hb Ht.
  destruct (GotCDC_HandShake_returns env ptr s Hb Ht) as (m & Hm).
  exists m. split; [exact Hm|].
  pose proof (hs_match_spec _ (handshake_string_length ptr)) as Hs.
  rewrite (GotCDC_reply env ptr s m Hb Hm). unfold reply. rewrite Ht.
  cbn [Z.eqb]. revert Hs.
  generalize (RECV_Packet.HandShake.handshake_string ptr). intros magic Hs.
  destruct (truthy (hs_match magic)).
  - assert (Heq : magic = HS_STRING) by (apply Hs; reflexivity).
    split; [split; intros _; [exact Heq | reflexivity]|].
    intros Hne; contradiction.
  - assert (Hne : magic <> HS_STRING).
    { intros Heq. apply Hs in Heq. discriminate. }
    rewrite app_nil_r. split; [split | reflexivity].
    + intros Hsent. apply (f_equal (@length usb_frame)) in Hsent.
      rewrite length_app in Hsent. cbn [length] in Hsent. lia.
    + intros Heq. contradiction.
Qed.

(** *** Sample-rate modes *)

Lemma changeADCmode_default (mode : Z) :
  ~ (0 <= mode <= 11) -> changeADCmode mode = changeADCmode 0.
Proof.
  intros H. destruct mode as [|p|p]; [lia| |reflexivity].
  do 4 (try destruct p as [p|p|]); try reflexivity; lia.
Qed.

(** Two acquisition commands that differ in the mode byte only and select
    the same sampling configuration are handled identically. *)
Lemma on_ADC_SET_mode_byte (ptr ptr0 : frame) :
  (forall i, i <> 2%nat -> byte_at ptr0 i = byte_at ptr i) ->
  changeADCmode (RECV_Packet.ADC_SET.adcmode ptr0) =
  changeADCmode (RECV_Packet.ADC_SET.adcmode ptr) ->
  on_ADC_SET ptr0 = on_ADC_SET ptr.
Proof.
  intros Hb Hm. unfold on_ADC_SET, write_front_end. rewrite Hm.
  unfold RECV_Packet.ADC_SET.channel, RECV_Packet.ADC_SET.triggermode,
    RECV_Packet.ADC_SET.triggerval, RECV_Packet.ADC_SET.offset,
    RECV_Packet.ADC_SET.attenuation, RECV_Packet.ADC_SET.amp10,
    RECV_Packet.ADC_SET.amp5, RECV_Packet.ADC_SET.amp2_5,
    RECV_Packet.ADC_SET.amp1, le16.
  cbn [Nat.add].
  rewrite !Hb by (intros H; discriminate H). reflexivity.
Qed.

Lemma on_ADC_SET_regs (packet : frame) (s : state) (r : reg) :
  match r with
  | TIM8_CNT | TIM17_CNT | TIM8_EGR | TIM17_EGR => False
  | _ => True
  end ->
  rd_reg r (on_ADC_SET packet s) =
  rd_reg r (changeADCmode (RECV_Packet.ADC_SET.adcmode packet) s).
Proof.
  intros Hr. unfold on_ADC_SET.
  destruct (switch_triggermode_split
              (RECV_Packet.ADC_SET.channel packet)
              (RECV_Packet.ADC_SET.triggermode packet)
              (RECV_Packet.ADC_SET.triggerval packet)) as (h & [_ Hh] & ->).
  unfold ADCstart, seq_, rd_reg.
  cbn [wr wr_reg emit call regs].
  destruct r; try contradiction; cbn [reg_beq];
    rewrite Hh; cbn [set_ADCstate regs];
    unfold changeADCmode;
    (destruct (RECV_Packet.ADC_SET.adcmode packet) as [|p|p];
     [| do 4 (try destruct p as [p|p|]) |]);
    unfold seq_; cbn [wr_reg regs reg_beq];
    repeat match goal with
           | |- context [regs (changeSamplingtime ?t ?x)] =>
             rewrite (proj2 (log_only_changeSamplingtime t) x)
           end;
    cbn [wr_reg regs reg_beq];
    rewrite ?(proj2 log_only_ADCstop),
            ?(proj2 (log_only_write_front_end packet));
    reflexivity.
Qed.

Lemma GotCDC_ADC_SET (env : hal_results) (ptr : frame) (s : state) :
  rd BULK_BUFF_RECV s = 0 ->
  RECV_Packet.packet_type ptr = 2 ->
  GotCDC_64B_Packet env ptr s =
  Returned (wr pauseTransmit 0 (on_ADC_SET ptr (wr pauseTransmit 1 s))).
Proof.
  intros Hb Ht. unfold GotCDC_64B_Packet, dispatch.
  change (rd BULK_BUFF_RECV (wr pauseTransmit 1 s))
    with (rd BULK_BUFF_RECV s).
  rewrite Hb, Ht. reflexivity.
Qed.

(** C8.  An acquisition command whose mode code is outside 0..11 is not
    rejected: it is acknowledged and handled exactly like the same command
    with mode code 0.  The configuration applied is that of mode 0: ADC
    trigger timer TIM8 prescaler 24 and period 1, shadow timer TIM17
    prescaler 499 and period 9, sampling time 2.5 cycles on both
    converters. *)
Theorem adcmode_out_of_range_falls_back_to_mode_0 :
  forall (env : hal_results) (ptr ptr0 : frame) (s : state),
    rd BULK_BUFF_RECV s = 0 ->
    RECV_Packet.packet_type ptr = 2 ->
    ~ (0 <= RECV_Packet.ADC_SET.adcmode ptr <= 11) ->
    (forall i, i <> 2%nat -> byte_at ptr0 i = byte_at ptr i) ->
    RECV_Packet.ADC_SET.adcmode ptr0 = 0 ->
    changeADCmode (RECV_Packet.ADC_SET.adcmode ptr) =
      (wr_reg TIM8_PSC 24 ;; wr_reg TIM8_ARR 1 ;;
       wr_reg TIM17_PSC 499 ;; wr_reg TIM17_ARR 9 ;;
       SetSamplingTime LL_ADC_SAMPLINGTIME_2CYCLES_5) /\
    exists m,
      GotCDC_64B_Packet env ptr s = Returned m /\
      GotCDC_64B_Packet env ptr0 s = Returned m /\
      usb_tx m = usb_tx s ++ [ack] /\
      rd_reg TIM8_PSC m = 24 /\ rd_reg TIM8_ARR m = 1 /\
      rd_reg TIM17_PSC m = 499 /\ rd_reg TIM17_ARR m = 9.
Proof.
  intros env ptr ptr0 s Hb Ht Hmode Hbytes Hmode0.
  pose proof (changeADCmode_default _ Hmode) as Hdef.
  split; [rewrite Hdef; reflexivity|].
  assert (Ht0 : RECV_Packet.packet_type ptr0 = 2).
  { unfold RECV_Packet.packet_type in *. rewrite Hbytes; [exact Ht|].
    intros H; discriminate H. }
  assert (Heq : on_ADC_SET ptr0 = on_ADC_SET ptr).
  { apply on_ADC_SET_mode_byte; [exact Hbytes|].
    rewrite Hmode0, Hdef. reflexivity. }
  rewrite (GotCDC_ADC_SET env ptr s Hb Ht).
  rewrite (GotCDC_ADC_SET env ptr0 s Hb Ht0), Heq.
  exists (wr pauseTransmit 0 (on_ADC_SET ptr (wr pauseTransmit 1 s))).
  split; [reflexivity|]. split; [reflexivity|].
  rewrite usb_tx_wr, !rd_reg_wr.
  destruct (on_ADC_SET_effect ptr (wr pauseTransmit 1 s))
    as (_ & _ & _ & _ & Htx).
  rewrite Htx, usb_tx_wr.
  rewrite !on_ADC_SET_regs by exact I.
  rewrite Hdef. repeat split.
Qed.

(** ** Footprints

    Which globals and arrays an event may write.  Everything outside the
    footprint is left as it was. *)

Definition writes (e : event) (x : gvar) : bool :=
  match e, x with
  | MainADC, (adcsend | adcpos | shadowCount | triggerType) => true
  | MainLogic, (trigger | logicpos | logicsend) => true
  | MainSend, (adcpos | logicpos | adcsend | logicsend) => true
  | IrqADC1 _ _, (firstTrigger | triggerType) => true
  | IrqADC2 _ _, triggerType => true
  | IrqTIM17, shadowCount => true
  | PeriodElapsed _, logicpos => true
  | PulseFinished _ _, (currentValue | pastValue | logicWritePointer) => true
  | ConvHalfCplt, halfcomplete => true
  | ConvCplt, fullcomplete => true
  | Packet _ _, pauseTransmit => true
  | Packet _ _, x => command_writes x
  | _, _ => false
  end.

Definition writes_arr (e : event) (a : garr) : bool :=
  match e, a with
  | MainLogic, Logic_buff => true
  | PulseFinished _ _, Logic_buff => true
  | Sample _ _ _, (adc_buff | adc_buff1) => true
  | Packet _ _, (Logic_buff | awg_lut | numSamples | phaseARR | ARR_hold) =>
    true
  | _, _ => false
  end.

Ltac split_ifs :=
  repeat match goal with
         | |- context [if ?c then _ else _] => destruct c
         end.

Lemma adc_phase_footprint (s : state) (x : gvar) :
  writes MainADC x = false -> rd x (adc_phase s) = rd x s.
Proof.
  intros Hx. unfold adc_phase, ADCstart, ADCstop.
  destruct x; try discriminate Hx; clear Hx;
    destruct (ADCstate s); split_ifs; reflexivity.
Qed.

Lemma adc_phase_rest (s : state) :
  ga (adc_phase s) = ga s /\ Logicstate (adc_phase s) = Logicstate s /\
  usb_tx (adc_phase s) = usb_tx s.
Proof.
  unfold adc_phase, ADCstart, ADCstop.
  destruct (ADCstate s); split_ifs; repeat split.
Qed.

Lemma logic_phase_footprint (s : state) (x : gvar) :
  writes MainLogic x = false -> rd x (logic_phase s) = rd x s.
Proof.
  intros Hx. unfold logic_phase.
  destruct x; try discriminate Hx; clear Hx;
    destruct (Logicstate s); split_ifs; reflexivity.
Qed.

Lemma logic_phase_rest (s : state) :
  (forall a i, a <> Logic_buff -> ga (logic_phase s) a i = ga s a i) /\
  ADCstate (logic_phase s) = ADCstate s /\
  usb_tx (logic_phase s) = usb_tx s.
Proof.
  unfold logic_phase.
  destruct (Logicstate s); split_ifs; repeat split;
    intros a i Ha; destruct a; try congruence; reflexivity.
Qed.

Lemma send_phase_footprint (s : state) (x : gvar) :
  writes MainSend x = false -> rd x (send_phase s) = rd x s.
Proof.
  intros Hx. unfold send_phase, sendData.
  destruct x; try discriminate Hx; clear Hx; split_ifs; reflexivity.
Qed.

Lemma send_phase_rest (s : state) :
  ga (send_phase s) = ga s /\ Logicstate (send_phase s) = Logicstate s /\
  ADCstate (send_phase s) = ADCstate s.
Proof. unfold send_phase, sendData. split_ifs; repeat split. Qed.

Lemma ADC1_IRQHandler_footprint (i2 i1 : Z) (s : state) (x : gvar) :
  writes (IrqADC1 i2 i1) x = false -> rd x (ADC1_IRQHandler i2 i1 s) = rd x s.
Proof.
  intros Hx. unfold ADC1_IRQHandler.
  destruct x; try discriminate Hx; clear Hx; split_ifs; reflexivity.
Qed.

Lemma ADC2_IRQHandler_footprint (i2 i1 : Z) (s : state) (x : gvar) :
  writes (IrqADC2 i2 i1) x = false -> rd x (ADC2_IRQHandler i2 i1 s) = rd x s.
Proof.
  intros Hx. unfold ADC2_IRQHandler, gotAWD1, gotAWD2.
  destruct x; try discriminate Hx; clear Hx; split_ifs; reflexivity.
Qed.

Lemma IRQHandler_rest (i2 i1 : Z) (s : state) :
  let s1 := ADC1_IRQHandler i2 i1 s in
  let s2 := ADC2_IRQHandler i2 i1 s in
  (ga s1 = ga s /\ Logicstate s1 = Logicstate s /\
   ADCstate s1 = ADCstate s /\ usb_tx s1 = usb_tx s) /\
  (ga s2 = ga s /\ Logicstate s2 = Logicstate s /\
   ADCstate s2 = ADCstate s /\ usb_tx s2 = usb_tx s).
Proof.
  cbv zeta. unfold ADC1_IRQHandler, ADC2_IRQHandler, gotAWD1, gotAWD2.
  split; split_ifs; repeat split.
Qed.

Lemma logic_trigger_check_footprint (s : state) (x : gvar) :
  x <> pastValue -> x <> currentValue ->
  rd x (logic_trigger_check s) = rd x s.
Proof.
  intros H1 H2. unfold logic_trigger_check, fire_logic_trigger.
  destruct x; try congruence; split_ifs; reflexivity.
Qed.

Lemma logic_trigger_check_rest (s : state) :
  let s' := logic_trigger_check s in
  ga s' = ga s /\ ADCstate s' = ADCstate s /\ usb_tx s' = usb_tx s /\
  regs s' = regs s.
Proof.
  cbv zeta. unfold logic_trigger_check, fire_logic_trigger.
  split_ifs; repeat split.
Qed.

Lemma store_logic_sample_footprint (s : state) (x : gvar) :
  x <> pastValue -> x <> logicWritePointer ->
  rd x (store_logic_sample s) = rd x s.
Proof.
  intros H1 H2. unfold store_logic_sample.
  destruct x; try congruence; split_ifs; reflexivity.
Qed.

Lemma store_logic_sample_rest (s : state) :
  let s' := store_logic_sample s in
  (forall a i, a <> Logic_buff -> ga s' a i = ga s a i) /\
  Logicstate s' = Logicstate s /\ ADCstate s' = ADCstate s /\
  usb_tx s' = usb_tx s /\ regs s' = regs s /\ hw s' = hw s.
Proof.
  cbv zeta. unfold store_logic_sample.
  split_ifs; repeat split;
    intros a i Ha; destruct a; try congruence; reflexivity.
Qed.

Lemma PulseFinished_footprint (ch : HAL_TIM_ActiveChannel) (idr : Z)
    (s : state) (x : gvar) :
  writes (PulseFinished ch idr) x = false ->
  rd x (HAL_TIM_PWM_PulseFinishedCallback ch idr s) = rd x s.
Proof.
  intros Hx. unfold HAL_TIM_PWM_PulseFinishedCallback. cbv zeta.
  assert (H1 : x <> pastValue) by (intros ->; discriminate).
  assert (H2 : x <> logicWritePointer) by (intros ->; discriminate).
  assert (H3 : x <> currentValue) by (intros ->; discriminate).
  rewrite store_logic_sample_footprint by assumption.
  destruct ch; rewrite ?logic_trigger_check_footprint by assumption;
    apply rd_wr_other; congruence.
Qed.

Lemma PulseFinished_rest (ch : HAL_TIM_ActiveChannel) (idr : Z)
    (s : state) :
  let s' := HAL_TIM_PWM_PulseFinishedCallback ch idr s in
  (forall a i, a <> Logic_buff -> ga s' a i = ga s a i) /\
  ADCstate s' = ADCstate s /\ usb_tx s' = usb_tx s.
Proof.
  cbv zeta. unfold HAL_TIM_PWM_PulseFinishedCallback.
  set (s0 := wr currentValue idr s).
  assert (H0 : ga s0 = ga s /\ ADCstate s0 = ADCstate s /\
               usb_tx s0 = usb_tx s) by (repeat split).
  destruct H0 as (a0 & b0 & c0). clearbody s0.
  set (s1 := match ch with
             | HAL_TIM_ACTIVE_CHANNEL_1 => logic_trigger_check s0
             | _ => s0
             end).
  assert (H1 : ga s1 = ga s0 /\ ADCstate s1 = ADCstate s0 /\
               usb_tx s1 = usb_tx s0).
  { subst s1. destruct (logic_trigger_check_rest s0) as (a & b & c & _).
    destruct ch; repeat split; assumption. }
  destruct H1 as (a1 & b1 & c1). clearbody s1.
  destruct (store_logic_sample_rest s1) as (a2 & _ & b2 & c2 & _).
  rewrite b2, c2, b1, c1. repeat split; try assumption.
  intros a i Ha. rewrite (a2 a i Ha), a1, a0. reflexivity.
Qed.

(** Frame property of the transition system: an event changes no global
    outside its footprint. *)
Lemma step_footprint (e : event) (s m : state) (x : gvar) :
  step e s = Returned m -> writes e x = false -> rd x m = rd x s.
Proof.
  intros Hstep Hx. destruct e; cbn [step] in Hstep;
    try (injection Hstep as <-).
  - apply adc_phase_footprint, Hx.
  - apply logic_phase_footprint, Hx.
  - apply send_phase_footprint, Hx.
  - apply ADC1_IRQHandler_footprint, Hx.
  - apply ADC2_IRQHandler_footprint, Hx.
  - unfold TIM17_IRQHandler.
    destruct x; try discriminate Hx; split_ifs; reflexivity.
  - unfold HAL_TIM_PeriodElapsedCallback.
    destruct x; try discriminate Hx; destruct htim; reflexivity.
  - apply PulseFinished_footprint, Hx.
  - destruct x; try discriminate Hx; reflexivity.
  - unfold HAL_ADC_ConvCpltCallback, ADCstop.
    destruct x; try discriminate Hx; cbv zeta; store;
      destruct (ADCstate s); reflexivity.
  - split_ifs; reflexivity.
  - apply (GotCDC_globals env ptr s m x Hstep).
    + destruct x; try discriminate Hx; reflexivity.
    + intros ->. discriminate Hx.
Qed.

Lemma step_footprint_arr (e : event) (s m : state) (a : garr) (i : Z) :
  step e s = Returned m -> writes_arr e a = false -> ga m a i = ga s a i.
Proof.
  intros Hstep Ha. destruct e; cbn [step] in Hstep;
    try (injection Hstep as <-).
  - destruct (adc_phase_rest s) as (h & _). rewrite h. reflexivity.
  - apply logic_phase_rest. intros ->. discriminate Ha.
  - destruct (send_phase_rest s) as (h & _). rewrite h. reflexivity.
  - destruct (IRQHandler_rest isr_awd2 isr_awd1 s) as ((h & _) & _).
    rewrite h. reflexivity.
  - destruct (IRQHandler_rest isr_awd2 isr_awd1 s) as (_ & (h & _)).
    rewrite h. reflexivity.
  - unfold TIM17_IRQHandler. split_ifs; reflexivity.
  - unfold HAL_TIM_PeriodElapsedCallback. destruct htim; reflexivity.
  - apply PulseFinished_rest. intros ->. discriminate Ha.
  - reflexivity.
  - unfold HAL_ADC_ConvCpltCallback, ADCstop. cbv zeta. store.
    destruct (ADCstate s); reflexivity.
  - destruct a0; cbn [is_adc_buffer andb]; try reflexivity;
      destruct (in_bounds _ i0); try reflexivity;
      destruct a; try discriminate Ha; reflexivity.
  - apply GotCDC_cases in Hstep. destruct Hstep as (k & Hk & ->).
    change (ga (wr pauseTransmit 0 k) a i) with (ga k a i).
    change (ga s a i) with (ga (wr pauseTransmit 1 s) a i).
    generalize dependent (wr pauseTransmit 1 s). clear s. intros s Hk.
    unfold dispatch in Hk.
    destruct (negb (truthy (rd BULK_BUFF_RECV s))).
    + destruct (RECV_Packet.packet_type ptr =? 0).
      { injection Hk as <-.
        destruct (on_HandShake_effect ptr s) as (_ & h & _).
        rewrite h. reflexivity. }
      destruct (RECV_Packet.packet_type ptr =? 1).
      { pose proof (on_AWG_SET_effect ptr s) as H. rewrite Hk in H.
        destruct H as (_ & _ & _ & _ & _ & h & _).
        apply h; intros ->; discriminate Ha. }
      destruct (RECV_Packet.packet_type ptr =? 2).
      { injection Hk as <-.
        destruct (on_ADC_SET_effect ptr s) as (_ & h & _).
        rewrite h. reflexivity. }
      destruct (RECV_Packet.packet_type ptr =? 3).
      { assert (Hf : final (on_LOGIC_SET env ptr s) = Some k)
          by (rewrite Hk; reflexivity).
        destruct (on_LOGIC_SET_effect env ptr s k Hf) as (_ & _ & _ & h).
        apply h. intros ->. discriminate Ha. }
      injection Hk as <-. reflexivity.
    + destruct (on_bulk_effect ptr s k Hk) as (_ & _ & _ & _ & _ & h & _).
      apply h. intros ->. discriminate Ha.
Qed.

(** ** The two-stage watchdog confirmation *)



Lemma wrap8_small (v : Z) : 0 <= v < 256 -> wrap 8 v = v.
Proof. intros H. apply wrap_small. exact H. Qed.



Lemma adc_phase_triggerType (s : state) :
  rd triggerType (adc_phase s) = rd triggerType s \/
  rd triggerType (adc_phase s) = 0.
Proof.
  unfold adc_phase, ADCstart, ADCstop.
  destruct (ADCstate s); split_ifs; auto.
Qed.















(** ** The logic-analyser capture callback *)

Lemma wrap_idem (w x : Z) : 0 <= w -> wrap w (wrap w x) = wrap w x.
Proof. intros Hw. apply wrap_small, wrap_range, Hw. Qed.

(** Masking a 16-bit value keeps it within 16 bits, whatever the mask. *)
Lemma wrap16_land (a b : Z) :
  wrap 16 (Z.land (wrap 16 a) b) = Z.land (wrap 16 a) b.
Proof.
  unfold wrap. apply Z.bits_inj'. intros n Hn.
  rewrite Z.testbit_mod_pow2 by lia.
  rewrite Z.land_spec, Z.testbit_mod_pow2 by lia.
  destruct (n <? 16); reflexivity.
Qed.

Lemma store_logic_sample_stored (s : state) :
  rd_arr Logic_buff (rd logicWritePointer s) (store_logic_sample s) =
  wrap 16 (rd currentValue s).
Proof.
  unfold store_logic_sample. cbv zeta.
  set (i := rd logicWritePointer s).
  unfold rd_arr.
  match goal with
  | |- ga (wr pastValue _ ?t) _ _ = _ =>
    change (ga (wr pastValue (rd currentValue t) t)) with (ga t);
    assert (Hga : ga t = ga (wr_arr Logic_buff i (rd currentValue s) s))
      by (split_ifs; reflexivity);
    rewrite Hga
  end.
  unfold wr_arr. cbn [ga garr_beq andb elt_width].
  rewrite Z.eqb_refl. reflexivity.
Qed.

(** In the rising-edge case the edge test masks the sample in place. *)
Lemma logic_trigger_check_rising (s : state) :
  Logicstate s = preTrigger -> rd trigEdge s = 1 ->
  Z.land (rd pastValue s) (rd trigPin s) = 0 ->
  logic_trigger_check s =
  (let s1 := wr currentValue (Z.land (rd currentValue s) (rd trigPin s)) s in
   if truthy (rd currentValue s1) then fire_logic_trigger s1 else s1).
Proof.
  intros Hst He Hp. unfold logic_trigger_check. cbv zeta.
  rewrite Hst. cbn [is_preTrigger]. rewrite He. cbn [Z.eqb].
  rewrite He, Hp. reflexivity.
Qed.

Lemma logic_trigger_check_currentValue (s : state) :
  rd currentValue (logic_trigger_check s) =
  if is_preTrigger (Logicstate s) && (rd trigEdge s =? 1) &&
     (Z.land (rd pastValue s) (rd trigPin s) =? 0)
  then wrap 16 (Z.land (rd currentValue s) (rd trigPin s))
  else rd currentValue s.
Proof.
  unfold logic_trigger_check, fire_logic_trigger.
  destruct (is_preTrigger (Logicstate s)); [|reflexivity].
  cbn [andb]. cbv zeta.
  destruct (Z.eqb_spec (rd trigEdge s) 0) as [E0|E0].
  - assert (E1 : (rd trigEdge s =? 1) = false)
      by (apply Z.eqb_neq; lia).
    rewrite E1. cbn [andb].
    set (sp := wr pastValue (Z.land (rd pastValue s) (rd trigPin s)) s).
    destruct (truthy (rd pastValue sp));
      [destruct (negb (truthy (Z.land (rd currentValue sp) (rd trigPin sp))))|];
      match goal with
      | |- context [rd trigEdge ?T =? 1] =>
        change (rd trigEdge T) with (rd trigEdge s)
      end; rewrite E1; reflexivity.
  - destruct (rd trigEdge s =? 1); [|reflexivity]. cbn [andb].
    unfold truthy at 1.
    destruct (Z.land (rd pastValue s) (rd trigPin s) =? 0); cbn [negb];
      [|reflexivity].
    store. split_ifs; reflexivity.
Qed.

(** C9.  Capture callback for the armed timer channel, state PreTrigger,
    rising edge configured, previous sample masked to zero, current sample
    masked to non-zero: the state becomes TriggerState and the post-trigger
    countdown timer TIM16 is started in that same invocation. *)
Theorem rising_edge_starts_post_trigger_countdown :
  forall (IDR : Z) (s : state),
    Logicstate s = preTrigger ->
    rd trigEdge s = 1 ->
    Z.land (rd pastValue s) (rd trigPin s) = 0 ->
    Z.land (u16 IDR) (rd trigPin s) <> 0 ->
    let s' := HAL_TIM_PWM_PulseFinishedCallback HAL_TIM_ACTIVE_CHANNEL_1
                IDR s in
    Logicstate s' = triggerState /\
    hw s' = hw s ++ [Call HAL_TIM_Base_Start_IT [Sym htim16]].
Proof.
  intros IDR s Hst He Hp Hc. cbv zeta.
  unfold HAL_TIM_PWM_PulseFinishedCallback. cbv zeta.
  destruct (store_logic_sample_rest
              (logic_trigger_check (wr currentValue IDR s)))
    as (_ & Hl & _ & _ & _ & Hh).
  rewrite Hl, Hh.
  rewrite logic_trigger_check_rising; [ | exact Hst | exact He | exact Hp ].
  cbv zeta.
  assert (Hcur : rd currentValue
                   (wr currentValue
                      (Z.land (rd currentValue (wr currentValue IDR s))
                              (rd trigPin (wr currentValue IDR s)))
                      (wr currentValue IDR s)) =
                 Z.land (u16 IDR) (rd trigPin s)).
  { rewrite !rd_wr_same. cbn [width].
    rewrite rd_wr_other by discriminate. apply wrap16_land. }
  rewrite Hcur.
  destruct (truthy (Z.land (u16 IDR) (rd trigPin s))) eqn:Ht.
  - split; reflexivity.
  - apply truthy_false in Ht. contradiction.
Qed.

(** C10.  Capture callback for the armed timer channel: the sample stored in
    [Logic_buff] at the write pointer is the port value masked with the
    trigger pin mask when the state is PreTrigger, the edge is rising and
    the previous sample masks to zero; in every other case it is the port
    value itself. *)
Theorem stored_sample_is_masked_in_rising_edge_test :
  forall (IDR : Z) (s : state),
    let s' := HAL_TIM_PWM_PulseFinishedCallback HAL_TIM_ACTIVE_CHANNEL_1
                IDR s in
    rd_arr Logic_buff (rd logicWritePointer s) s' =
    if is_preTrigger (Logicstate s) && (rd trigEdge s =? 1) &&
       (Z.land (rd pastValue s) (rd trigPin s) =? 0)
    then Z.land (u16 IDR) (rd trigPin s)
    else u16 IDR.
Proof.
  intros IDR s. cbv zeta. unfold HAL_TIM_PWM_PulseFinishedCallback.
  cbv zeta.
  set (s0 := wr currentValue IDR s).
  assert (Hp : rd logicWritePointer s =
               rd logicWritePointer (logic_trigger_check s0)).
  { rewrite logic_trigger_check_footprint by discriminate. reflexivity. }
  rewrite Hp, store_logic_sample_stored, logic_trigger_check_currentValue.
  assert (H0 : Logicstate s0 = Logicstate s /\ rd trigEdge s0 = rd trigEdge s
               /\ rd pastValue s0 = rd pastValue s
               /\ rd trigPin s0 = rd trigPin s
               /\ rd currentValue s0 = u16 IDR) by (repeat split).
  destruct H0 as (-> & -> & -> & -> & ->). clearbody s0.
  destruct (is_preTrigger (Logicstate s) && (rd trigEdge s =? 1) &&
            (Z.land (rd pastValue s) (rd trigPin s) =? 0)).
  - rewrite wrap_idem by lia. apply wrap16_land.
  - apply wrap_idem. lia.
Qed.

(** ** The streaming scheduler *)

(** The ready flags only ever hold 0 or 1. *)
Definition ready_flags_boolean (s : state) : Prop :=
  (rd adcsend s = 0 \/ rd adcsend s = 1) /\
  (rd logicsend s = 0 \/ rd logicsend s = 1).

Lemma adc_phase_adcsend (s : state) :
  rd adcsend (adc_phase s) = rd adcsend s \/
  rd adcsend (adc_phase s) = 0 \/ rd adcsend (adc_phase s) = 1.
Proof.
  unfold adc_phase, ADCstart, ADCstop.
  destruct (ADCstate s); split_ifs; auto.
Qed.

Lemma logic_phase_logicsend (s : state) :
  rd logicsend (logic_phase s) = rd logicsend s \/
  rd logicsend (logic_phase s) = 0 \/ rd logicsend (logic_phase s) = 1.
Proof.
  unfold logic_phase. destruct (Logicstate s); split_ifs; auto.
Qed.

Lemma send_phase_flags (s : state) :
  (rd adcsend (send_phase s) = rd adcsend s /\
   rd logicsend (send_phase s) = rd logicsend s) \/
  (rd adcsend (send_phase s) = 0 /\ rd logicsend (send_phase s) = 0).
Proof. unfold send_phase, sendData. split_ifs; auto. Qed.

Lemma ready_flags_step (e : event) (s m : state) :
  step e s = Returned m -> ready_flags_boolean s -> ready_flags_boolean m.
Proof.
  intros Hstep [Ha Hl]. unfold ready_flags_boolean.
  destruct e;
    try (rewrite (step_footprint _ s m adcsend Hstep eq_refl),
                 (step_footprint _ s m logicsend Hstep eq_refl);
         split; assumption);
    cbn [step] in Hstep; injection Hstep as <-.
  - rewrite (adc_phase_footprint s logicsend eq_refl).
    split; [|exact Hl].
    destruct (adc_phase_adcsend s) as [-> | [-> | ->]]; auto.
  - rewrite (logic_phase_footprint s adcsend eq_refl).
    split; [exact Ha|].
    destruct (logic_phase_logicsend s) as [-> | [-> | ->]]; auto.
  - destruct (send_phase_flags s) as [(-> & ->) | (-> & ->)]; auto.
Qed.

Lemma reachable_ready_flags (s : state) :
  reachable s -> ready_flags_boolean s.
Proof.
  apply reachable_ind.
  - intros r0. split; left; reflexivity.
  - intros e s0 s' _ IH Hstep. apply (ready_flags_step e s0 s' Hstep IH).
Qed.

(** The frame [sendData] builds, by fields. *)
Definition data_frame (adco lgco : Z) (s : state) : DATA_Packet.t :=
  DATA_Packet.mk 5 (u16 adco) (u16 lgco)
    (window adc_buff adco datalength s)
    (window adc_buff1 adco datalength s)
    (window Logic_buff lgco datalength s).

Lemma send_phase_both (s : state) :
  rd pauseTransmit s = 0 -> rd adcsend s = 1 -> rd logicsend s = 1 ->
  send_phase s =
  (wr adcsend 0 ;; wr logicsend 0 ;; call delay_us [Num 150])
    (wr logicpos (rd logicpos s + datalength)
       (wr adcpos (rd adcpos s + datalength)
          (sendData (rd adcpos s) (rd logicpos s) s))).
Proof.
  intros Hp Ha Hl. unfold send_phase. rewrite Hp, Ha, Hl. reflexivity.
Qed.

Lemma send_phase_adc_only (s : state) :
  rd pauseTransmit s = 0 -> rd adcsend s = 1 -> rd logicsend s = 0 ->
  send_phase s =
  (wr adcsend 0 ;; wr logicsend 0 ;; call delay_us [Num 150])
    (wr adcpos (rd adcpos s + datalength)
       (sendData (rd adcpos s) 40000 s)).
Proof.
  intros Hp Ha Hl. unfold send_phase. rewrite Hp, Ha, Hl. reflexivity.
Qed.

Lemma send_phase_logic_only (s : state) :
  rd pauseTransmit s = 0 -> rd adcsend s = 0 -> rd logicsend s = 1 ->
  send_phase s =
  (wr adcsend 0 ;; wr logicsend 0 ;; call delay_us [Num 150])
    (wr logicpos (rd logicpos s + datalength)
       (sendData 40000 (rd logicpos s) s)).
Proof.
  intros Hp Ha Hl. unfold send_phase. rewrite Hp, Ha, Hl. reflexivity.
Qed.

(** The sending block on its own (main.c 421-442), entered with no command
    being handled and at least one ready flag set: exactly one data frame
    (tag 5) is sent.  Both flags set: it carries the windows at both cursors
    as the block finds them, and both cursors advance by [datalength].  Only
    one set: the cursor field of the other subsystem is the sentinel 40000
    and only the ready cursor advances.  Both ready flags are 0 afterwards.
    The logic part of the loop has moved the logic cursor before this block
    runs; what a whole pass does is stated further down. *)
Lemma send_block_sends_one_frame :
  forall (s : state),
    reachable s ->
    rd pauseTransmit s = 0 ->
    rd adcsend s = 1 \/ rd logicsend s = 1 ->
    let s' := send_phase s in
    let a := rd adcsend s =? 1 in
    let l := rd logicsend s =? 1 in
    let adco := if a then rd adcpos s else 40000 in
    let lgco := if l then rd logicpos s else 40000 in
    usb_tx s' = usb_tx s ++ [TxData (data_frame adco lgco s)] /\
    DATA_Packet.adcpos (data_frame adco lgco s) =
      (if a then u16 (rd adcpos s) else 40000) /\
    DATA_Packet.logicpos (data_frame adco lgco s) =
      (if l then u16 (rd logicpos s) else 40000) /\
    rd adcpos s' =
      (if a then u16 (rd adcpos s + datalength) else rd adcpos s) /\
    rd logicpos s' =
      (if l then u16 (rd logicpos s + datalength) else rd logicpos s) /\
    rd adcsend s' = 0 /\ rd logicsend s' = 0.
Proof.
  intros s Hr Hp Hready. cbv zeta.
  destruct (reachable_ready_flags s Hr) as [[Ha | Ha] [Hl | Hl]].
  - destruct Hready; congruence.
  - rewrite (send_phase_logic_only s Hp Ha Hl), Ha, Hl.
    cbn [Z.eqb Pos.eqb]. repeat split.
  - rewrite (send_phase_adc_only s Hp Ha Hl), Ha, Hl.
    cbn [Z.eqb Pos.eqb]. repeat split.
  - rewrite (send_phase_both s Hp Ha Hl), Ha, Hl.
    cbn [Z.eqb Pos.eqb]. repeat split.
Qed.

(** ** The oscilloscope write cursor *)

(** The cursor stays within one window of the buffer end, and a frame is
    only ever pending for a cursor inside the buffer. *)
Definition cursor_in_range (s : state) : Prop :=
  0 <= rd adcpos s <= 29999 + datalength /\
  (rd adcsend s = 1 -> rd adcpos s <= 29999).

Lemma wrap16_small (v : Z) : 0 <= v < 65536 -> wrap 16 v = v.
Proof. intros H. apply wrap_small. exact H. Qed.

Lemma wrap_0 (w : Z) : wrap w 0 = 0.
Proof. unfold wrap. apply Zmod_0_l. Qed.

Lemma adc_phase_cursor (s : state) :
  cursor_in_range s -> cursor_in_range (adc_phase s).
Proof.
  unfold cursor_in_range, datalength. intros [Hr Hs].
  unfold adc_phase, ADCstart, ADCstop, ADC_BUFF_full.
  destruct (ADCstate s).
  - (* triggerState *)
    split_ifs; split; assumption.
  - (* postTrigger *)
    destruct (Z.gtb_spec (rd adcpos s) (30000 - 1)) as [G|G].
    + clear Hs. store. rewrite !wrap_0.
      split; [lia | intros H; discriminate H].
    + destruct (rd pauseTransmit s =? 0); [|split; assumption].
      clear Hs. store. split; [exact Hr | intros _; unfold rd in *; lia].
  - (* preTrigger *)
    destruct (rd triggerType s =? 2); [|split; assumption].
    clear Hs. store. rewrite !wrap_0. split; [lia | intros _; lia].
  - (* noTrigger *)
    destruct (Z.gtb_spec (rd adcpos s) (30000 - 1)) as [G|G]; cbv zeta.
    + clear Hs.
      match goal with
      | |- context [truthy ?c] => destruct (truthy c)
      end; store; rewrite ?wrap_0; (split; [lia | intros _; lia]).
    + match goal with
      | |- context [truthy ?c] => destruct (truthy c)
      end; [|split; assumption].
      clear Hs. store. split; [exact Hr | intros _; unfold rd in *; lia].
Qed.

Lemma truthy_land_bool (b1 b2 : bool) :
  truthy (Z.land (c_bool b1) (c_bool b2)) = b1 && b2.
Proof. destruct b1, b2; reflexivity. Qed.

(** The sender moves the cursor only when a frame for it is pending, and
    then by one window. *)
Lemma send_phase_adcpos (s : state) :
  (rd adcpos (send_phase s) = rd adcpos s \/
   (rd adcsend s = 1 /\
    rd adcpos (send_phase s) = u16 (rd adcpos s + datalength))) /\
  (send_phase s = s \/ rd adcsend (send_phase s) = 0).
Proof.
  unfold send_phase, sendData. rewrite !truthy_land_bool.
  destruct (Z.eqb_spec (rd adcsend s) 1) as [A1|A1];
    destruct (rd logicsend s =? 1); destruct (rd pauseTransmit s =? 0);
    cbn [orb andb]; try (split; left; reflexivity);
    destruct (rd adcsend s =? 0); destruct (rd logicsend s =? 0);
    cbn [orb andb]; (split; [|right; reflexivity]);
    first [ left; reflexivity | right; split; [exact A1 | reflexivity] ].
Qed.

Lemma send_phase_cursor (s : state) :
  cursor_in_range s -> cursor_in_range (send_phase s).
Proof.
  unfold cursor_in_range. intros [Hr Hs].
  destruct (send_phase_adcpos s) as [Hpos Hflag].
  assert (Hnew : 0 <= rd adcpos (send_phase s) <= 29999 + datalength).
  { destruct Hpos as [-> | [A1 ->]]; [exact Hr|].
    specialize (Hs A1). unfold datalength in *.
    unfold u16. rewrite wrap16_small; lia. }
  split; [exact Hnew|].
  destruct Hflag as [-> | ->]; [exact Hs | intros H; discriminate H].
Qed.

(** A command moves the cursor only when it is an acquisition command,
    which restarts the acquisition. *)
Lemma GotCDC_adcpos (env : hal_results) (ptr : frame) (s m : state) :
  GotCDC_64B_Packet env ptr s = Returned m ->
  rd adcpos m = rd adcpos s \/
  (rd BULK_BUFF_RECV s = 0 /\ RECV_Packet.packet_type ptr = 2 /\
   rd adcpos m = 0).
Proof.
  intros Hm. apply GotCDC_cases in Hm. destruct Hm as (k & Hk & ->).
  rewrite (rd_wr_other pauseTransmit adcpos) by discriminate.
  assert (Hs : rd adcpos (wr pauseTransmit 1 s) = rd adcpos s /\
               rd BULK_BUFF_RECV (wr pauseTransmit 1 s) = rd BULK_BUFF_RECV s)
    by (split; reflexivity).
  destruct Hs as [<- <-].
  generalize dependent (wr pauseTransmit 1 s). clear s. intros s Hk.
  unfold dispatch in Hk.
  destruct (truthy (rd BULK_BUFF_RECV s)) eqn:Hb; cbn [negb] in Hk.
  - left. destruct (on_bulk_effect ptr s k Hk) as (h & _).
    apply h; discriminate.
  - apply truthy_false in Hb.
    destruct (RECV_Packet.packet_type ptr =? 0).
    { left. injection Hk as <-.
      destruct (on_HandShake_effect ptr s) as (h & _).
      unfold rd. rewrite h. reflexivity. }
    destruct (RECV_Packet.packet_type ptr =? 1).
    { left. pose proof (on_AWG_SET_effect ptr s) as H. rewrite Hk in H.
      destruct H as (_ & h & _). apply h; discriminate. }
    destruct (Z.eqb_spec (RECV_Packet.packet_type ptr) 2) as [E|E].
    { right. injection Hk as <-.
      destruct (on_ADC_SET_effect ptr s) as (h & _).
      rewrite h. repeat split; assumption. }
    destruct (RECV_Packet.packet_type ptr =? 3).
    { left.
      assert (Hf : final (on_LOGIC_SET env ptr s) = Some k)
        by (rewrite Hk; reflexivity).
      destruct (on_LOGIC_SET_effect env ptr s k Hf) as (h & _).
      apply h; discriminate. }
    left. injection Hk as <-. reflexivity.
Qed.

Lemma cursor_step (e : event) (s m : state) :
  step e s = Returned m -> cursor_in_range s -> cursor_in_range m.
Proof.
  intros Hstep Hc.
  destruct e;
    try (unfold cursor_in_range in *;
         rewrite (step_footprint _ s m adcpos Hstep eq_refl),
                 (step_footprint _ s m adcsend Hstep eq_refl);
         exact Hc);
    cbn [step] in Hstep.
  - injection Hstep as <-. apply adc_phase_cursor, Hc.
  - injection Hstep as <-. apply send_phase_cursor, Hc.
  - unfold cursor_in_range in *. destruct Hc as [Hr Hs].
    rewrite (GotCDC_globals env ptr s m adcsend Hstep eq_refl)
      by discriminate.
    destruct (GotCDC_adcpos env ptr s m Hstep) as [-> | (_ & _ & ->)].
    + split; assumption.
    + unfold datalength. split; [lia | intros _; lia].
Qed.

Lemma reachable_cursor_in_range (s : state) :
  reachable s -> cursor_in_range s.
Proof.
  apply reachable_ind.
  - intros r0. unfold cursor_in_range, datalength.
    change (rd adcpos (boot r0)) with 0. split; [lia | intros _; lia].
  - intros e s0 s' _ IH Hstep. apply (cursor_step e s0 s' Hstep IH).
Qed.

(** Where the oscilloscope part of the main loop zeroes the cursor. *)
Lemma adc_phase_adcpos (s : state) :
  rd adcpos (adc_phase s) = rd adcpos s \/
  (rd adcpos (adc_phase s) = 0 /\
   ((ADCstate s = noTrigger /\ 29999 < rd adcpos s /\
     ADCstate (adc_phase s) = noTrigger) \/
    (ADCstate s = preTrigger /\ rd triggerType s = 2 /\
     ADCstate (adc_phase s) = triggerState) \/
    (ADCstate s = postTrigger /\ 29999 < rd adcpos s /\
     ADCstate (adc_phase s) = preTrigger))).
Proof.
  unfold adc_phase, ADCstart, ADCstop, ADC_BUFF_full.
  destruct (ADCstate s) eqn:Hst.
  - split_ifs; left; reflexivity.
  - destruct (Z.gtb_spec (rd adcpos s) (30000 - 1)) as [G|G].
    + right. split; [reflexivity|]. right; right.
      repeat split. lia.
    + split_ifs; left; reflexivity.
  - destruct (Z.eqb_spec (rd triggerType s) 2) as [E|E].
    + right. split; [reflexivity|]. right; left. repeat split. exact E.
    + left; reflexivity.
  - destruct (Z.gtb_spec (rd adcpos s) (30000 - 1)) as [G|G]; cbv zeta.
    + right. split; [split_ifs; reflexivity|]. left.
      repeat split; [lia | split_ifs; exact Hst].
    + split_ifs; left; reflexivity.
Qed.

(** C7, amended.  In every reachable state, an event that returns the
    sample-buffer cursor [adcpos] from a non-zero value to zero is either
    (i) the oscilloscope part of the main loop, in one of three
    situations -- free-run with the cursor past 29999 (the phase stays
    noTrigger), a confirmed trigger (preTrigger to triggerState), or the end
    of streaming (postTrigger to preTrigger) -- or (ii) an acquisition
    command, whose handler restarts the acquisition.  Nothing else zeroes
    the cursor. *)
Theorem adcpos_reset_points :
  forall (e : event) (s m : state),
    reachable s ->
    step e s = Returned m ->
    rd adcpos s <> 0 ->
    rd adcpos m = 0 ->
    (e = MainADC /\
     ((ADCstate s = noTrigger /\ 29999 < rd adcpos s /\
       ADCstate m = noTrigger) \/
      (ADCstate s = preTrigger /\ rd triggerType s = 2 /\
       ADCstate m = triggerState) \/
      (ADCstate s = postTrigger /\ 29999 < rd adcpos s /\
       ADCstate m = preTrigger))) \/
    (exists env ptr,
        e = Packet env ptr /\ rd BULK_BUFF_RECV s = 0 /\
        RECV_Packet.packet_type ptr = 2).
Proof.
  intros e s m Hr Hstep Hnz Hz.
  destruct (reachable_cursor_in_range s Hr) as [Hrange Hpend].
  destruct e;
    try (exfalso; apply Hnz;
         rewrite <- (step_footprint _ s m adcpos Hstep eq_refl);
         exact Hz);
    cbn [step] in Hstep.
  - injection Hstep as <-. left. split; [reflexivity|].
    destruct (adc_phase_adcpos s) as [Heq | [_ H]]; [|exact H].
    exfalso. apply Hnz. rewrite <- Heq. exact Hz.
  - injection Hstep as <-. exfalso.
    destruct (send_phase_adcpos s) as [[Heq | [A1 Heq]] _].
    + apply Hnz. rewrite <- Heq. exact Hz.
    + specialize (Hpend A1). rewrite Heq in Hz. unfold u16 in Hz.
      unfold datalength in *.
      rewrite wrap16_small in Hz by lia. lia.
  - right. exists env, ptr. split; [reflexivity|].
    destruct (GotCDC_adcpos env ptr s m Hstep) as [Heq | (Hb & Ht & _)].
    + exfalso. apply Hnz. rewrite <- Heq. exact Hz.
    + split; assumption.
Qed.

(** ** Phase alignment of the two generator channels *)

(** [e] is a frame that the decoder takes as a waveform command in [s]. *)
Definition waveform_command (e : event) (s : state) : bool :=
  match e with
  | Packet _ ptr =>
    negb (truthy (rd BULK_BUFF_RECV s)) &&
    (RECV_Packet.packet_type ptr =? 1)
  | _ => false
  end.

(** A run from [s] to [s'] in which no waveform command is handled: table
    data of a bulk transfer, other commands, main-loop passes and
    interrupts. *)
Inductive runs_between : state -> list event -> state -> Prop :=
| rb_nil (s : state) : runs_between s [] s
| rb_cons (s m s' : state) (e : event) (tr : list event) :
    waveform_command e s = false ->
    step e s = Returned m ->
    runs_between m tr s' ->
    runs_between s (e :: tr) s'.

Definition is_generator_table (a : garr) : bool :=
  match a with numSamples | phaseARR | ARR_hold => true | _ => false end.

Lemma GotCDC_AWG_SET (env : hal_results) (ptr : frame) (s m : state) :
  rd BULK_BUFF_RECV s = 0 ->
  RECV_Packet.packet_type ptr = 1 ->
  GotCDC_64B_Packet env ptr s = Returned m ->
  exists k, on_AWG_SET ptr (wr pauseTransmit 1 s) = Returned k /\
            m = wr pauseTransmit 0 k.
Proof.
  intros Hb Ht Hm. apply GotCDC_cases in Hm. destruct Hm as (k & Hk & ->).
  exists k. split; [|reflexivity]. unfold dispatch in Hk.
  rewrite (rd_wr_other pauseTransmit BULK_BUFF_RECV) in Hk by discriminate.
  rewrite Hb, Ht in Hk. exact Hk.
Qed.

Lemma quiet_step_tables (e : event) (s m : state) (a : garr) (i : Z) :
  waveform_command e s = false ->
  step e s = Returned m ->
  is_generator_table a = true ->
  ga m a i = ga s a i.
Proof.
  intros Hq Hstep Ha.
  destruct e;
    try (apply (step_footprint_arr _ s m a i Hstep);
         destruct a; try discriminate Ha; reflexivity).
  cbn [step] in Hstep. cbn [waveform_command] in Hq.
  apply GotCDC_cases in Hstep. destruct Hstep as (k & Hk & ->).
  change (ga (wr pauseTransmit 0 k) a i) with (ga k a i).
  change (ga s a i) with (ga (wr pauseTransmit 1 s) a i).
  change (rd BULK_BUFF_RECV s)
    with (rd BULK_BUFF_RECV (wr pauseTransmit 1 s)) in Hq.
  generalize dependent (wr pauseTransmit 1 s). clear s. intros s Hq Hk.
  unfold dispatch in Hk.
  destruct (negb (truthy (rd BULK_BUFF_RECV s))); cbn [andb] in Hq.
  - destruct (RECV_Packet.packet_type ptr =? 0).
    { injection Hk as <-.
      destruct (on_HandShake_effect ptr s) as (_ & h & _).
      rewrite h. reflexivity. }
    rewrite Hq in Hk.
    destruct (RECV_Packet.packet_type ptr =? 2).
    { injection Hk as <-.
      destruct (on_ADC_SET_effect ptr s) as (_ & h & _).
      rewrite h. reflexivity. }
    destruct (RECV_Packet.packet_type ptr =? 3).
    { assert (Hf : final (on_LOGIC_SET env ptr s) = Some k)
        by (rewrite Hk; reflexivity).
      destruct (on_LOGIC_SET_effect env ptr s k Hf) as (_ & _ & _ & h).
      apply h. intros ->. discriminate Ha. }
    injection Hk as <-. reflexivity.
  - destruct (on_bulk_effect ptr s k Hk) as (_ & _ & _ & _ & _ & h & _).
    apply h. intros ->. discriminate Ha.
Qed.

Lemma runs_between_tables (s s' : state) (tr : list event) :
  runs_between s tr s' ->
  forall a i, is_generator_table a = true -> ga s' a i = ga s a i.
Proof.
  induction 1 as [s | s m s' e tr Hq Hstep _ IH]; intros a i Ha.
  - reflexivity.
  - rewrite (IH a i Ha). apply (quiet_step_tables e s m a i Hq Hstep Ha).
Qed.

Lemma u16_u32 (x : Z) : u16 (u32 x) = u16 x.
Proof.
  unfold u16, u32, wrap. apply Z.mod_mod_divide.
  exists (2 ^ 16). reflexivity.
Qed.

(** C5.  A waveform command for channel 0 with phase [phi0] and period
    [ARR0], later a waveform command for channel 1 with phase [phi1] and
    period [ARR1], no other waveform command in between: right after the
    synchronised restart of the second command the value stored in
    [TIM6->CNT] is [phaseARR[0] - ARR_hold[1] = phi0 - ARR1] and the value
    stored in [TIM7->CNT] is [phaseARR[1] - ARR_hold[0] = phi1 - ARR0],
    as 32-bit register values and hence in the 16 bits of the counters. *)
Theorem generator_counters_after_two_commands :
  forall (env0 env1 : hal_results) (cmd0 cmd1 : frame)
         (mid : list event) (s0 s1 s2 s3 : state),
    rd BULK_BUFF_RECV s0 = 0 ->
    RECV_Packet.packet_type cmd0 = 1 ->
    RECV_Packet.AWG_SET.channel cmd0 = 0 ->
    GotCDC_64B_Packet env0 cmd0 s0 = Returned s1 ->
    runs_between s1 mid s2 ->
    rd BULK_BUFF_RECV s2 = 0 ->
    RECV_Packet.packet_type cmd1 = 1 ->
    RECV_Packet.AWG_SET.channel cmd1 = 1 ->
    GotCDC_64B_Packet env1 cmd1 s2 = Returned s3 ->
    let phi0 := RECV_Packet.AWG_SET.phaseARR cmd0 in
    let phi1 := RECV_Packet.AWG_SET.phaseARR cmd1 in
    let ARR0 := RECV_Packet.AWG_SET.ARR cmd0 in
    let ARR1 := RECV_Packet.AWG_SET.ARR cmd1 in
    rd_arr phaseARR 0 s3 = phi0 /\ rd_arr phaseARR 1 s3 = phi1 /\
    rd_arr ARR_hold 0 s3 = ARR0 /\ rd_arr ARR_hold 1 s3 = ARR1 /\
    rd_reg TIM6_CNT s3 = u32 (phi0 - ARR1) /\
    rd_reg TIM7_CNT s3 = u32 (phi1 - ARR0) /\
    u16 (rd_reg TIM6_CNT s3) = u16 (phi0 - ARR1) /\
    u16 (rd_reg TIM7_CNT s3) = u16 (phi1 - ARR0).
Proof.
  intros env0 env1 cmd0 cmd1 mid s0 s1 s2 s3
         Hb0 Ht0 Hc0 H01 Hmid Hb2 Ht1 Hc1 H23. cbv zeta.
  destruct (GotCDC_AWG_SET env0 cmd0 s0 s1 Hb0 Ht0 H01) as (k0 & Hk0 & ->).
  destruct (GotCDC_AWG_SET env1 cmd1 s2 s3 Hb2 Ht1 H23) as (k1 & Hk1 & ->).
  pose proof (on_AWG_SET_effect cmd0 (wr pauseTransmit 1 s0)) as E0.
  pose proof (on_AWG_SET_effect cmd1 (wr pauseTransmit 1 s2)) as E1.
  cbv zeta in E0, E1. rewrite Hk0 in E0. rewrite Hk1 in E1.
  rewrite Hc0 in E0. rewrite Hc1 in E1.
  destruct E0 as (_ & _ & _ & _ & _ & _ & P0 & _ & A0 & _).
  destruct E1 as (_ & _ & _ & _ & _ & _ & P1 & P1' & A1 & A1' & C6 & C7).
  change (1 - 1) with 0 in P1', A1'.
  pose proof (runs_between_tables _ _ _ Hmid) as Hkeep.
  assert (Hp : rd_arr phaseARR 0 k1 = RECV_Packet.AWG_SET.phaseARR cmd0).
  { rewrite P1'. unfold rd_arr in *.
    change (ga (wr pauseTransmit 1 s2)) with (ga s2).
    rewrite (Hkeep phaseARR 0 eq_refl).
    change (ga (wr pauseTransmit 0 k0)) with (ga k0). exact P0. }
  assert (Ha : rd_arr ARR_hold 0 k1 = RECV_Packet.AWG_SET.ARR cmd0).
  { rewrite A1'. unfold rd_arr in *.
    change (ga (wr pauseTransmit 1 s2)) with (ga s2).
    rewrite (Hkeep ARR_hold 0 eq_refl).
    change (ga (wr pauseTransmit 0 k0)) with (ga k0). exact A0. }
  change (rd_arr phaseARR 0 (wr pauseTransmit 0 k1))
    with (rd_arr phaseARR 0 k1).
  change (rd_arr phaseARR 1 (wr pauseTransmit 0 k1))
    with (rd_arr phaseARR 1 k1).
  change (rd_arr ARR_hold 0 (wr pauseTransmit 0 k1))
    with (rd_arr ARR_hold 0 k1).
  change (rd_arr ARR_hold 1 (wr pauseTransmit 0 k1))
    with (rd_arr ARR_hold 1 k1).
  rewrite !rd_reg_wr, C6, C7, Hp, Ha, P1, A1, !u16_u32.
  repeat split.
Qed.

End Firmware.

(** * Further properties of the firmware *)

Section More.

Context {hdr : DeviceHeader}.

Ltac case_ifs :=
  repeat match goal with
         | |- context [if ?c then _ else _] => destruct c
         end.

(** ** Bulk transfer of a waveform table *)






(** The frames of a bulk transfer, one [Packet] event each. *)
Definition table_frames (env : hal_results) (frames : list frame)
    : list event :=
  map (Packet env) frames.


Ltac stores :=
  unfold seq_, skip in *;
  cbn [rd wr rd_arr wr_arr rd_reg wr_reg set_Logicstate set_ADCstate
       emit call CDC_Transmit_FS seq_ skip memset0 SendAck
       gv ga Logicstate ADCstate regs usb_tx hw
       gvar_beq garr_beq reg_beq andb orb negb width elt_width] in *.

(** Byte count a waveform command announces for its table. *)
Definition table_bytes (cmd : frame) : Z :=
  if RECV_Packet.AWG_SET.numSamples cmd <? 32 then 128
  else RECV_Packet.AWG_SET.numSamples cmd * 2.

Lemma on_AWG_SET_bulk (cmd : frame) (s : state) :
  match on_AWG_SET cmd s with
  | Returned m =>
    rd BULK_BUFF_RECV m = u16 (table_bytes cmd) /\
    rd BULK_BUFF m = RECV_Packet.AWG_SET.channel cmd * (AWG_SAMPLES * 2)
  | _ => True
  end.
Proof.
  unfold on_AWG_SET, table_bytes.
  destruct (in_bounds numSamples (RECV_Packet.AWG_SET.channel cmd)) eqn:Hb;
    cbn [negb]; [|exact I].
  apply in_bounds_two in Hb; [|reflexivity].
  pose proof (wrap16_le16 cmd 9) as Hn.
  unfold RECV_Packet.AWG_SET.numSamples.
  destruct Hb as [-> | ->]; cbn [Z.eqb Pos.eqb];
    stores; cbn [Z.eqb Pos.eqb]; rewrite ?Hn; split; reflexivity.
Qed.

Lemma GotCDC_AWG_SET_bulk (env : hal_results) (cmd : frame) (s m : state) :
  rd BULK_BUFF_RECV s = 0 ->
  RECV_Packet.packet_type cmd = 1 ->
  GotCDC_64B_Packet env cmd s = Returned m ->
  (RECV_Packet.AWG_SET.channel cmd = 0 \/
   RECV_Packet.AWG_SET.channel cmd = 1) /\
  rd BULK_BUFF_RECV m = u16 (table_bytes cmd) /\
  rd BULK_BUFF m = RECV_Packet.AWG_SET.channel cmd * (AWG_SAMPLES * 2) /\
  usb_tx m = usb_tx s ++ [ack].
Proof.
  intros Hb Ht Hm.
  destruct (GotCDC_AWG_SET env cmd s m Hb Ht Hm) as (k & Hk & ->).
  pose proof (on_AWG_SET_bulk cmd (wr pauseTransmit 1 s)) as B.
  rewrite Hk in B. destruct B as (H1 & H2).
  pose proof (on_AWG_SET_effect cmd (wr pauseTransmit 1 s)) as E.
  cbv zeta in E. rewrite Hk in E. destruct E as (Hc & _ & _ & _ & Htx & _).
  rewrite !(rd_wr_other pauseTransmit) by discriminate.
  rewrite usb_tx_wr, Htx, usb_tx_wr. repeat split; assumption.
Qed.


(** A frame taken as table data keeps the outstanding byte count modulo 64
    and is only answered when the count reaches 0. *)
Lemma bulk_frame_residue (env : hal_results) (ptr : frame) (s m : state) :
  rd BULK_BUFF_RECV s <> 0 ->
  GotCDC_64B_Packet env ptr s = Returned m ->
  rd BULK_BUFF_RECV m mod 64 = rd BULK_BUFF_RECV s mod 64 /\
  usb_tx m =
    usb_tx s ++ (if rd BULK_BUFF_RECV m =? 0 then [ack] else []).
Proof.
  intros Hrecv Hm. apply GotCDC_cases in Hm. destruct Hm as (k & Hk & ->).
  unfold dispatch in Hk.
  rewrite (rd_wr_other pauseTransmit BULK_BUFF_RECV) in Hk by discriminate.
  apply truthy_true in Hrecv. rewrite Hrecv in Hk. cbn [negb] in Hk.
  destruct (on_bulk_effect ptr _ k Hk) as (_ & Hr & _ & _ & _ & _ & Htx).
  rewrite (rd_wr_other pauseTransmit BULK_BUFF_RECV) in Hr by discriminate.
  rewrite (rd_wr_other pauseTransmit BULK_BUFF_RECV) by discriminate.
  rewrite usb_tx_wr, Htx, usb_tx_wr. split; [|reflexivity].
  rewrite Hr. unfold u16, wrap.
  rewrite Z.mod_mod_divide by (exists (2 ^ 10); reflexivity).
  rewrite Zminus_mod, Z_mod_same_full, Z.sub_0_r, Zmod_mod. reflexivity.
Qed.

(** While the outstanding byte count is not a multiple of 64, frames are
    swallowed as table data and the count never returns to 0. *)
Lemma bulk_residue_run :
  forall (env : hal_results) (frames : list frame) (s m : state),
    rd BULK_BUFF_RECV s mod 64 <> 0 ->
    run (table_frames env frames) s = Returned m ->
    rd BULK_BUFF_RECV m mod 64 = rd BULK_BUFF_RECV s mod 64 /\
    rd BULK_BUFF_RECV m <> 0 /\
    usb_tx m = usb_tx s.
Proof.
  intros env frames. induction frames as [|f rest IH]; intros s m Hres Hrun.
  - cbn in Hrun. injection Hrun as <-. repeat split.
    intros H. rewrite H in Hres. apply Hres. reflexivity.
  - unfold table_frames in Hrun. cbn [map] in Hrun.
    rewrite run_cons in Hrun. cbn [step] in Hrun.
    destruct (GotCDC_64B_Packet env f s) as [m1|m1|] eqn:H1;
      cbn [and_then] in Hrun; try discriminate Hrun.
    assert (Hnz : rd BULK_BUFF_RECV s <> 0).
    { intros H. rewrite H in Hres. apply Hres. reflexivity. }
    destruct (bulk_frame_residue env f s m1 Hnz H1) as (Hr1 & Htx1).
    assert (Hres1 : rd BULK_BUFF_RECV m1 mod 64 <> 0) by (rewrite Hr1; exact Hres).
    assert (Hnz1 : (rd BULK_BUFF_RECV m1 =? 0) = false).
    { apply Z.eqb_neq. intros H. rewrite H in Hres1. apply Hres1.
      reflexivity. }
    rewrite Hnz1, app_nil_r in Htx1.
    destruct (IH m1 m Hres1 Hrun) as (Hr & Hn & Htx).
    rewrite Hr, Hr1, Htx, Htx1. repeat split. exact Hn.
Qed.

(** The sample counts that lead there: 32 or more and no multiple of 32. *)
Lemma odd_sample_count_residue (env : hal_results) (cmd : frame)
    (s m : state) :
  rd BULK_BUFF_RECV s = 0 ->
  RECV_Packet.packet_type cmd = 1 ->
  GotCDC_64B_Packet env cmd s = Returned m ->
  32 <= RECV_Packet.AWG_SET.numSamples cmd ->
  RECV_Packet.AWG_SET.numSamples cmd mod 32 <> 0 ->
  rd BULK_BUFF_RECV m mod 64 <> 0.
Proof.
  intros Hb Ht Hm Hn Hodd.
  destruct (GotCDC_AWG_SET_bulk env cmd s m Hb Ht Hm) as (_ & Hrecv & _).
  rewrite Hrecv. unfold table_bytes, u16, wrap.
  destruct (Z.ltb_spec (RECV_Packet.AWG_SET.numSamples cmd) 32) as [Hlt|_];
    [lia|].
  rewrite Z.mod_mod_divide by (exists (2 ^ 10); reflexivity).
  intros H0. apply Hodd.
  change 64 with (2 * 32) in H0.
  rewrite (Z.mul_comm _ 2), Zmult_mod_distr_l in H0. lia.
Qed.

(** X2.  A transfer that can never complete.  A waveform command with a
    sample count of 32 or more that is not a multiple of 32 announces a
    byte count that is not a multiple of 64.  The decoder then stays in
    table mode: every frame that follows and is handled is taken as table
    data, whatever its tag, none is answered, and the outstanding count
    never returns to 0. *)
Theorem odd_sample_count_blocks_decoder :
  forall (env env' : hal_results) (cmd : frame) (frames : list frame)
         (s m0 m : state),
    rd BULK_BUFF_RECV s = 0 ->
    RECV_Packet.packet_type cmd = 1 ->
    GotCDC_64B_Packet env cmd s = Returned m0 ->
    32 <= RECV_Packet.AWG_SET.numSamples cmd ->
    RECV_Packet.AWG_SET.numSamples cmd mod 32 <> 0 ->
    run (table_frames env' frames) m0 = Returned m ->
    rd BULK_BUFF_RECV m <> 0 /\ usb_tx m = usb_tx m0.
Proof.
  intros env env' cmd frames s m0 m Hb Ht Hm Hn Hodd Hrun.
  pose proof (odd_sample_count_residue env cmd s m0 Hb Ht Hm Hn Hodd) as Hres.
  destruct (bulk_residue_run env' frames m0 m Hres Hrun) as (_ & H1 & H2).
  split; assumption.
Qed.



(** ** Outcomes of the command handler *)

Lemma changeLogic_outcome (env : hal_results) (s : state) :
  match changeLogic env s with
  | Returned _ => env = hal_ok
  | Halted _ => env <> hal_ok
  | OutOfBounds => False
  end.
Proof.
  unfold changeLogic, MX_TIM16_Init, MX_TIM5_Init.
  destruct env as [e1 e2 e3 e4 e5].
  cbn [tim16_base_init tim5_pwm_init tim5_master_config
       tim5_config_channel_1 tim5_config_channel_2].
  destruct e1; cbn [check and_then]; [|discriminate].
  destruct e2; cbn [check and_then]; [|discriminate].
  destruct e3; cbn [check and_then]; [|discriminate].
  destruct e4; cbn [check and_then]; [|discriminate].
  destruct e5; cbn [check and_then]; [reflexivity | discriminate].
Qed.

Lemma on_LOGIC_SET_outcome (env : hal_results) (ptr : frame) (s : state) :
  match on_LOGIC_SET env ptr s with
  | Returned _ => RECV_Packet.LOGIC_SET.control ptr <> 1 \/ env = hal_ok
  | Halted _ => RECV_Packet.LOGIC_SET.control ptr = 1 /\ env <> hal_ok
  | OutOfBounds => False
  end.
Proof.
  unfold on_LOGIC_SET.
  destruct (Z.eqb_spec (RECV_Packet.LOGIC_SET.control ptr) 1) as [E|E].
  - match goal with
    | |- context [changeLogic env ?t] =>
      pose proof (changeLogic_outcome env t) as H;
      destruct (changeLogic env t)
    end; cbn [and_then]; auto.
  - left. exact E.
Qed.

Lemma dispatch_outcome (env : hal_results) (ptr : frame) (s : state) :
  match dispatch env ptr s with
  | Returned _ => True
  | Halted k =>
    rd BULK_BUFF_RECV s = 0 /\ RECV_Packet.packet_type ptr = 3 /\
    RECV_Packet.LOGIC_SET.control ptr = 1 /\ env <> hal_ok
  | OutOfBounds =>
    (rd BULK_BUFF_RECV s = 0 /\ RECV_Packet.packet_type ptr = 1 /\
     ~ (0 <= RECV_Packet.AWG_SET.channel ptr < AWG_NUM_CHAN)) \/
    (rd BULK_BUFF_RECV s <> 0 /\
     ~ (0 <= rd BULK_BUFF s /\ rd BULK_BUFF s + 63 < arr_len awg_lut))
  end.
Proof.
  unfold dispatch.
  destruct (truthy (rd BULK_BUFF_RECV s)) eqn:Hb; cbn [negb].
  - apply truthy_true in Hb. unfold on_bulk.
    destruct (in_bounds awg_lut (rd BULK_BUFF s) &&
              in_bounds awg_lut (rd BULK_BUFF s + 63)) eqn:Hin;
      cbn [negb]; [exact I|].
    right. split; [exact Hb|]. intros [H1 H2].
    unfold in_bounds in Hin.
    destruct (Z.leb_spec 0 (rd BULK_BUFF s)); [|lia].
    destruct (Z.ltb_spec (rd BULK_BUFF s + 63) (arr_len awg_lut)); [|lia].
    destruct (Z.leb_spec 0 (rd BULK_BUFF s + 63)); [|lia].
    destruct (Z.ltb_spec (rd BULK_BUFF s) (arr_len awg_lut)); [|lia].
    discriminate Hin.
  - apply truthy_false in Hb.
    destruct (Z.eqb_spec (RECV_Packet.packet_type ptr) 0); [exact I|].
    destruct (Z.eqb_spec (RECV_Packet.packet_type ptr) 1) as [E1|E1].
    { pose proof (on_AWG_SET_effect ptr s) as H. cbv zeta in H.
      destruct (on_AWG_SET ptr s); [exact I | contradiction |].
      left. auto. }
    destruct (Z.eqb_spec (RECV_Packet.packet_type ptr) 2); [exact I|].
    destruct (Z.eqb_spec (RECV_Packet.packet_type ptr) 3) as [E3|E3];
      [|exact I].
    pose proof (on_LOGIC_SET_outcome env ptr s) as H.
    destruct (on_LOGIC_SET env ptr s); [exact I | | contradiction].
    destruct H as [H1 H2]. auto.
Qed.

(** X4.  The handler does not return exactly when a logic-analyser start
    command meets a failing timer initialisation: it then sits in
    [Error_Handler], and it does so after the acknowledgement was sent and
    with [pauseTransmit] still set. *)
Theorem decoder_halts_in_Error_Handler :
  forall (env : hal_results) (ptr : frame) (s k : state),
    GotCDC_64B_Packet env ptr s = Halted k ->
    rd BULK_BUFF_RECV s = 0 /\
    RECV_Packet.packet_type ptr = 3 /\
    RECV_Packet.LOGIC_SET.control ptr = 1 /\
    env <> hal_ok /\
    rd pauseTransmit k = 1 /\
    usb_tx k = usb_tx s ++ [ack].
Proof.
  intros env ptr s k. unfold GotCDC_64B_Packet.
  pose proof (dispatch_outcome env ptr (wr pauseTransmit 1 s)) as H.
  destruct (dispatch env ptr (wr pauseTransmit 1 s)) as [m|m|] eqn:Hd;
    cbn [and_then]; try discriminate.
  intros [= ->].
  rewrite (rd_wr_other pauseTransmit BULK_BUFF_RECV) in H by discriminate.
  destruct H as (Hb & Ht & Hc & He).
  repeat (split; [assumption|]).
  unfold dispatch in Hd.
  rewrite (rd_wr_other pauseTransmit BULK_BUFF_RECV) in Hd by discriminate.
  rewrite Hb, Ht in Hd. cbn in Hd.
  assert (Hf : final (on_LOGIC_SET env ptr (wr pauseTransmit 1 s)) = Some k)
    by (rewrite Hd; reflexivity).
  destruct (on_LOGIC_SET_effect env ptr _ k Hf) as (h & _ & Htx & _).
  rewrite h by discriminate. rewrite Htx. split; reflexivity.
Qed.

(** X5.  The handler stores outside an array in exactly two situations: a
    waveform command whose channel byte is not 0 or 1 (it indexes
    [numSamples], [phaseARR] and the rows of [awg_lut] unchecked), and a
    table frame whose 64 bytes do not fit between [BULK_BUFF] and the end
    of [awg_lut]. *)
Theorem decoder_out_of_bounds_iff :
  forall (env : hal_results) (ptr : frame) (s : state),
    GotCDC_64B_Packet env ptr s = OutOfBounds <->
    (rd BULK_BUFF_RECV s = 0 /\ RECV_Packet.packet_type ptr = 1 /\
     ~ (0 <= RECV_Packet.AWG_SET.channel ptr < AWG_NUM_CHAN)) \/
    (rd BULK_BUFF_RECV s <> 0 /\
     ~ (0 <= rd BULK_BUFF s /\ rd BULK_BUFF s + 63 < arr_len awg_lut)).
Proof.
  intros env ptr s. unfold GotCDC_64B_Packet.
  pose proof (dispatch_outcome env ptr (wr pauseTransmit 1 s)) as H.
  rewrite (rd_wr_other pauseTransmit BULK_BUFF_RECV) in H by discriminate.
  rewrite (rd_wr_other pauseTransmit BULK_BUFF) in H by discriminate.
  split.
  - destruct (dispatch env ptr (wr pauseTransmit 1 s)); cbn [and_then];
      try discriminate. intros _. exact H.
  - clear H. intros H. unfold dispatch.
    rewrite (rd_wr_other pauseTransmit BULK_BUFF_RECV) by discriminate.
    destruct H as [(Hb & Ht & Hc) | (Hb & Hd)].
    + rewrite Hb, Ht. cbn [truthy Z.eqb negb Pos.eqb].
      pose proof (on_AWG_SET_effect ptr (wr pauseTransmit 1 s)) as E.
      cbv zeta in E.
      destruct (on_AWG_SET ptr (wr pauseTransmit 1 s)); cbn [and_then];
        [|contradiction|reflexivity].
      destruct E as (E & _). exfalso. apply Hc. unfold AWG_NUM_CHAN.
      destruct E as [-> | ->]; lia.
    + apply truthy_true in Hb. rewrite Hb. cbn [negb]. unfold on_bulk.
      rewrite (rd_wr_other pauseTransmit BULK_BUFF) by discriminate.
      destruct (in_bounds awg_lut (rd BULK_BUFF s) &&
                in_bounds awg_lut (rd BULK_BUFF s + 63)) eqn:Hin;
        cbn [negb]; [|reflexivity].
      exfalso. apply Hd. unfold in_bounds in Hin.
      apply andb_prop in Hin. destruct Hin as [H1 H2].
      apply andb_prop in H1. apply andb_prop in H2.
      destruct H1 as [H1 _]. destruct H2 as [_ H2].
      apply Z.leb_le in H1. apply Z.ltb_lt in H2. split; assumption.
Qed.

(** X6.  The handler returns, with [pauseTransmit] clear, on every frame
    that avoids its two failure modes: a waveform command names channel 0
    or 1, a logic-analyser start finds the timer initialisation
    succeeding, and a table frame fits the table. *)
Theorem decoder_returns :
  forall (env : hal_results) (ptr : frame) (s : state),
    (rd BULK_BUFF_RECV s = 0 -> RECV_Packet.packet_type ptr = 1 ->
     0 <= RECV_Packet.AWG_SET.channel ptr < AWG_NUM_CHAN) ->
    (rd BULK_BUFF_RECV s = 0 -> RECV_Packet.packet_type ptr = 3 ->
     RECV_Packet.LOGIC_SET.control ptr = 1 -> env = hal_ok) ->
    (rd BULK_BUFF_RECV s <> 0 ->
     0 <= rd BULK_BUFF s /\ rd BULK_BUFF s + 63 < arr_len awg_lut) ->
    exists m,
      GotCDC_64B_Packet env ptr s = Returned m /\ rd pauseTransmit m = 0.
Proof.
  intros env ptr s Hawg Hlogic Hbulk. unfold GotCDC_64B_Packet.
  pose proof (dispatch_outcome env ptr (wr pauseTransmit 1 s)) as H.
  rewrite (rd_wr_other pauseTransmit BULK_BUFF_RECV) in H by discriminate.
  rewrite (rd_wr_other pauseTransmit BULK_BUFF) in H by discriminate.
  destruct (dispatch env ptr (wr pauseTransmit 1 s)) as [m|m|];
    cbn [and_then].
  - exists (wr pauseTransmit 0 m). split; reflexivity.
  - destruct H as (Hb & Ht & Hc & He). contradiction (He (Hlogic Hb Ht Hc)).
  - destruct H as [(Hb & Ht & Hc) | (Hb & Hd)].
    + contradiction (Hc (Hawg Hb Ht)).
    + contradiction (Hd (Hbulk Hb)).
Qed.

(** ** Logic-analyser commands *)

Lemma changeLogic_clears (env : hal_results) (s m : state) (i : Z) :
  changeLogic env s = Returned m ->
  in_bounds Logic_buff i = true -> ga m Logic_buff i = 0.
Proof.
  unfold changeLogic, MX_TIM16_Init, MX_TIM5_Init.
  destruct env as [e1 e2 e3 e4 e5].
  cbn [tim16_base_init tim5_pwm_init tim5_master_config
       tim5_config_channel_1 tim5_config_channel_2].
  destruct e1; cbn [check and_then]; [|discriminate].
  destruct e2; cbn [check and_then]; [|discriminate].
  destruct e3; cbn [check and_then]; [|discriminate].
  destruct e4; cbn [check and_then]; [|discriminate].
  destruct e5; cbn [check and_then]; [|discriminate].
  intros [= <-] Hin. unfold call, emit, memset0. cbn [ga garr_beq andb].
  rewrite Hin. reflexivity.
Qed.

Lemma GotCDC_LOGIC_SET (env : hal_results) (ptr : frame) (s m : state) :
  rd BULK_BUFF_RECV s = 0 ->
  RECV_Packet.packet_type ptr = 3 ->
  GotCDC_64B_Packet env ptr s = Returned m ->
  exists k, on_LOGIC_SET env ptr (wr pauseTransmit 1 s) = Returned k /\
            m = wr pauseTransmit 0 k.
Proof.
  intros Hb Ht Hm. apply GotCDC_cases in Hm. destruct Hm as (k & Hk & ->).
  exists k. split; [|reflexivity]. unfold dispatch in Hk.
  rewrite (rd_wr_other pauseTransmit BULK_BUFF_RECV) in Hk by discriminate.
  rewrite Hb, Ht in Hk. exact Hk.
Qed.

Lemma on_LOGIC_SET_fields (env : hal_results) (ptr : frame) (s m : state) :
  on_LOGIC_SET env ptr s = Returned m ->
  rd trigPin m = RECV_Packet.LOGIC_SET.triggerpin ptr mod 256 /\
  rd trigEdge m = RECV_Packet.LOGIC_SET.triggeredge ptr mod 256 /\
  rd period16 m = RECV_Packet.LOGIC_SET.period16 ptr /\
  rd prescaler16 m = RECV_Packet.LOGIC_SET.prescaler ptr /\
  rd period32 m = RECV_Packet.LOGIC_SET.period32 ptr /\
  Logicstate m = preTrigger /\
  (RECV_Packet.LOGIC_SET.control ptr = 1 ->
   forall i, in_bounds Logic_buff i = true -> rd_arr Logic_buff i m = 0) /\
  (RECV_Packet.LOGIC_SET.control ptr <> 1 ->
   forall i, rd_arr Logic_buff i m = rd_arr Logic_buff i s).
Proof.
  unfold on_LOGIC_SET.
  pose proof (wrap16_le16 ptr 6) as H16.
  pose proof (wrap16_le16 ptr 8) as Hpsc.
  assert (H32 : wrap 32 (le32 ptr 10) = le32 ptr 10).
  { apply wrap_small. unfold le32.
    pose proof (le16_range ptr 10). pose proof (le16_range ptr (10 + 2)).
    change (2 ^ 32) with 4294967296. lia. }
  unfold RECV_Packet.LOGIC_SET.period16, RECV_Packet.LOGIC_SET.prescaler,
    RECV_Packet.LOGIC_SET.period32.
  destruct (Z.eqb_spec (RECV_Packet.LOGIC_SET.control ptr) 1) as [E|E].
  - match goal with
    | |- and_then (changeLogic env ?t) _ = _ -> _ =>
      set (s1 := t);
      assert (G : rd trigPin s1 =
                    RECV_Packet.LOGIC_SET.triggerpin ptr mod 256 /\
                  rd trigEdge s1 =
                    RECV_Packet.LOGIC_SET.triggeredge ptr mod 256 /\
                  rd period16 s1 = le16 ptr 6 /\
                  rd prescaler16 s1 = le16 ptr 8 /\
                  rd period32 s1 = le32 ptr 10)
        by (subst s1; stores; rewrite H16, Hpsc, H32; repeat split);
      clearbody s1
    end.
    pose proof (changeLogic_effect env s1) as Hcl.
    pose proof (changeLogic_clears env s1) as Hz.
    destruct (changeLogic env s1) as [k|k|]; cbn [and_then];
      try discriminate.
    intros [= <-].
    destruct (Hcl k eq_refl) as (hg & _).
    destruct G as (g1 & g2 & g3 & g4 & g5).
    unfold rd in *. stores. rewrite hg.
    repeat (split; [assumption|]). split; [reflexivity|]. split.
    + intros _ i Hi. apply (Hz k i eq_refl Hi).
    + intros Hne. contradiction.
  - intros [= <-]. stores. rewrite H16, Hpsc, H32.
    repeat (split; [reflexivity|]). split.
    + intros Hc. contradiction.
    + intros _ i. reflexivity.
Qed.

(** X7.  A logic-analyser command stores its timing fields as sent, but
    the trigger pin mask and the edge code only modulo 256 (the globals
    are 8 bits wide, the fields 16); it always leaves the capture state
    at pre-trigger.  A start command ([control] = 1) also clears the whole
    capture buffer, any other command leaves the buffer alone. *)
Theorem logic_command_effect :
  forall (env : hal_results) (ptr : frame) (s m : state),
    rd BULK_BUFF_RECV s = 0 ->
    RECV_Packet.packet_type ptr = 3 ->
    GotCDC_64B_Packet env ptr s = Returned m ->
    rd trigPin m = RECV_Packet.LOGIC_SET.triggerpin ptr mod 256 /\
    rd trigEdge m = RECV_Packet.LOGIC_SET.triggeredge ptr mod 256 /\
    rd period16 m = RECV_Packet.LOGIC_SET.period16 ptr /\
    rd prescaler16 m = RECV_Packet.LOGIC_SET.prescaler ptr /\
    rd period32 m = RECV_Packet.LOGIC_SET.period32 ptr /\
    Logicstate m = preTrigger /\
    (RECV_Packet.LOGIC_SET.control ptr = 1 ->
     forall i, in_bounds Logic_buff i = true -> rd_arr Logic_buff i m = 0) /\
    (RECV_Packet.LOGIC_SET.control ptr <> 1 ->
     forall i, rd_arr Logic_buff i m = rd_arr Logic_buff i s).
Proof.
  intros env ptr s m Hb Ht Hm.
  destruct (GotCDC_LOGIC_SET env ptr s m Hb Ht Hm) as (k & Hk & ->).
  apply (on_LOGIC_SET_fields env ptr _ k) in Hk.
  rewrite !(rd_wr_other pauseTransmit) by discriminate.
  exact Hk.
Qed.

(** ** The capture callback: when the trigger fires *)

Definition is_channel_1 (ch : HAL_TIM_ActiveChannel) : bool :=
  match ch with HAL_TIM_ACTIVE_CHANNEL_1 => true | _ => false end.

(** Falling edge: some selected pin was high in the previous sample and all
    selected pins are low now.  Rising edge: all selected pins were low and
    some selected pin is high now. *)
Definition logic_trigger_fires (ch : HAL_TIM_ActiveChannel) (IDR : Z)
    (s : state) : bool :=
  is_preTrigger (Logicstate s) && is_channel_1 ch &&
  (((rd trigEdge s =? 0) &&
    negb (u16 (Z.land (rd pastValue s) (rd trigPin s)) =? 0) &&
    (Z.land (u16 IDR) (rd trigPin s) =? 0))
   ||
   ((rd trigEdge s =? 1) &&
    (Z.land (rd pastValue s) (rd trigPin s) =? 0) &&
    negb (Z.land (u16 IDR) (rd trigPin s) =? 0))).

Lemma logic_trigger_check_fires (s : state) :
  let m := logic_trigger_check s in
  let fires :=
    is_preTrigger (Logicstate s) &&
    (((rd trigEdge s =? 0) &&
      negb (u16 (Z.land (rd pastValue s) (rd trigPin s)) =? 0) &&
      (Z.land (rd currentValue s) (rd trigPin s) =? 0))
     ||
     ((rd trigEdge s =? 1) &&
      (Z.land (rd pastValue s) (rd trigPin s) =? 0) &&
      negb (u16 (Z.land (rd currentValue s) (rd trigPin s)) =? 0))) in
  Logicstate m = (if fires then triggerState else Logicstate s) /\
  hw m = hw s ++
         (if fires then [Call HAL_TIM_Base_Start_IT [Sym htim16]] else []).
Proof.
  cbv zeta. unfold logic_trigger_check, fire_logic_trigger.
  destruct (is_preTrigger (Logicstate s)); cbn [andb];
    [|rewrite app_nil_r; split; reflexivity].
  cbv zeta.
  destruct (Z.eqb_spec (rd trigEdge s) 0) as [E0|E0].
  - assert (E1 : (rd trigEdge s =? 1) = false) by (apply Z.eqb_neq; lia).
    rewrite E1. cbn [andb orb]. rewrite orb_false_r.
    set (sp := wr pastValue (Z.land (rd pastValue s) (rd trigPin s)) s).
    assert (Hp : rd pastValue sp =
                 u16 (Z.land (rd pastValue s) (rd trigPin s)))
      by reflexivity.
    assert (Hc : Z.land (rd currentValue sp) (rd trigPin sp) =
                 Z.land (rd currentValue s) (rd trigPin s))
      by reflexivity.
    unfold truthy. rewrite Hp, Hc.
    destruct (u16 (Z.land (rd pastValue s) (rd trigPin s)) =? 0);
      cbn [negb andb];
      [|destruct (Z.land (rd currentValue s) (rd trigPin s) =? 0);
        cbn [negb]];
      match goal with
      | |- context [rd trigEdge ?T =? 1] =>
        change (rd trigEdge T) with (rd trigEdge s)
      end; rewrite E1; rewrite ?app_nil_r; split; reflexivity.
  - cbn [andb orb].
    destruct (rd trigEdge s =? 1); cbn [andb];
      [|rewrite app_nil_r; split; reflexivity].
    unfold truthy.
    destruct (Z.land (rd pastValue s) (rd trigPin s) =? 0);
      cbn [negb andb]; [|rewrite app_nil_r; split; reflexivity].
    set (sc := wr currentValue (Z.land (rd currentValue s) (rd trigPin s)) s).
    assert (Hc : rd currentValue sc =
                 u16 (Z.land (rd currentValue s) (rd trigPin s)))
      by reflexivity.
    rewrite Hc.
    destruct (u16 (Z.land (rd currentValue s) (rd trigPin s)) =? 0);
      cbn [negb]; rewrite ?app_nil_r; split; reflexivity.
Qed.

(** X8.  When the capture callback fires the logic trigger.  The state
    becomes triggered, and TIM16 is started, exactly when the capture is
    armed, the callback is for timer channel 1, and the configured edge is
    seen on the selected pins: for edge code 0 some selected pin was high in
    the previous sample and all are low now, for edge code 1 all selected
    pins were low and some is high now.  Any other edge code never
    fires. *)
Theorem logic_trigger_condition :
  forall (ch : HAL_TIM_ActiveChannel) (IDR : Z) (s : state),
    let m := HAL_TIM_PWM_PulseFinishedCallback ch IDR s in
    Logicstate m =
      (if logic_trigger_fires ch IDR s then triggerState
       else Logicstate s) /\
    hw m = hw s ++
      (if logic_trigger_fires ch IDR s
       then [Call HAL_TIM_Base_Start_IT [Sym htim16]] else []).
Proof.
  intros ch IDR s. cbv zeta.
  unfold HAL_TIM_PWM_PulseFinishedCallback, logic_trigger_fires. cbv zeta.
  set (s0 := wr currentValue IDR s).
  assert (H0 : Logicstate s0 = Logicstate s /\ rd trigEdge s0 = rd trigEdge s
               /\ rd pastValue s0 = rd pastValue s
               /\ rd trigPin s0 = rd trigPin s
               /\ rd currentValue s0 = u16 IDR /\ hw s0 = hw s)
    by (repeat split).
  destruct H0 as (h1 & h2 & h3 & h4 & h5 & h6). clearbody s0.
  destruct ch; cbn [is_channel_1];
    rewrite ?andb_false_r; cbn [andb];
    try (destruct (store_logic_sample_rest s0) as (_ & Hl & _ & _ & _ & Hh);
         rewrite Hl, Hh, h1, h6, app_nil_r; split; reflexivity).
  destruct (store_logic_sample_rest (logic_trigger_check s0))
    as (_ & Hl & _ & _ & _ & Hh).
  rewrite Hl, Hh.
  destruct (logic_trigger_check_fires s0) as (F1 & F2).
  rewrite F1, F2, h1, h2, h3, h4, h5, h6, andb_true_r.
  assert (Hw : u16 (Z.land (u16 IDR) (rd trigPin s)) =
               Z.land (u16 IDR) (rd trigPin s))
    by (apply wrap16_land).
  rewrite Hw. split; reflexivity.
Qed.

(** ** Counters and cursors in reachable states *)

Lemma adc_phase_shadowCount (s : state) :
  rd shadowCount (adc_phase s) = rd shadowCount s \/
  rd shadowCount (adc_phase s) = 0.
Proof.
  unfold adc_phase, ADCstart, ADCstop.
  destruct (ADCstate s); case_ifs; auto.
Qed.

Lemma GotCDC_shadowCount (env : hal_results) (ptr : frame) (s m : state) :
  GotCDC_64B_Packet env ptr s = Returned m ->
  rd shadowCount m = rd shadowCount s \/ rd shadowCount m = 0.
Proof.
  intros Hm. apply GotCDC_cases in Hm. destruct Hm as (k & Hk & ->).
  rewrite (rd_wr_other pauseTransmit shadowCount) by discriminate.
  assert (Hs : rd shadowCount (wr pauseTransmit 1 s) = rd shadowCount s)
    by reflexivity.
  rewrite <- Hs. clear Hs.
  generalize dependent (wr pauseTransmit 1 s). clear s. intros s Hk.
  unfold dispatch in Hk.
  destruct (truthy (rd BULK_BUFF_RECV s)) eqn:Hb; cbn [negb] in Hk.
  - left. destruct (on_bulk_effect ptr s k Hk) as (h & _).
    apply h; discriminate.
  - destruct (RECV_Packet.packet_type ptr =? 0).
    { left. injection Hk as <-.
      destruct (on_HandShake_effect ptr s) as (h & _).
      unfold rd. rewrite h. reflexivity. }
    destruct (RECV_Packet.packet_type ptr =? 1).
    { left. pose proof (on_AWG_SET_effect ptr s) as H. rewrite Hk in H.
      destruct H as (_ & h & _). apply h; discriminate. }
    destruct (RECV_Packet.packet_type ptr =? 2).
    { right. injection Hk as <-.
      destruct (on_ADC_SET_effect ptr s) as (h & _).
      rewrite h. reflexivity. }
    destruct (RECV_Packet.packet_type ptr =? 3).
    { left.
      assert (Hf : final (on_LOGIC_SET env ptr s) = Some k)
        by (rewrite Hk; reflexivity).
      destruct (on_LOGIC_SET_effect env ptr s k Hf) as (h & _).
      apply h; discriminate. }
    left. injection Hk as <-. reflexivity.
Qed.

(** X9.  The shadow counter of the oscilloscope, which the TIM17 interrupt
    advances, is in every reachable state a multiple of 100 between 0 and
    30000: it saturates at the buffer size and never wraps. *)
Theorem shadowCount_saturates :
  forall (s : state),
    reachable s ->
    0 <= rd shadowCount s <= 30000 /\ rd shadowCount s mod 100 = 0.
Proof.
  apply reachable_ind.
  - intros r0. change (rd shadowCount (boot r0)) with 0.
    split; [lia | reflexivity].
  - intros e s m _ IH Hstep.
    assert (Hz : 0 <= 0 <= 30000 /\ 0 mod 100 = 0)
      by (split; [lia | reflexivity]).
    destruct (writes e shadowCount) eqn:Hw.
    + destruct e; try discriminate Hw; cbn [step] in Hstep.
      * injection Hstep as <-.
        destruct (adc_phase_shadowCount s) as [-> | ->]; assumption.
      * injection Hstep as <-. unfold TIM17_IRQHandler.
        destruct (Z.ltb_spec (rd shadowCount s) 30000) as [L|L];
          [|exact IH].
        unfold seq_, call, emit, wr, rd in *; cbn [gv gvar_beq width].
        destruct IH as [Hb Hm].
        assert (Hs : gv s shadowCount <= 29900).
        { pose proof (Z.div_mod (gv s shadowCount) 100 ltac:(lia)). lia. }
        rewrite wrap_small by (change (2 ^ 16) with 65536; lia).
        split; [lia|].
        rewrite <- Zplus_mod_idemp_l, Hm. reflexivity.
      * destruct (GotCDC_shadowCount env ptr s m Hstep) as [-> | ->];
          assumption.
    + rewrite (step_footprint e s m shadowCount Hstep Hw). exact IH.
Qed.

Lemma store_logic_sample_pointer (s : state) :
  0 <= rd logicWritePointer (store_logic_sample s) < LOGIC_BUFF.
Proof.
  unfold store_logic_sample. cbv zeta.
  rewrite (rd_wr_other pastValue logicWritePointer) by discriminate.
  match goal with
  | |- context [wr logicWritePointer (?v + 1) ?t] =>
    generalize v; generalize t
  end.
  intros t v.
  rewrite (rd_wr_same logicWritePointer).
  pose proof (wrap_range 16 (v + 1) ltac:(lia)) as Hr.
  change (width logicWritePointer) with 16.
  destruct (Z.geb_spec (wrap 16 (v + 1)) LOGIC_BUFF) as [G|G].
  - rewrite (rd_wr_same logicWritePointer), wrap_0.
    unfold LOGIC_BUFF. lia.
  - rewrite (rd_wr_same logicWritePointer).
    change (width logicWritePointer) with 16. lia.
Qed.

(** X10.  The circular write pointer of the logic capture is in every
    reachable state a valid index of [Logic_buff]: the capture callback
    never stores a sample outside the buffer. *)
Theorem logicWritePointer_in_buffer :
  forall (s : state),
    reachable s -> in_bounds Logic_buff (rd logicWritePointer s) = true.
Proof.
  assert (Hin : forall v, 0 <= v < LOGIC_BUFF ->
                          in_bounds Logic_buff v = true).
  { intros v Hv. unfold in_bounds. cbn [arr_len].
    destruct (Z.leb_spec 0 v), (Z.ltb_spec v LOGIC_BUFF);
      try reflexivity; lia. }
  apply reachable_ind.
  - intros r0. reflexivity.
  - intros e s m _ IH Hstep.
    destruct (writes e logicWritePointer) eqn:Hw.
    + destruct e; try discriminate Hw; cbn [step] in Hstep.
      injection Hstep as <-. unfold HAL_TIM_PWM_PulseFinishedCallback.
      cbv zeta. apply Hin, store_logic_sample_pointer.
    + rewrite (step_footprint e s m logicWritePointer Hstep Hw). exact IH.
Qed.

Lemma GotCDC_adcpos_cases (env : hal_results) (ptr : frame) (s m : state) :
  GotCDC_64B_Packet env ptr s = Returned m ->
  rd adcpos m = rd adcpos s \/ rd adcpos m = 0.
Proof.
  intros Hm. destruct (GotCDC_adcpos env ptr s m Hm) as [H | (_ & _ & H)];
    auto.
Qed.

Lemma adcpos_aligned (s : state) :
  reachable s -> rd adcpos s mod datalength = 0.
Proof.
  revert s. apply reachable_ind.
  - intros r0. reflexivity.
  - intros e s m Hr IH Hstep.
    destruct (writes e adcpos) eqn:Hw.
    + destruct e; try discriminate Hw; cbn [step] in Hstep.
      * injection Hstep as <-.
        destruct (adc_phase_adcpos s) as [-> | [-> _]];
          [exact IH | reflexivity].
      * injection Hstep as <-.
        destruct (send_phase_adcpos s) as [[-> | [A ->]] _]; [exact IH|].
        destruct (reachable_cursor_in_range s Hr) as [Hc Hs].
        specialize (Hs A). unfold datalength in *.
        unfold u16. rewrite wrap_small by (change (2 ^ 16) with 65536; lia).
        rewrite <- Zplus_mod_idemp_l, IH. reflexivity.
      * destruct (GotCDC_adcpos_cases env ptr s m Hstep) as [-> | ->];
          [exact IH | reflexivity].
    + rewrite (step_footprint e s m adcpos Hstep Hw). exact IH.
Qed.

(** X11.  Whenever an oscilloscope frame is pending ([adcsend] is 1), the
    cursor is a multiple of the window length and the whole window that
    [sendData] copies lies inside [adc_buff] and [adc_buff1]. *)
Theorem pending_adc_window_in_buffer :
  forall (s : state) (k : Z),
    reachable s ->
    rd adcsend s = 1 ->
    0 <= k < datalength ->
    rd adcpos s mod datalength = 0 /\
    in_bounds adc_buff (rd adcpos s + k) = true /\
    in_bounds adc_buff1 (rd adcpos s + k) = true.
Proof.
  intros s k Hr Ha Hk.
  pose proof (adcpos_aligned s Hr) as Hal.
  destruct (reachable_cursor_in_range s Hr) as [Hc Hs]. specialize (Hs Ha).
  split; [exact Hal|].
  unfold datalength in *.
  assert (Hle : rd adcpos s <= 29992).
  { pose proof (Z.div_mod (rd adcpos s) 8 ltac:(lia)). lia. }
  unfold in_bounds. cbn [arr_len]. unfold ADC_BUFF.
  destruct (Z.leb_spec 0 (rd adcpos s + k)),
    (Z.ltb_spec (rd adcpos s + k) 30000); try (split; reflexivity); lia.
Qed.

(** ** The watchdog interrupts *)

Lemma ADC2_confirm_test (i1 t : Z) :
  Z.land ADC_ISR_AWD1 1 = 0 ->
  truthy (Z.land (Z.land i1 ADC_ISR_AWD1) (c_bool (t =? 1))) = false.
Proof.
  intros Hmask. apply truthy_false.
  destruct (t =? 1); cbn [c_bool].
  - rewrite <- Z.land_assoc, Hmask. apply Z.land_0_r.
  - apply Z.land_0_r.
Qed.

(** X12.  The second test of the ADC2 handler and-s the masked status with
    the 0/1 result of [triggerType==1].  When bit 0 is not part of
    [ADC_ISR_AWD1] the test is never true: the handler can record the
    first stage (flag 1) but never confirms a trigger, whatever the status
    register holds. *)
Theorem ADC2_IRQHandler_never_confirms :
  Z.land ADC_ISR_AWD1 1 = 0 ->
  forall (isr_awd2 isr_awd1 : Z) (s : state),
    ADC2_IRQHandler isr_awd2 isr_awd1 s =
    call HAL_ADC_IRQHandler [Sym hadc2]
      (if truthy (Z.land isr_awd2 ADC_ISR_AWD2)
       then (wr triggerType 1 ;; emit (RegOr ADC2_ISR ADC_ISR_AWD2)) s
       else s).
Proof.
  intros Hmask i2 i1 s. unfold ADC2_IRQHandler. cbv zeta.
  rewrite ADC2_confirm_test by exact Hmask. reflexivity.
Qed.

Lemma ADC2_IRQHandler_not_confirmed (i2 i1 : Z) (s : state) :
  Z.land ADC_ISR_AWD1 1 = 0 ->
  rd triggerType s <> 2 ->
  rd triggerType (ADC2_IRQHandler i2 i1 s) <> 2.
Proof.
  intros Hmask Hs. unfold ADC2_IRQHandler. cbv zeta.
  rewrite ADC2_confirm_test by exact Hmask.
  destruct (truthy (Z.land i2 ADC_ISR_AWD2)); [discriminate | exact Hs].
Qed.

(** A command changes the oscilloscope state only when it is an acquisition
    command. *)
Lemma GotCDC_ADCstate (env : hal_results) (ptr : frame) (s m : state) :
  GotCDC_64B_Packet env ptr s = Returned m ->
  ADCstate m = ADCstate s \/
  (rd BULK_BUFF_RECV s = 0 /\ RECV_Packet.packet_type ptr = 2 /\
   ADCstate m = armed_state (RECV_Packet.ADC_SET.triggermode ptr)).
Proof.
  intros Hm. apply GotCDC_cases in Hm. destruct Hm as (k & Hk & ->).
  change (ADCstate (wr pauseTransmit 0 k)) with (ADCstate k).
  assert (Hs : ADCstate (wr pauseTransmit 1 s) = ADCstate s /\
               rd BULK_BUFF_RECV (wr pauseTransmit 1 s) = rd BULK_BUFF_RECV s)
    by (split; reflexivity).
  destruct Hs as [<- <-].
  generalize dependent (wr pauseTransmit 1 s). clear s. intros s Hk.
  unfold dispatch in Hk.
  destruct (truthy (rd BULK_BUFF_RECV s)) eqn:Hb; cbn [negb] in Hk.
  - left. apply (on_bulk_effect ptr s k Hk).
  - apply truthy_false in Hb.
    destruct (RECV_Packet.packet_type ptr =? 0).
    { left. injection Hk as <-. apply (on_HandShake_effect ptr s). }
    destruct (RECV_Packet.packet_type ptr =? 1).
    { left. pose proof (on_AWG_SET_effect ptr s) as H. rewrite Hk in H.
      apply H. }
    destruct (Z.eqb_spec (RECV_Packet.packet_type ptr) 2) as [E|E].
    { right. injection Hk as <-.
      destruct (on_ADC_SET_effect ptr s) as (_ & _ & _ & h & _).
      repeat split; assumption. }
    destruct (RECV_Packet.packet_type ptr =? 3).
    { left.
      assert (Hf : final (on_LOGIC_SET env ptr s) = Some k)
        by (rewrite Hk; reflexivity).
      apply (on_LOGIC_SET_effect env ptr s k Hf). }
    left. injection Hk as <-. reflexivity.
Qed.

Lemma adc_phase_ADCstate (s : state) :
  ADCstate (adc_phase s) = ADCstate s \/
  (ADCstate s = preTrigger /\ rd triggerType s = 2 /\
   ADCstate (adc_phase s) = triggerState) \/
  (ADCstate s = triggerState /\ rd triggerDuration s <= rd shadowCount s /\
   ADCstate (adc_phase s) = postTrigger) \/
  (ADCstate s = postTrigger /\ 29999 < rd adcpos s /\
   ADCstate (adc_phase s) = preTrigger).
Proof.
  unfold adc_phase, ADCstart, ADCstop, ADC_BUFF_full.
  destruct (ADCstate s) eqn:Hst.
  - destruct (Z.geb_spec (rd shadowCount s) (rd triggerDuration s));
      [|left; exact Hst].
    right; right; left. repeat split. assumption.
  - destruct (Z.gtb_spec (rd adcpos s) (30000 - 1)).
    + right; right; right. repeat split. lia.
    + left. case_ifs; exact Hst.
  - destruct (Z.eqb_spec (rd triggerType s) 2); [|left; exact Hst].
    right; left. repeat split. assumption.
  - left. case_ifs; exact Hst.
Qed.

Lemma ConvCplt_rest (s : state) :
  ADCstate (HAL_ADC_ConvCpltCallback s) = ADCstate s /\
  usb_tx (HAL_ADC_ConvCpltCallback s) = usb_tx s.
Proof.
  unfold HAL_ADC_ConvCpltCallback, ADCstop. cbv zeta.
  unfold seq_, call, emit. cbn [ADCstate usb_tx wr].
  destruct (ADCstate s); split; reflexivity.
Qed.

(** Only the oscilloscope part of the main loop and the command decoder
    touch the oscilloscope state. *)
Lemma ADCstate_other_events (e : event) (s m : state) :
  step e s = Returned m ->
  match e with MainADC | Packet _ _ => True | _ => ADCstate m = ADCstate s end.
Proof.
  intros Hstep.
  destruct e; cbn [step] in Hstep; try exact I; injection Hstep as <-.
  - apply logic_phase_rest.
  - apply send_phase_rest.
  - apply (IRQHandler_rest isr_awd2 isr_awd1 s).
  - apply (IRQHandler_rest isr_awd2 isr_awd1 s).
  - unfold TIM17_IRQHandler. case_ifs; reflexivity.
  - unfold HAL_TIM_PeriodElapsedCallback. destruct htim; reflexivity.
  - apply PulseFinished_rest.
  - reflexivity.
  - apply ConvCplt_rest.
  - case_ifs; reflexivity.
Qed.

(** X13.  Every way the oscilloscope state can change in one event: the
    main loop moves it from pre-trigger to triggered when the trigger is
    confirmed, from triggered to post-trigger when the shadow counter has
    reached the trigger duration, and from post-trigger back to pre-trigger
    when the buffer has been sent; an acquisition command sets the state its
    trigger mode asks for.  No interrupt handler and no other command
    touches it. *)
Theorem ADCstate_transitions :
  forall (e : event) (s m : state),
    step e s = Returned m ->
    ADCstate m = ADCstate s \/
    (e = MainADC /\
     ((ADCstate s = preTrigger /\ rd triggerType s = 2 /\
       ADCstate m = triggerState) \/
      (ADCstate s = triggerState /\
       rd triggerDuration s <= rd shadowCount s /\
       ADCstate m = postTrigger) \/
      (ADCstate s = postTrigger /\ 29999 < rd adcpos s /\
       ADCstate m = preTrigger))) \/
    (exists env ptr,
        e = Packet env ptr /\ rd BULK_BUFF_RECV s = 0 /\
        RECV_Packet.packet_type ptr = 2 /\
        ADCstate m = armed_state (RECV_Packet.ADC_SET.triggermode ptr)).
Proof.
  intros e s m Hstep.
  pose proof (ADCstate_other_events e s m Hstep) as Ho.
  destruct e; try (left; exact Ho); cbn [step] in Hstep.
  - injection Hstep as <-.
    destruct (adc_phase_ADCstate s) as [H | H]; [left; exact H|].
    right; left. split; [reflexivity | exact H].
  - destruct (GotCDC_ADCstate env ptr s m Hstep) as [H | H];
      [left; exact H|].
    right; right. exists env, ptr. split; [reflexivity | exact H].
Qed.

Definition from_ADC1 (e : event) : bool :=
  match e with IrqADC1 _ _ => true | _ => false end.

Lemma armed_state_cases (triggermode : Z) :
  armed_state triggermode = preTrigger \/
  armed_state triggermode = noTrigger.
Proof.
  unfold armed_state.
  destruct triggermode as [|[p|[p|p|]|]|p]; auto.
Qed.

Lemma waiting_step (e : event) (s m : state) :
  Z.land ADC_ISR_AWD1 1 = 0 ->
  from_ADC1 e = false ->
  step e s = Returned m ->
  rd triggerType s <> 2 /\
  (ADCstate s = preTrigger \/ ADCstate s = noTrigger) ->
  rd triggerType m <> 2 /\
  (ADCstate m = preTrigger \/ ADCstate m = noTrigger).
Proof.
  intros Hmask He Hstep [Ht Hst]. split.
  - destruct (writes e triggerType) eqn:Hw.
    + destruct e; try discriminate Hw; try discriminate He;
        cbn [step] in Hstep; injection Hstep as <-.
      * destruct (adc_phase_triggerType s) as [-> | ->];
          [exact Ht | discriminate].
      * apply ADC2_IRQHandler_not_confirmed; assumption.
    + rewrite (step_footprint e s m triggerType Hstep Hw). exact Ht.
  - pose proof (ADCstate_other_events e s m Hstep) as Ho.
    destruct e; try (rewrite Ho; exact Hst); cbn [step] in Hstep.
    + injection Hstep as <-.
      destruct (adc_phase_ADCstate s)
        as [-> | [(_ & H2 & _) | [(H1 & _) | (H1 & _)]]];
        [exact Hst | contradiction | destruct Hst; congruence
        | destruct Hst; congruence].
    + destruct (GotCDC_ADCstate env ptr s m Hstep) as [-> | (_ & _ & ->)];
        [exact Hst | apply armed_state_cases].
Qed.

(** X14.  An oscilloscope trigger from converter ADC2 never fires.  When bit
    0 is not part of [ADC_ISR_AWD1], an acquisition that waits for its
    trigger stays waiting for as long as no ADC1 interrupt arrives: whatever
    ADC2 interrupts, timer ticks, samples, main-loop passes and commands
    occur, the trigger is not confirmed and the state never becomes
    triggered or post-trigger. *)
Theorem ADC2_trigger_never_fires :
  Z.land ADC_ISR_AWD1 1 = 0 ->
  forall (tr : list event) (s m : state),
    forallb (fun e => negb (from_ADC1 e)) tr = true ->
    rd triggerType s <> 2 ->
    ADCstate s = preTrigger \/ ADCstate s = noTrigger ->
    run tr s = Returned m ->
    rd triggerType m <> 2 /\
    (ADCstate m = preTrigger \/ ADCstate m = noTrigger).
Proof.
  intros Hmask tr. induction tr as [|e tr IH] using rev_ind;
    intros s m Hev Ht Hst Hrun.
  - cbn in Hrun. injection Hrun as <-. split; assumption.
  - rewrite forallb_app in Hev. apply andb_prop in Hev.
    destruct Hev as [Hev He]. cbn [forallb] in He.
    rewrite andb_true_r in He. apply negb_true_iff in He.
    rewrite run_snoc in Hrun.
    destruct (run tr s) as [k|k|] eqn:Hk; cbn [and_then] in Hrun;
      try discriminate Hrun.
    apply (waiting_step e k m Hmask He Hrun).
    apply (IH s k Hev Ht Hst Hk).
Qed.

(** ** Sampling rate and shadow timer *)

Lemma changeADCmode_timers (mode : Z) (s : state) :
  let m := changeADCmode mode s in
  rd_reg TIM17_ARR m + 1 = 5 * (rd_reg TIM8_ARR m + 1) /\
  ((rd_reg TIM8_PSC m = 24 /\ rd_reg TIM17_PSC m = 499) \/
   (1 <= mode <= 11 /\
    rd_reg TIM8_PSC m = rd_reg TIM8_PSC s /\
    rd_reg TIM17_PSC m = rd_reg TIM17_PSC s)).
Proof.
  cbv zeta.
  destruct (Z_le_dec 0 mode) as [L|L]; [destruct (Z_le_dec mode 11) as [U|U]|].
  - assert (H : mode = 0 \/ mode = 1 \/ mode = 2 \/ mode = 3 \/ mode = 4 \/
                mode = 5 \/ mode = 6 \/ mode = 7 \/ mode = 8 \/ mode = 9 \/
                mode = 10 \/ mode = 11) by lia.
    repeat (destruct H as [-> | H]); try subst mode;
      (split; [reflexivity|]);
      first [ left; split; reflexivity
            | right; split; [lia | split; reflexivity] ].
  - rewrite changeADCmode_default by lia.
    split; [reflexivity | left; split; reflexivity].
  - rewrite changeADCmode_default by lia.
    split; [reflexivity | left; split; reflexivity].
Qed.

(** X15.  After an acquisition command the shadow timer TIM17 runs exactly
    100 times slower than the sample timer TIM8, for every mode code,
    provided the two prescalers hold the values [MX_TIM8_Init] and
    [MX_TIM17_Init] give them (24 and 499): modes 1 to 11 write the reload
    registers only and rely on those prescalers, which they leave as they
    are.  The TIM17 interrupt adds 100 to the shadow counter, so the
    counter follows the number of samples. *)
Theorem shadow_timer_follows_sample_timer :
  forall (env : hal_results) (ptr : frame) (s m : state),
    rd BULK_BUFF_RECV s = 0 ->
    RECV_Packet.packet_type ptr = 2 ->
    GotCDC_64B_Packet env ptr s = Returned m ->
    rd_reg TIM8_PSC s = 24 ->
    rd_reg TIM17_PSC s = 499 ->
    rd_reg TIM8_PSC m = 24 /\
    rd_reg TIM17_PSC m = 499 /\
    (rd_reg TIM17_PSC m + 1) * (rd_reg TIM17_ARR m + 1) =
    100 * ((rd_reg TIM8_PSC m + 1) * (rd_reg TIM8_ARR m + 1)).
Proof.
  intros env ptr s m Hb Ht Hm H8 H17.
  rewrite (GotCDC_ADC_SET env ptr s Hb Ht) in Hm. injection Hm as <-.
  rewrite !rd_reg_wr.
  rewrite !(on_ADC_SET_regs ptr (wr pauseTransmit 1 s)) by exact I.
  destruct (changeADCmode_timers (RECV_Packet.ADC_SET.adcmode ptr)
              (wr pauseTransmit 1 s)) as (Hr & Hp).
  rewrite !rd_reg_wr in Hp.
  assert (Hpsc : rd_reg TIM8_PSC
                   (changeADCmode (RECV_Packet.ADC_SET.adcmode ptr)
                      (wr pauseTransmit 1 s)) = 24 /\
                 rd_reg TIM17_PSC
                   (changeADCmode (RECV_Packet.ADC_SET.adcmode ptr)
                      (wr pauseTransmit 1 s)) = 499).
  { destruct Hp as [Hp | (_ & -> & ->)]; [exact Hp | split; assumption]. }
  destruct Hpsc as [-> ->]. rewrite Hr.
  split; [reflexivity|]. split; [reflexivity|]. lia.
Qed.

(** ** Who transmits *)

Lemma send_phase_usb (s : state) :
  usb_tx (send_phase s) = usb_tx s \/
  exists d, usb_tx (send_phase s) = usb_tx s ++ [TxData d].
Proof.
  unfold send_phase, sendData.
  destruct (truthy _); [|left; reflexivity].
  destruct (truthy _); [right; eexists; reflexivity|].
  destruct (truthy _); [right; eexists; reflexivity|].
  destruct (truthy _); [right; eexists; reflexivity|].
  left. reflexivity.
Qed.

Lemma reply_cases (ptr : frame) :
  reply ptr = [] \/ reply ptr = [ack] \/ reply ptr = [TxBytes nopacket].
Proof.
  unfold reply. cbv zeta. case_ifs; auto.
Qed.

(** X16.  Every event hands at most one frame to the USB stack, and frames
    are only ever appended.  Data frames come from the sending part of the
    main loop and from nowhere else; acknowledgements and the diagnostic
    reply come from the command handler and from nowhere else.  Interrupt
    handlers and callbacks never transmit. *)
Theorem one_frame_per_event :
  forall (e : event) (s m : state),
    step e s = Returned m ->
    usb_tx m = usb_tx s \/
    (e = MainSend /\ exists d, usb_tx m = usb_tx s ++ [TxData d]) \/
    ((exists env ptr, e = Packet env ptr) /\
     (usb_tx m = usb_tx s ++ [ack] \/
      usb_tx m = usb_tx s ++ [TxBytes nopacket])).
Proof.
  intros e s m Hstep.
  destruct e; cbn [step] in Hstep; try (injection Hstep as <-).
  - left. apply adc_phase_rest.
  - left. apply logic_phase_rest.
  - destruct (send_phase_usb s) as [H | H]; [left; exact H|].
    right; left. split; [reflexivity | exact H].
  - left. apply (IRQHandler_rest isr_awd2 isr_awd1 s).
  - left. apply (IRQHandler_rest isr_awd2 isr_awd1 s).
  - left. unfold TIM17_IRQHandler. case_ifs; reflexivity.
  - left. unfold HAL_TIM_PeriodElapsedCallback. destruct htim; reflexivity.
  - left. apply PulseFinished_rest.
  - left. reflexivity.
  - left. apply ConvCplt_rest.
  - left. case_ifs; reflexivity.
  - destruct (Z.eq_dec (rd BULK_BUFF_RECV s) 0) as [Hb|Hb].
    + rewrite (GotCDC_reply env ptr s m Hb Hstep).
      destruct (reply_cases ptr) as [-> | [-> | ->]].
      * left. apply app_nil_r.
      * right; right. split; [exists env, ptr; reflexivity | left; reflexivity].
      * right; right. split; [exists env, ptr; reflexivity | right; reflexivity].
    + destruct (bulk_frame_residue env ptr s m Hb Hstep) as (_ & ->).
      destruct (rd BULK_BUFF_RECV m =? 0).
      * right; right. split; [exists env, ptr; reflexivity | left; reflexivity].
      * left. apply app_nil_r.
Qed.

(** ** The first watchdog interrupt *)

Definition from_ADC2 (e : event) : bool :=
  match e with IrqADC2 _ _ => true | _ => false end.

Lemma first_interrupt_invariant (r0 : reg -> Z) (tr : list event) :
  forall s,
    forallb (fun e => negb (from_ADC2 e)) tr = true ->
    (length (filter from_ADC1 tr) <= 1)%nat ->
    run tr (boot r0) = Returned s ->
    rd triggerType s = 0 /\
    (length (filter from_ADC1 tr) = 0%nat -> rd firstTrigger s = 0).
Proof.
  induction tr as [|e tr IH] using rev_ind; intros s H2 H1 Hrun.
  - cbn in Hrun. injection Hrun as <-. split; reflexivity.
  - rewrite forallb_app in H2. apply andb_prop in H2.
    destruct H2 as [H2 He2]. cbn [forallb] in He2.
    rewrite andb_true_r in He2. apply negb_true_iff in He2.
    rewrite filter_app, length_app in H1 |- *. cbn [filter] in H1 |- *.
    rewrite run_snoc in Hrun.
    destruct (run tr (boot r0)) as [k|k|] eqn:Hk; cbn [and_then] in Hrun;
      try discriminate Hrun.
    destruct (from_ADC1 e) eqn:He1; cbn [length] in H1 |- *.
    + destruct (IH k H2 ltac:(lia) eq_refl) as (Ht & Hf).
      specialize (Hf ltac:(lia)).
      destruct e; try discriminate He1. cbn [step] in Hrun.
      injection Hrun as <-. unfold ADC1_IRQHandler.
      rewrite Hf. cbn [Z.eqb]. split; [exact Ht | intros; lia].
    + rewrite Nat.add_0_r in H1 |- *.
      destruct (IH k H2 H1 eq_refl) as (Ht & Hf). split.
      * destruct (writes e triggerType) eqn:Hw.
        -- destruct e; try discriminate Hw; try discriminate He1;
             try discriminate He2; cbn [step] in Hrun.
           injection Hrun as <-.
           destruct (adc_phase_triggerType k) as [-> | ->];
             [exact Ht | reflexivity].
        -- rewrite (step_footprint e k s triggerType Hrun Hw). exact Ht.
      * intros H0.
        assert (Hw : writes e firstTrigger = false)
          by (destruct e; try reflexivity; discriminate He1).
        rewrite (step_footprint e k s firstTrigger Hrun Hw). apply Hf, H0.
Qed.

(** X17.  The first ADC1 watchdog interrupt after start-up is swallowed:
    [firstTrigger] starts at 0, and the handler then only raises it.  A run
    from start-up with at most one ADC1 interrupt and no ADC2 interrupt
    therefore never records a trigger stage, whatever the status register
    showed in that interrupt. *)
Theorem first_ADC1_interrupt_is_swallowed :
  forall (r0 : reg -> Z) (tr : list event) (s : state),
    forallb (fun e => negb (from_ADC2 e)) tr = true ->
    (length (filter from_ADC1 tr) <= 1)%nat ->
    run tr (boot r0) = Returned s ->
    rd triggerType s = 0.
Proof.
  intros r0 tr s H2 H1 Hrun.
  apply (first_interrupt_invariant r0 tr s H2 H1 Hrun).
Qed.

(** ** The main loop *)

(** The cells of a window, one by one. *)
Lemma window_nth (a : garr) (off n : Z) (s : state) (k : nat) :
  (k < Z.to_nat n)%nat ->
  nth k (window a off n s) None = cell a (off + Z.of_nat k) s.
Proof.
  intros Hk. unfold window.
  rewrite (nth_indep _ None (cell a (off + Z.of_nat 0) s))
    by (rewrite length_map, length_seq; exact Hk).
  rewrite (map_nth (fun j => cell a (off + Z.of_nat j) s)
             (seq 0 (Z.to_nat n)) 0%nat k).
  rewrite seq_nth by exact Hk. reflexivity.
Qed.

Lemma cell_in_bounds (a : garr) (i : Z) (s : state) :
  in_bounds a i = true -> cell a i s = Some (rd_arr a i s).
Proof. intros H. unfold cell. rewrite H. reflexivity. Qed.

Lemma logic_pass_frame (s : state) :
  reachable s ->
  Logicstate s = postTrigger ->
  rd pauseTransmit s = 0 ->
  0 <= rd logicpos s < LOGIC_BUFF ->
  let m := main_loop_pass s in
  exists f,
    usb_tx m = usb_tx s ++ [TxData f] /\
    DATA_Packet.logicpos f = rd logicpos s + datalength /\
    DATA_Packet.logic f =
      window Logic_buff (rd logicpos s + datalength) datalength s /\
    rd logicpos m = rd logicpos s + 2 * datalength.
Proof.
  intros Hr Hst Hp Hpos. cbv zeta. unfold main_loop_pass, seq_.
  assert (Hr1 : reachable (adc_phase s))
    by (apply (reachable_step MainADC s); [exact Hr | reflexivity]).
  destruct (adc_phase_rest s) as (Hga & Hl & Htx).
  pose proof (adc_phase_footprint s logicpos eq_refl) as Hlp.
  pose proof (adc_phase_footprint s pauseTransmit eq_refl) as Hpt.
  rewrite <- Hlp in Hpos. rewrite <- Hl in Hst. rewrite <- Hpt in Hp.
  rewrite <- Htx, <- Hlp.
  assert (Hw : forall off,
             window Logic_buff off datalength s =
             window Logic_buff off datalength (adc_phase s))
    by (intros off; unfold window, cell, rd_arr; rewrite Hga; reflexivity).
  rewrite Hw.
  destruct (reachable_ready_flags _ Hr1) as [Hadc _].
  clear Hga Hl Htx Hlp Hpt Hw Hr Hr1.
  generalize dependent (adc_phase s). clear s. intros s Hst Hp Hpos Hadc.
  assert (Hlogic : logic_phase s =
                   wr logicpos (rd logicpos s + datalength)
                     (wr logicsend 1 (wr trigger 0 s))).
  { unfold logic_phase. rewrite Hst. cbv zeta.
    rewrite (rd_wr_other trigger logicpos) by discriminate.
    destruct (Z.geb_spec (rd logicpos s) LOGIC_BUFF); [lia | reflexivity]. }
  rewrite Hlogic.
  set (s2 := wr logicpos (rd logicpos s + datalength)
               (wr logicsend 1 (wr trigger 0 s))).
  assert (H2 : rd pauseTransmit s2 = 0 /\ rd logicsend s2 = 1 /\
               rd adcsend s2 = rd adcsend s /\
               rd logicpos s2 = rd logicpos s + datalength /\
               usb_tx s2 = usb_tx s /\ ga s2 = ga s).
  { assert (Hw16 : wrap 16 (rd logicpos s + datalength) =
                   rd logicpos s + datalength).
    { unfold datalength, LOGIC_BUFF in *.
      apply wrap_small. change (2 ^ 16) with 65536. lia. }
    split; [exact Hp|]. split; [reflexivity|]. split; [reflexivity|].
    split; [exact Hw16|]. split; reflexivity. }
  destruct H2 as (Hp2 & Hl2 & Ha2 & Hpos2 & Htx2 & Hga2).
  clearbody s2.
  assert (Hwin : forall off,
             window Logic_buff off datalength s2 =
             window Logic_buff off datalength s)
    by (intros off; unfold window, cell, rd_arr; rewrite Hga2; reflexivity).
  assert (Hfield : u16 (rd logicpos s2) = rd logicpos s + datalength).
  { rewrite Hpos2. unfold u16, datalength, LOGIC_BUFF in *.
    apply wrap_small. change (2 ^ 16) with 65536. lia. }
  rewrite <- Ha2 in Hadc. destruct Hadc as [Hadc | Hadc].
  - rewrite (send_phase_logic_only s2 Hp2 Hadc Hl2).
    eexists. split.
    + unfold seq_, call, emit, sendData.
      cbn [usb_tx wr CDC_Transmit_FS]. rewrite Htx2. reflexivity.
    + cbn [DATA_Packet.logicpos DATA_Packet.logic].
      rewrite Hfield, Hwin, Hpos2. split; [reflexivity|].
      split; [reflexivity|].
      transitivity (wrap 16 (rd logicpos s + datalength + datalength));
        [reflexivity|].
      unfold datalength, LOGIC_BUFF in *.
      rewrite wrap_small by (change (2 ^ 16) with 65536; lia). lia.
  - rewrite (send_phase_both s2 Hp2 Hadc Hl2).
    eexists. split.
    + unfold seq_, call, emit, sendData.
      cbn [usb_tx wr CDC_Transmit_FS]. rewrite Htx2. reflexivity.
    + cbn [DATA_Packet.logicpos DATA_Packet.logic].
      rewrite Hfield, Hwin, Hpos2. split; [reflexivity|].
      split; [reflexivity|].
      transitivity (wrap 16 (rd logicpos s + datalength + datalength));
        [reflexivity|].
      unfold datalength, LOGIC_BUFF in *.
      rewrite wrap_small by (change (2 ^ 16) with 65536; lia). lia.
Qed.

(** X18.  A main-loop pass that streams logic samples moves the logic
    cursor twice: the logic part of the pass advances it by one window
    before the sender reads it, and the sender advances it again.  The
    frame of the pass therefore carries the window one window-length past
    the cursor the pass started with (its cells inside the buffer are the
    samples stored there), and the window at that cursor is not sent. *)
Theorem logic_pass_skips_a_window :
  forall (s : state),
    reachable s ->
    Logicstate s = postTrigger ->
    rd pauseTransmit s = 0 ->
    0 <= rd logicpos s < LOGIC_BUFF ->
    let m := main_loop_pass s in
    exists f,
      usb_tx m = usb_tx s ++ [TxData f] /\
      DATA_Packet.logicpos f = rd logicpos s + datalength /\
      DATA_Packet.logic f =
        window Logic_buff (rd logicpos s + datalength) datalength s /\
      (forall k,
          0 <= k < datalength ->
          rd logicpos s + datalength + k < LOGIC_BUFF ->
          nth (Z.to_nat k) (DATA_Packet.logic f) None =
          Some (rd_arr Logic_buff (rd logicpos s + datalength + k) s)) /\
      rd logicpos m = rd logicpos s + 2 * datalength.
Proof.
  intros s Hr Hst Hp Hpos.
  destruct (logic_pass_frame s Hr Hst Hp Hpos) as (f & H1 & H2 & H3 & H4).
  cbv zeta. exists f.
  split; [exact H1|]. split; [exact H2|]. split; [exact H3|].
  split; [|exact H4].
  intros k Hk Hin. rewrite H3. unfold datalength in *.
  rewrite window_nth by (change (Z.to_nat 8) with 8%nat; lia).
  rewrite Z2Nat.id by lia.
  apply cell_in_bounds. unfold in_bounds. cbn [arr_len].
  apply andb_true_iff. split; [apply Z.leb_le | apply Z.ltb_lt]; lia.
Qed.

(** X19.  No event writes [triggerDuration]: the number of shadow counts
    the oscilloscope keeps sampling after a confirmed trigger is the
    initial 100 in every reachable state, and no command changes it. *)
Theorem triggerDuration_is_fixed :
  forall (s : state), reachable s -> rd triggerDuration s = 100.
Proof.
  apply reachable_ind.
  - intros r0. reflexivity.
  - intros e s m _ IH Hstep.
    assert (Hw : writes e triggerDuration = false)
      by (destruct e; reflexivity).
    rewrite (step_footprint e s m triggerDuration Hstep Hw). exact IH.
Qed.

(** X20.  When the ADC1 handler confirms a trigger.  Starting from an
    unconfirmed flag, the handler sets [triggerType] to 2 exactly when it is
    not skipping its first interrupt ([firstTrigger] is not 0), the status
    register shows the AWD1 flag, and the first stage is on record or shown
    by the AWD2 flag in this same interrupt.  When it confirms it clears
    [firstTrigger] and disables the ADC1 interrupt line. *)
Theorem ADC1_confirms_iff :
  forall (isr_awd2 isr_awd1 : Z) (s : state),
    rd triggerType s <> 2 ->
    let m := ADC1_IRQHandler isr_awd2 isr_awd1 s in
    (rd triggerType m = 2 <->
     rd firstTrigger s <> 0 /\
     Z.land isr_awd1 ADC_ISR_AWD1 <> 0 /\
     (rd triggerType s = 1 \/ Z.land isr_awd2 ADC_ISR_AWD2 <> 0)) /\
    (rd triggerType m = 2 ->
     rd firstTrigger m = 0 /\
     hw m = hw s ++ [Call HAL_GPIO_TogglePin [Sym GPIOD; Pin 5];
                     Call HAL_NVIC_DisableIRQ [Sym ADC1_IRQn];
                     Call HAL_ADC_IRQHandler [Sym hadc1]]).
Proof.
  intros i2 i1 s Hs. cbv zeta. unfold ADC1_IRQHandler.
  destruct (Z.eqb_spec (rd firstTrigger s) 0) as [F|F].
  - split; [split|]; intros H.
    + change (rd triggerType s = 2) in H. contradiction.
    + destruct H as (H & _). contradiction.
    + change (rd triggerType s = 2) in H. contradiction.
  - destruct (truthy (Z.land i1 ADC_ISR_AWD1)) eqn:H1.
    + apply truthy_true in H1.
      destruct (truthy (Z.land i2 ADC_ISR_AWD2)) eqn:H2.
      * apply truthy_true in H2.
        rewrite (rd_wr_same triggerType). cbn [width].
        change (wrap 8 1 =? 1) with true. cbv iota.
        split; [split|]; intros _.
        -- repeat split; auto.
        -- reflexivity.
        -- unfold seq_, call, emit. cbn [hw wr].
           rewrite <- !app_assoc. split; reflexivity.
      * apply truthy_false in H2.
        destruct (Z.eqb_spec (rd triggerType s) 1) as [T|T].
        -- split; [split|]; intros _.
           ++ repeat split; auto.
           ++ reflexivity.
           ++ unfold seq_, call, emit. cbn [hw wr].
              rewrite <- !app_assoc. split; reflexivity.
        -- split; [split|]; intros H.
           ++ change (rd triggerType s = 2) in H. contradiction.
           ++ destruct H as (_ & _ & [H | H]); contradiction.
           ++ change (rd triggerType s = 2) in H. contradiction.
    + apply truthy_false in H1.
      destruct (truthy (Z.land i2 ADC_ISR_AWD2)).
      * split; [split|]; intros H.
        -- discriminate H.
        -- destruct H as (_ & H & _). contradiction.
        -- discriminate H.
      * split; [split|]; intros H.
        -- change (rd triggerType s = 2) in H. contradiction.
        -- destruct H as (_ & H & _). contradiction.
        -- change (rd triggerType s = 2) in H. contradiction.
Qed.

End More.

(** * Concrete runs on the STM32H563 *)

#[local] Existing Instance stm32h563.

Definition zero_regs : reg -> Z := fun _ => 0.
Definition boot0 : state := boot zero_regs.

(** The state a run ends in ([boot0] if it does not return). *)
Definition result (o : outcome) : state :=
  match o with
  | Returned s => s
  | _ => boot0
  end.

(** A frame given by its first bytes, zero-padded to 64. *)
Definition pad (l : list Z) : frame := l ++ repeat 0 (64 - length l).

(** Handshake frames: the right magic "INIT", and a wrong one. *)
Definition handshake_INIT : frame := pad [0; 73; 78; 73; 84].
Definition handshake_XNIT : frame := pad [0; 88; 78; 73; 84].

(** Acquisition command, channel 0, mode 0, rising-edge trigger at level
    2048; the same command with mode code 200. *)
Definition adc_rising : frame := pad [2; 0; 0; 1; 0; 8; 0; 1; 0; 0; 0; 0; 1].
Definition adc_rising_mode200 : frame :=
  pad [2; 0; 200; 1; 0; 8; 0; 1; 0; 0; 0; 0; 1].

(** Waveform commands: channel 0 with period 1000, 32 samples, phase 250;
    channel 1 with period 400, 32768 samples, phase 100. *)
Definition awg_ch0 : frame :=
  pad [1; 0; 1; 0; 0; 232; 3; 0; 8; 32; 0; 250; 0].
Definition awg_ch1 : frame :=
  pad [1; 1; 1; 0; 0; 144; 1; 0; 8; 0; 128; 100; 0].

(** One frame of table data. *)
Definition table_data : frame := repeat 7 64.

(** An unknown tag. *)
Definition unknown_tag : frame := pad [9].

Example awg_ch0_fields :
  RECV_Packet.AWG_SET.ARR awg_ch0 = 1000 /\
  RECV_Packet.AWG_SET.numSamples awg_ch0 = 32 /\
  RECV_Packet.AWG_SET.phaseARR awg_ch0 = 250.
Proof. repeat split. Qed.

Example unknown_tag_reply :
  sent (GotCDC_64B_Packet hal_ok unknown_tag boot0) = [TxBytes nopacket] /\
  rd pauseTransmit (result (GotCDC_64B_Packet hal_ok unknown_tag boot0)) = 0.
Proof. vm_compute. split; reflexivity. Qed.

(** ** C1: a confirmed trigger on channel 0 *)





(** ** C2: a handshake with a wrong magic string gets no reply at all *)

Lemma unmatched_handshake_gets_no_ack :
  RECV_Packet.packet_type handshake_XNIT = 0 /\
  GotCDC_64B_Packet hal_ok handshake_XNIT boot0 =
    Returned (result (GotCDC_64B_Packet hal_ok handshake_XNIT boot0)) /\
  usb_tx (result (GotCDC_64B_Packet hal_ok handshake_XNIT boot0)) = [] /\
  usb_tx (result (GotCDC_64B_Packet hal_ok handshake_XNIT boot0)) <>
    usb_tx boot0 ++ [ack].
Proof.
  vm_compute. repeat split; try reflexivity. intros H; discriminate H.
Qed.

Lemma command_reply_frames_witness :
  rd BULK_BUFF_RECV boot0 = 0 /\
  GotCDC_64B_Packet hal_ok adc_rising boot0 =
    Returned (result (GotCDC_64B_Packet hal_ok adc_rising boot0)) /\
  (let m := result (GotCDC_64B_Packet hal_ok adc_rising boot0) in
   let t := RECV_Packet.packet_type adc_rising in
   let magic := RECV_Packet.HandShake.handshake_string adc_rising in
   (t = 1 \/ t = 2 \/ t = 3 -> usb_tx m = usb_tx boot0 ++ [ack]) /\
   (t = 0 -> magic = HS_STRING -> usb_tx m = usb_tx boot0 ++ [ack]) /\
   (t = 0 -> magic <> HS_STRING -> usb_tx m = usb_tx boot0) /\
   (t <> 0 -> t <> 1 -> t <> 2 -> t <> 3 ->
    usb_tx m = usb_tx boot0 ++ [TxBytes nopacket])).
Proof.
  assert (H1 : rd BULK_BUFF_RECV boot0 = 0) by reflexivity.
  assert (H2 : GotCDC_64B_Packet hal_ok adc_rising boot0 =
               Returned (result (GotCDC_64B_Packet hal_ok adc_rising boot0)))
    by (vm_compute; reflexivity).
  exact (conj H1 (conj H2
           (command_reply_frames hal_ok adc_rising boot0 _ H1 H2))).
Defined.

(** ** C3 *)

Lemma pauseTransmit_raised_then_cleared_witness :
  GotCDC_64B_Packet hal_ok unknown_tag boot0 =
    Returned (result (GotCDC_64B_Packet hal_ok unknown_tag boot0)) /\
  rd pauseTransmit (wr pauseTransmit 1 boot0) = 1 /\
  (exists k, dispatch hal_ok unknown_tag (wr pauseTransmit 1 boot0) =
             Returned k /\
             rd pauseTransmit k = 1 /\
             result (GotCDC_64B_Packet hal_ok unknown_tag boot0) =
             wr pauseTransmit 0 k) /\
  rd pauseTransmit (result (GotCDC_64B_Packet hal_ok unknown_tag boot0)) = 0.
Proof.
  assert (H : GotCDC_64B_Packet hal_ok unknown_tag boot0 =
              Returned (result (GotCDC_64B_Packet hal_ok unknown_tag boot0)))
    by (vm_compute; reflexivity).
  exact (conj H
           (pauseTransmit_raised_then_cleared hal_ok unknown_tag boot0 _ H)).
Defined.

(** ** C6 *)

Lemma handshake_ack_iff_magic_witness :
  rd BULK_BUFF_RECV boot0 = 0 /\
  RECV_Packet.packet_type handshake_INIT = 0 /\
  exists m,
    GotCDC_64B_Packet hal_ok handshake_INIT boot0 = Returned m /\
    (usb_tx m = usb_tx boot0 ++ [ack] <->
     RECV_Packet.HandShake.handshake_string handshake_INIT = HS_STRING) /\
    (RECV_Packet.HandShake.handshake_string handshake_INIT <> HS_STRING ->
     usb_tx m = usb_tx boot0).
Proof.
  assert (H1 : rd BULK_BUFF_RECV boot0 = 0) by reflexivity.
  assert (H2 : RECV_Packet.packet_type handshake_INIT = 0) by reflexivity.
  exact (conj H1 (conj H2
           (handshake_ack_iff_magic hal_ok handshake_INIT boot0 H1 H2))).
Defined.

(** ** C8 *)

Lemma adcmode_out_of_range_falls_back_to_mode_0_witness :
  rd BULK_BUFF_RECV boot0 = 0 /\
  RECV_Packet.packet_type adc_rising_mode200 = 2 /\
  ~ (0 <= RECV_Packet.ADC_SET.adcmode adc_rising_mode200 <= 11) /\
  (forall i, i <> 2%nat ->
             byte_at adc_rising i = byte_at adc_rising_mode200 i) /\
  RECV_Packet.ADC_SET.adcmode adc_rising = 0 /\
  changeADCmode (RECV_Packet.ADC_SET.adcmode adc_rising_mode200) =
    (wr_reg TIM8_PSC 24 ;; wr_reg TIM8_ARR 1 ;;
     wr_reg TIM17_PSC 499 ;; wr_reg TIM17_ARR 9 ;;
     SetSamplingTime LL_ADC_SAMPLINGTIME_2CYCLES_5) /\
  exists m,
    GotCDC_64B_Packet hal_ok adc_rising_mode200 boot0 = Returned m /\
    GotCDC_64B_Packet hal_ok adc_rising boot0 = Returned m /\
    usb_tx m = usb_tx boot0 ++ [ack] /\
    rd_reg TIM8_PSC m = 24 /\ rd_reg TIM8_ARR m = 1 /\
    rd_reg TIM17_PSC m = 499 /\ rd_reg TIM17_ARR m = 9.
Proof.
  assert (H1 : rd BULK_BUFF_RECV boot0 = 0) by reflexivity.
  assert (H2 : RECV_Packet.packet_type adc_rising_mode200 = 2)
    by reflexivity.
  assert (H3 : ~ (0 <= RECV_Packet.ADC_SET.adcmode adc_rising_mode200 <= 11))
    by (vm_compute; intros [_ H]; apply H; reflexivity).
  assert (H4 : forall i, i <> 2%nat ->
                         byte_at adc_rising i = byte_at adc_rising_mode200 i).
  { intros i Hi.
    do 3 (destruct i as [|i]; [first [reflexivity | contradiction Hi;
                                      reflexivity]|]).
    reflexivity. }
  assert (H5 : RECV_Packet.ADC_SET.adcmode adc_rising = 0) by reflexivity.
  destruct (adcmode_out_of_range_falls_back_to_mode_0 hal_ok
              adc_rising_mode200 adc_rising boot0 H1 H2 H3 H4 H5)
    as [Ha Hb].
  exact (conj H1 (conj H2 (conj H3 (conj H4 (conj H5 (conj Ha Hb)))))).
Defined.

(** ** C9 *)

(** Armed for a rising edge on pin 0, previous sample low. *)
Definition logic_armed : state := wr trigPin 1 (wr trigEdge 1 boot0).

Lemma rising_edge_starts_post_trigger_countdown_witness :
  Logicstate logic_armed = preTrigger /\
  rd trigEdge logic_armed = 1 /\
  Z.land (rd pastValue logic_armed) (rd trigPin logic_armed) = 0 /\
  Z.land (u16 5) (rd trigPin logic_armed) <> 0 /\
  (let s' := HAL_TIM_PWM_PulseFinishedCallback HAL_TIM_ACTIVE_CHANNEL_1
               5 logic_armed in
   Logicstate s' = triggerState /\
   hw s' = hw logic_armed ++ [Call HAL_TIM_Base_Start_IT [Sym htim16]]).
Proof.
  assert (H1 : Logicstate logic_armed = preTrigger) by reflexivity.
  assert (H2 : rd trigEdge logic_armed = 1) by reflexivity.
  assert (H3 : Z.land (rd pastValue logic_armed) (rd trigPin logic_armed)
               = 0) by reflexivity.
  assert (H4 : Z.land (u16 5) (rd trigPin logic_armed) <> 0)
    by (vm_compute; intros H; discriminate H).
  exact (conj H1 (conj H2 (conj H3 (conj H4
           (rising_edge_starts_post_trigger_countdown 5 logic_armed
              H1 H2 H3 H4))))).
Defined.

(** ** Free run, oscilloscope data ready, logic analyser idle *)

Definition tr_osc_ready : list event := [IrqTIM17; MainADC].
Definition osc_ready : state := result (run tr_osc_ready boot0).

Lemma osc_ready_reachable : reachable osc_ready.
Proof. exists zero_regs, tr_osc_ready. vm_compute. reflexivity. Qed.

Example osc_only_frame_uses_sentinel :
  usb_tx (send_phase osc_ready) =
    [TxData (DATA_Packet.mk 5 0 40000
               (repeat (Some 0) 8) (repeat (Some 0) 8) (repeat None 8))] /\
  rd adcpos (send_phase osc_ready) = 8 /\
  rd logicpos (send_phase osc_ready) = 0.
Proof. vm_compute. repeat split. Qed.

(** ** C5: two waveform commands with the table data of the first between
    them *)

Definition after_awg_ch0 : state :=
  result (GotCDC_64B_Packet hal_ok awg_ch0 boot0).
Definition tr_table : list event :=
  [Packet hal_ok table_data; IrqTIM17; MainADC; MainLogic; MainSend].
Definition after_table : state := result (run tr_table after_awg_ch0).
Definition after_awg_ch1 : state :=
  result (GotCDC_64B_Packet hal_ok awg_ch1 after_table).

Lemma table_run_is_quiet : runs_between after_awg_ch0 tr_table after_table.
Proof.
  unfold tr_table.
  eapply rb_cons; [vm_compute; reflexivity | vm_compute; reflexivity |].
  eapply rb_cons; [reflexivity | reflexivity |].
  eapply rb_cons; [reflexivity | reflexivity |].
  eapply rb_cons; [reflexivity | reflexivity |].
  eapply rb_cons; [reflexivity | reflexivity |].
  match goal with
  | |- runs_between ?a [] ?b => change b with a
  end.
  apply rb_nil.
Qed.

Lemma generator_counters_after_two_commands_witness :
  rd BULK_BUFF_RECV boot0 = 0 /\
  RECV_Packet.packet_type awg_ch0 = 1 /\
  RECV_Packet.AWG_SET.channel awg_ch0 = 0 /\
  GotCDC_64B_Packet hal_ok awg_ch0 boot0 = Returned after_awg_ch0 /\
  runs_between after_awg_ch0 tr_table after_table /\
  rd BULK_BUFF_RECV after_table = 0 /\
  RECV_Packet.packet_type awg_ch1 = 1 /\
  RECV_Packet.AWG_SET.channel awg_ch1 = 1 /\
  GotCDC_64B_Packet hal_ok awg_ch1 after_table = Returned after_awg_ch1 /\
  (let phi0 := RECV_Packet.AWG_SET.phaseARR awg_ch0 in
   let phi1 := RECV_Packet.AWG_SET.phaseARR awg_ch1 in
   let ARR0 := RECV_Packet.AWG_SET.ARR awg_ch0 in
   let ARR1 := RECV_Packet.AWG_SET.ARR awg_ch1 in
   rd_arr phaseARR 0 after_awg_ch1 = phi0 /\
   rd_arr phaseARR 1 after_awg_ch1 = phi1 /\
   rd_arr ARR_hold 0 after_awg_ch1 = ARR0 /\
   rd_arr ARR_hold 1 after_awg_ch1 = ARR1 /\
   rd_reg TIM6_CNT after_awg_ch1 = u32 (phi0 - ARR1) /\
   rd_reg TIM7_CNT after_awg_ch1 = u32 (phi1 - ARR0) /\
   u16 (rd_reg TIM6_CNT after_awg_ch1) = u16 (phi0 - ARR1) /\
   u16 (rd_reg TIM7_CNT after_awg_ch1) = u16 (phi1 - ARR0)).
Proof.
  assert (H1 : rd BULK_BUFF_RECV boot0 = 0) by reflexivity.
  assert (H2 : RECV_Packet.packet_type awg_ch0 = 1) by reflexivity.
  assert (H3 : RECV_Packet.AWG_SET.channel awg_ch0 = 0) by reflexivity.
  assert (H4 : GotCDC_64B_Packet hal_ok awg_ch0 boot0 =
               Returned after_awg_ch0) by (vm_compute; reflexivity).
  assert (H6 : rd BULK_BUFF_RECV after_table = 0)
    by (vm_compute; reflexivity).
  assert (H7 : RECV_Packet.packet_type awg_ch1 = 1) by reflexivity.
  assert (H8 : RECV_Packet.AWG_SET.channel awg_ch1 = 1) by reflexivity.
  assert (H9 : GotCDC_64B_Packet hal_ok awg_ch1 after_table =
               Returned after_awg_ch1) by (vm_compute; reflexivity).
  exact (conj H1 (conj H2 (conj H3 (conj H4 (conj table_run_is_quiet
          (conj H6 (conj H7 (conj H8 (conj H9
            (generator_counters_after_two_commands hal_ok hal_ok
               awg_ch0 awg_ch1 tr_table boot0 after_awg_ch0 after_table
               after_awg_ch1 H1 H2 H3 H4 table_run_is_quiet
               H6 H7 H8 H9)))))))))).
Defined.

Example generator_counters_values :
  rd_reg TIM6_CNT after_awg_ch1 = 4294967146 /\
  rd_reg TIM7_CNT after_awg_ch1 = 4294966396 /\
  u16 (rd_reg TIM6_CNT after_awg_ch1) = 65386 /\
  u16 (rd_reg TIM7_CNT after_awg_ch1) = 64636.
Proof. vm_compute. repeat split. Qed.

(** ** C7: the cursor is zeroed when a trigger is confirmed *)

Definition tr_armed : list event :=
  [IrqTIM17; MainADC; Packet hal_ok adc_rising; MainSend;
   IrqADC1 0 0; IrqADC1 256 128].
Definition armed : state := result (run tr_armed boot0).

Lemma armed_reachable : reachable armed.
Proof. exists zero_regs, tr_armed. vm_compute. reflexivity. Qed.

Lemma adcpos_reset_on_confirmed_trigger :
  run tr_armed boot0 = Returned armed /\
  ADCstate armed = preTrigger /\
  rd adcpos armed = 8 /\
  step MainADC armed = Returned (adc_phase armed) /\
  ADCstate (adc_phase armed) = triggerState /\
  rd adcpos (adc_phase armed) = 0.
Proof. vm_compute. repeat split. Qed.

Lemma adcpos_reset_points_witness :
  reachable armed /\
  step MainADC armed = Returned (adc_phase armed) /\
  rd adcpos armed <> 0 /\
  rd adcpos (adc_phase armed) = 0 /\
  ((MainADC = MainADC /\
    ((ADCstate armed = noTrigger /\ 29999 < rd adcpos armed /\
      ADCstate (adc_phase armed) = noTrigger) \/
     (ADCstate armed = preTrigger /\ rd triggerType armed = 2 /\
      ADCstate (adc_phase armed) = triggerState) \/
     (ADCstate armed = postTrigger /\ 29999 < rd adcpos armed /\
      ADCstate (adc_phase armed) = preTrigger))) \/
   (exists env ptr,
       MainADC = Packet env ptr /\ rd BULK_BUFF_RECV armed = 0 /\
       RECV_Packet.packet_type ptr = 2)).
Proof.
  assert (H2 : step MainADC armed = Returned (adc_phase armed))
    by reflexivity.
  assert (H3 : rd adcpos armed <> 0)
    by (vm_compute; intros H; discriminate H).
  assert (H4 : rd adcpos (adc_phase armed) = 0) by (vm_compute; reflexivity).
  exact (conj armed_reachable (conj H2 (conj H3 (conj H4
           (adcpos_reset_points MainADC armed (adc_phase armed)
              armed_reachable H2 H3 H4))))).
Defined.

(** * Further properties: concrete runs *)

(** The state a run stops in when it ends in [Error_Handler]. *)
Definition halted_in (o : outcome) : state :=
  match o with
  | Halted s => s
  | _ => boot0
  end.

(** ** X1: a 32-sample table for channel 0, one frame of data *)


Example uploaded_table_bytes :
  rd_arr awg_lut 0 after_table = 7 /\
  rd_arr awg_lut 63 after_table = 7 /\
  rd_arr awg_lut 64 after_table = 0.
Proof. vm_compute. repeat split. Qed.

(** ** X2: 33 samples, then a handshake and an acquisition command *)

Definition awg_33 : frame :=
  pad [1; 0; 1; 0; 0; 232; 3; 0; 8; 33; 0; 250; 0].
Definition after_awg_33 : state :=
  result (GotCDC_64B_Packet hal_ok awg_33 boot0).
Definition swallowed : list frame := [handshake_INIT; adc_rising].
Definition after_swallowed : state :=
  result (run (table_frames hal_ok swallowed) after_awg_33).

Lemma odd_sample_count_blocks_decoder_witness :
  rd BULK_BUFF_RECV boot0 = 0 /\
  RECV_Packet.packet_type awg_33 = 1 /\
  GotCDC_64B_Packet hal_ok awg_33 boot0 = Returned after_awg_33 /\
  32 <= RECV_Packet.AWG_SET.numSamples awg_33 /\
  RECV_Packet.AWG_SET.numSamples awg_33 mod 32 <> 0 /\
  run (table_frames hal_ok swallowed) after_awg_33 =
    Returned after_swallowed /\
  rd BULK_BUFF_RECV after_swallowed <> 0 /\
  usb_tx after_swallowed = usb_tx after_awg_33.
Proof.
  assert (H1 : rd BULK_BUFF_RECV boot0 = 0) by reflexivity.
  assert (H2 : RECV_Packet.packet_type awg_33 = 1) by reflexivity.
  assert (H3 : GotCDC_64B_Packet hal_ok awg_33 boot0 =
               Returned after_awg_33) by (vm_compute; reflexivity).
  assert (H4 : 32 <= RECV_Packet.AWG_SET.numSamples awg_33)
    by (vm_compute; intros H; discriminate H).
  assert (H5 : RECV_Packet.AWG_SET.numSamples awg_33 mod 32 <> 0)
    by (vm_compute; intros H; discriminate H).
  assert (H6 : run (table_frames hal_ok swallowed) after_awg_33 =
               Returned after_swallowed) by (vm_compute; reflexivity).
  exact (conj H1 (conj H2 (conj H3 (conj H4 (conj H5 (conj H6
           (odd_sample_count_blocks_decoder hal_ok hal_ok awg_33 swallowed
              boot0 after_awg_33 after_swallowed
              H1 H2 H3 H4 H5 H6))))))).
Defined.

Example swallowed_frames_get_no_reply :
  usb_tx after_swallowed = [ack] /\
  rd BULK_BUFF_RECV after_swallowed = 65474 /\
  ADCstate after_swallowed = noTrigger.
Proof. vm_compute. repeat split. Qed.

(** ** X3: 4128 samples for channel 1, whose row ends the table *)



(** ** X4: a logic-analyser start whose TIM16 initialisation fails *)

Definition hal_tim16_fails : hal_results :=
  Build_hal_results false true true true true.

(** Start command: trigger pin field 257, rising edge, [period16] 65535,
    prescaler 1, [period32] 36000. *)
Definition logic_start : frame :=
  pad [3; 1; 1; 1; 1; 0; 255; 255; 1; 0; 160; 140; 0; 0].

Definition stuck : state :=
  halted_in (GotCDC_64B_Packet hal_tim16_fails logic_start boot0).

Lemma decoder_halts_in_Error_Handler_witness :
  GotCDC_64B_Packet hal_tim16_fails logic_start boot0 = Halted stuck /\
  rd BULK_BUFF_RECV boot0 = 0 /\
  RECV_Packet.packet_type logic_start = 3 /\
  RECV_Packet.LOGIC_SET.control logic_start = 1 /\
  hal_tim16_fails <> hal_ok /\
  rd pauseTransmit stuck = 1 /\
  usb_tx stuck = usb_tx boot0 ++ [ack].
Proof.
  assert (H1 : GotCDC_64B_Packet hal_tim16_fails logic_start boot0 =
               Halted stuck) by (vm_compute; reflexivity).
  exact (conj H1
           (decoder_halts_in_Error_Handler hal_tim16_fails logic_start
              boot0 stuck H1)).
Defined.

(** ** X6: the waveform command for channel 0 *)

Lemma decoder_returns_witness :
  (rd BULK_BUFF_RECV boot0 = 0 -> RECV_Packet.packet_type awg_ch0 = 1 ->
   0 <= RECV_Packet.AWG_SET.channel awg_ch0 < AWG_NUM_CHAN) /\
  (rd BULK_BUFF_RECV boot0 = 0 -> RECV_Packet.packet_type awg_ch0 = 3 ->
   RECV_Packet.LOGIC_SET.control awg_ch0 = 1 -> hal_ok = hal_ok) /\
  (rd BULK_BUFF_RECV boot0 <> 0 ->
   0 <= rd BULK_BUFF boot0 /\ rd BULK_BUFF boot0 + 63 < arr_len awg_lut) /\
  exists m,
    GotCDC_64B_Packet hal_ok awg_ch0 boot0 = Returned m /\
    rd pauseTransmit m = 0.
Proof.
  assert (H1 : rd BULK_BUFF_RECV boot0 = 0 ->
               RECV_Packet.packet_type awg_ch0 = 1 ->
               0 <= RECV_Packet.AWG_SET.channel awg_ch0 < AWG_NUM_CHAN).
  { intros _ _. vm_compute. split; [intros H; discriminate H | reflexivity]. }
  assert (H2 : rd BULK_BUFF_RECV boot0 = 0 ->
               RECV_Packet.packet_type awg_ch0 = 3 ->
               RECV_Packet.LOGIC_SET.control awg_ch0 = 1 -> hal_ok = hal_ok)
    by (intros _ _ _; reflexivity).
  assert (H3 : rd BULK_BUFF_RECV boot0 <> 0 ->
               0 <= rd BULK_BUFF boot0 /\
               rd BULK_BUFF boot0 + 63 < arr_len awg_lut).
  { intros _. vm_compute. split; [intros H; discriminate H | reflexivity]. }
  exact (conj H1 (conj H2 (conj H3
           (decoder_returns hal_ok awg_ch0 boot0 H1 H2 H3)))).
Defined.

(** ** X7: the start command, handled with every initialisation
    succeeding *)

Definition logic_started : state :=
  result (GotCDC_64B_Packet hal_ok logic_start boot0).

Lemma logic_command_effect_witness :
  rd BULK_BUFF_RECV boot0 = 0 /\
  RECV_Packet.packet_type logic_start = 3 /\
  GotCDC_64B_Packet hal_ok logic_start boot0 = Returned logic_started /\
  rd trigPin logic_started =
    RECV_Packet.LOGIC_SET.triggerpin logic_start mod 256 /\
  rd trigEdge logic_started =
    RECV_Packet.LOGIC_SET.triggeredge logic_start mod 256 /\
  rd period16 logic_started = RECV_Packet.LOGIC_SET.period16 logic_start /\
  rd prescaler16 logic_started =
    RECV_Packet.LOGIC_SET.prescaler logic_start /\
  rd period32 logic_started = RECV_Packet.LOGIC_SET.period32 logic_start /\
  Logicstate logic_started = preTrigger /\
  (RECV_Packet.LOGIC_SET.control logic_start = 1 ->
   forall i, in_bounds Logic_buff i = true ->
             rd_arr Logic_buff i logic_started = 0) /\
  (RECV_Packet.LOGIC_SET.control logic_start <> 1 ->
   forall i, rd_arr Logic_buff i logic_started = rd_arr Logic_buff i boot0).
Proof.
  assert (H1 : rd BULK_BUFF_RECV boot0 = 0) by reflexivity.
  assert (H2 : RECV_Packet.packet_type logic_start = 3) by reflexivity.
  assert (H3 : GotCDC_64B_Packet hal_ok logic_start boot0 =
               Returned logic_started) by (vm_compute; reflexivity).
  exact (conj H1 (conj H2 (conj H3
           (logic_command_effect hal_ok logic_start boot0 logic_started
              H1 H2 H3)))).
Defined.

Example trigger_pin_field_is_truncated :
  RECV_Packet.LOGIC_SET.triggerpin logic_start = 257 /\
  rd trigPin logic_started = 1.
Proof. vm_compute. split; reflexivity. Qed.

(** ** X9, X11, X19: free run with oscilloscope data ready *)

Lemma shadowCount_saturates_witness :
  reachable osc_ready /\
  0 <= rd shadowCount osc_ready <= 30000 /\
  rd shadowCount osc_ready mod 100 = 0.
Proof.
  exact (conj osc_ready_reachable
           (shadowCount_saturates osc_ready osc_ready_reachable)).
Defined.

Lemma pending_adc_window_in_buffer_witness :
  reachable osc_ready /\
  rd adcsend osc_ready = 1 /\
  0 <= 7 < datalength /\
  rd adcpos osc_ready mod datalength = 0 /\
  in_bounds adc_buff (rd adcpos osc_ready + 7) = true /\
  in_bounds adc_buff1 (rd adcpos osc_ready + 7) = true.
Proof.
  assert (H2 : rd adcsend osc_ready = 1) by (vm_compute; reflexivity).
  assert (H3 : 0 <= 7 < datalength)
    by (vm_compute; split; [intros H; discriminate H | reflexivity]).
  exact (conj osc_ready_reachable (conj H2 (conj H3
           (pending_adc_window_in_buffer osc_ready 7
              osc_ready_reachable H2 H3)))).
Defined.

Lemma triggerDuration_is_fixed_witness :
  reachable armed /\ rd triggerDuration armed = 100.
Proof.
  exact (conj armed_reachable (triggerDuration_is_fixed armed armed_reachable)).
Defined.

(** ** X10, X18: a logic capture that has triggered and run to its end *)

Definition tr_captured : list event :=
  [Packet hal_ok logic_start;
   PulseFinished HAL_TIM_ACTIVE_CHANNEL_1 0;
   PulseFinished HAL_TIM_ACTIVE_CHANNEL_1 1;
   PulseFinished HAL_TIM_ACTIVE_CHANNEL_1 3;
   PeriodElapsed htim16].
Definition captured : state := result (run tr_captured boot0).

Lemma captured_reachable : reachable captured.
Proof. exists zero_regs, tr_captured. vm_compute. reflexivity. Qed.

Lemma logicWritePointer_in_buffer_witness :
  reachable captured /\
  in_bounds Logic_buff (rd logicWritePointer captured) = true.
Proof.
  exact (conj captured_reachable
           (logicWritePointer_in_buffer captured captured_reachable)).
Defined.

Lemma logic_pass_skips_a_window_witness :
  reachable captured /\
  Logicstate captured = postTrigger /\
  rd pauseTransmit captured = 0 /\
  0 <= rd logicpos captured < LOGIC_BUFF /\
  (let m := main_loop_pass captured in
   exists f,
     usb_tx m = usb_tx captured ++ [TxData f] /\
     DATA_Packet.logicpos f = rd logicpos captured + datalength /\
     DATA_Packet.logic f =
       window Logic_buff (rd logicpos captured + datalength) datalength
         captured /\
     (forall k,
         0 <= k < datalength ->
         rd logicpos captured + datalength + k < LOGIC_BUFF ->
         nth (Z.to_nat k) (DATA_Packet.logic f) None =
         Some (rd_arr Logic_buff (rd logicpos captured + datalength + k)
                 captured)) /\
     rd logicpos m = rd logicpos captured + 2 * datalength).
Proof.
  assert (H2 : Logicstate captured = postTrigger)
    by (vm_compute; reflexivity).
  assert (H3 : rd pauseTransmit captured = 0) by (vm_compute; reflexivity).
  assert (H4 : 0 <= rd logicpos captured < LOGIC_BUFF)
    by (vm_compute; split; [intros H; discriminate H | reflexivity]).
  exact (conj captured_reachable (conj H2 (conj H3 (conj H4
           (logic_pass_skips_a_window captured captured_reachable
              H2 H3 H4))))).
Defined.

Example first_logic_frame_starts_at_8 :
  Logicstate (result (run (firstn 3 tr_captured) boot0)) = triggerState /\
  map (fun i => rd_arr Logic_buff i captured) [0; 1; 2] = [0; 1; 3] /\
  usb_tx (main_loop_pass captured) =
    [ack; TxData (DATA_Packet.mk 5 40000 8
                    (repeat None 8) (repeat None 8) (repeat (Some 0) 8))] /\
  rd logicpos (main_loop_pass captured) = 16.
Proof. vm_compute. repeat split. Qed.

(** ** X12, X14: a rising-edge trigger on channel 1, watched by ADC2 *)

Definition adc_rising_ch1 : frame :=
  pad [2; 1; 0; 1; 0; 8; 0; 1; 0; 0; 0; 0; 1].
Definition armed_ch1 : state :=
  result (GotCDC_64B_Packet hal_ok adc_rising_ch1 boot0).

Lemma ADC2_IRQHandler_never_confirms_witness :
  Z.land ADC_ISR_AWD1 1 = 0 /\
  ADC2_IRQHandler 256 128 armed_ch1 =
  call HAL_ADC_IRQHandler [Sym hadc2]
    (if truthy (Z.land 256 ADC_ISR_AWD2)
     then (wr triggerType 1 ;; emit (RegOr ADC2_ISR ADC_ISR_AWD2)) armed_ch1
     else armed_ch1).
Proof.
  assert (H1 : Z.land ADC_ISR_AWD1 1 = 0) by reflexivity.
  exact (conj H1 (ADC2_IRQHandler_never_confirms H1 256 128 armed_ch1)).
Defined.

Definition tr_ch1 : list event :=
  [Packet hal_ok adc_rising_ch1; IrqADC2 256 0; IrqADC2 0 128;
   IrqTIM17; MainADC; MainLogic; MainSend; IrqADC2 256 128; MainADC].
Definition after_ch1 : state := result (run tr_ch1 boot0).

Lemma ADC2_trigger_never_fires_witness :
  Z.land ADC_ISR_AWD1 1 = 0 /\
  forallb (fun e => negb (from_ADC1 e)) tr_ch1 = true /\
  rd triggerType boot0 <> 2 /\
  (ADCstate boot0 = preTrigger \/ ADCstate boot0 = noTrigger) /\
  run tr_ch1 boot0 = Returned after_ch1 /\
  rd triggerType after_ch1 <> 2 /\
  (ADCstate after_ch1 = preTrigger \/ ADCstate after_ch1 = noTrigger).
Proof.
  assert (H1 : Z.land ADC_ISR_AWD1 1 = 0) by reflexivity.
  assert (H2 : forallb (fun e => negb (from_ADC1 e)) tr_ch1 = true)
    by reflexivity.
  assert (H3 : rd triggerType boot0 <> 2)
    by (vm_compute; intros H; discriminate H).
  assert (H4 : ADCstate boot0 = preTrigger \/ ADCstate boot0 = noTrigger)
    by (right; reflexivity).
  assert (H5 : run tr_ch1 boot0 = Returned after_ch1)
    by (vm_compute; reflexivity).
  exact (conj H1 (conj H2 (conj H3 (conj H4 (conj H5
           (ADC2_trigger_never_fires H1 tr_ch1 boot0 after_ch1
              H2 H3 H4 H5)))))).
Defined.

Example channel_1_stays_armed :
  ADCstate after_ch1 = preTrigger /\ rd triggerType after_ch1 = 1.
Proof. vm_compute. split; reflexivity. Qed.

(** ** X13: the main loop takes up a confirmed trigger *)

Lemma ADCstate_transitions_witness :
  step MainADC armed = Returned (adc_phase armed) /\
  (ADCstate (adc_phase armed) = ADCstate armed \/
   (MainADC = MainADC /\
    ((ADCstate armed = preTrigger /\ rd triggerType armed = 2 /\
      ADCstate (adc_phase armed) = triggerState) \/
     (ADCstate armed = triggerState /\
      rd triggerDuration armed <= rd shadowCount armed /\
      ADCstate (adc_phase armed) = postTrigger) \/
     (ADCstate armed = postTrigger /\ 29999 < rd adcpos armed /\
      ADCstate (adc_phase armed) = preTrigger))) \/
   (exists env ptr,
       MainADC = Packet env ptr /\ rd BULK_BUFF_RECV armed = 0 /\
       RECV_Packet.packet_type ptr = 2 /\
       ADCstate (adc_phase armed) =
         armed_state (RECV_Packet.ADC_SET.triggermode ptr))).
Proof.
  assert (H1 : step MainADC armed = Returned (adc_phase armed))
    by reflexivity.
  exact (conj H1 (ADCstate_transitions MainADC armed (adc_phase armed) H1)).
Defined.

(** ** X15: mode 5 on a device initialised by [MX_TIM8_Init] and
    [MX_TIM17_Init] *)

Definition init_regs : reg -> Z :=
  fun r =>
    match r with
    | TIM8_PSC => 24
    | TIM8_ARR => 1
    | TIM17_PSC => 499
    | TIM17_ARR => 9
    | _ => 0
    end.
Definition adc_mode5 : frame := pad [2; 0; 5].
Definition after_mode5 : state :=
  result (GotCDC_64B_Packet hal_ok adc_mode5 (boot init_regs)).

Lemma shadow_timer_follows_sample_timer_witness :
  rd BULK_BUFF_RECV (boot init_regs) = 0 /\
  RECV_Packet.packet_type adc_mode5 = 2 /\
  GotCDC_64B_Packet hal_ok adc_mode5 (boot init_regs) =
    Returned after_mode5 /\
  rd_reg TIM8_PSC (boot init_regs) = 24 /\
  rd_reg TIM17_PSC (boot init_regs) = 499 /\
  rd_reg TIM8_PSC after_mode5 = 24 /\
  rd_reg TIM17_PSC after_mode5 = 499 /\
  (rd_reg TIM17_PSC after_mode5 + 1) * (rd_reg TIM17_ARR after_mode5 + 1) =
  100 * ((rd_reg TIM8_PSC after_mode5 + 1) *
         (rd_reg TIM8_ARR after_mode5 + 1)).
Proof.
  assert (H1 : rd BULK_BUFF_RECV (boot init_regs) = 0) by reflexivity.
  assert (H2 : RECV_Packet.packet_type adc_mode5 = 2) by reflexivity.
  assert (H3 : GotCDC_64B_Packet hal_ok adc_mode5 (boot init_regs) =
               Returned after_mode5) by (vm_compute; reflexivity).
  assert (H4 : rd_reg TIM8_PSC (boot init_regs) = 24) by reflexivity.
  assert (H5 : rd_reg TIM17_PSC (boot init_regs) = 499) by reflexivity.
  exact (conj H1 (conj H2 (conj H3 (conj H4 (conj H5
           (shadow_timer_follows_sample_timer hal_ok adc_mode5
              (boot init_regs) after_mode5 H1 H2 H3 H4 H5)))))).
Defined.

Example mode5_reload_values :
  rd_reg TIM8_ARR after_mode5 = 99 /\ rd_reg TIM17_ARR after_mode5 = 499.
Proof. vm_compute. split; reflexivity. Qed.

(** ** X16: the sender with oscilloscope data ready *)

Lemma one_frame_per_event_witness :
  step MainSend osc_ready = Returned (send_phase osc_ready) /\
  (usb_tx (send_phase osc_ready) = usb_tx osc_ready \/
   (MainSend = MainSend /\
    exists d, usb_tx (send_phase osc_ready) = usb_tx osc_ready ++ [TxData d])
   \/
   ((exists env ptr, MainSend = Packet env ptr) /\
    (usb_tx (send_phase osc_ready) = usb_tx osc_ready ++ [ack] \/
     usb_tx (send_phase osc_ready) =
       usb_tx osc_ready ++ [TxBytes nopacket]))).
Proof.
  assert (H1 : step MainSend osc_ready = Returned (send_phase osc_ready))
    by reflexivity.
  exact (conj H1
           (one_frame_per_event MainSend osc_ready (send_phase osc_ready)
              H1)).
Defined.

(** ** X17: one ADC1 interrupt that shows both watchdog flags *)

Definition tr_first : list event :=
  [Packet hal_ok adc_rising; IrqADC1 256 128; MainADC].
Definition after_first : state := result (run tr_first boot0).

Lemma first_ADC1_interrupt_is_swallowed_witness :
  forallb (fun e => negb (from_ADC2 e)) tr_first = true /\
  (length (filter from_ADC1 tr_first) <= 1)%nat /\
  run tr_first boot0 = Returned after_first /\
  rd triggerType after_first = 0.
Proof.
  assert (H1 : forallb (fun e => negb (from_ADC2 e)) tr_first = true)
    by reflexivity.
  assert (H2 : (length (filter from_ADC1 tr_first) <= 1)%nat)
    by (vm_compute; apply le_n).
  assert (H3 : run tr_first boot0 = Returned after_first)
    by (vm_compute; reflexivity).
  exact (conj H1 (conj H2 (conj H3
           (first_ADC1_interrupt_is_swallowed zero_regs tr_first
              after_first H1 H2 H3)))).
Defined.

(** ** X20: the second ADC1 interrupt, showing both watchdog flags *)

Definition first_skipped : state :=
  result (run [Packet hal_ok adc_rising; IrqADC1 0 0] boot0).

Lemma ADC1_confirms_iff_witness :
  rd triggerType first_skipped <> 2 /\
  (let m := ADC1_IRQHandler 256 128 first_skipped in
   (rd triggerType m = 2 <->
    rd firstTrigger first_skipped <> 0 /\
    Z.land 128 ADC_ISR_AWD1 <> 0 /\
    (rd triggerType first_skipped = 1 \/ Z.land 256 ADC_ISR_AWD2 <> 0)) /\
   (rd triggerType m = 2 ->
    rd firstTrigger m = 0 /\
    hw m = hw first_skipped ++
           [Call HAL_GPIO_TogglePin [Sym GPIOD; Pin 5];
            Call HAL_NVIC_DisableIRQ [Sym ADC1_IRQn];
            Call HAL_ADC_IRQHandler [Sym hadc1]])).
Proof.
  assert (H1 : rd triggerType first_skipped <> 2)
    by (vm_compute; intros H; discriminate H).
  exact (conj H1 (ADC1_confirms_iff 256 128 first_skipped H1)).
Defined.

Example second_interrupt_confirms :
  rd firstTrigger first_skipped = 1 /\
  rd triggerType (ADC1_IRQHandler 256 128 first_skipped) = 2.
Proof. vm_compute. split; reflexivity. Qed.

(** ** C6: frames with tag 0 while a table transfer is pending *)

(** Waveform command for channel 0 with 4 samples: it announces 128 bytes,
    two frames of table data. *)
Definition awg_4 : frame :=
  pad [1; 0; 1; 0; 0; 232; 3; 0; 8; 4; 0; 250; 0].
Definition after_awg_4 : state :=
  result (GotCDC_64B_Packet hal_ok awg_4 boot0).

(** C6 as stated fails.  After [awg_ch0] one frame of table data is
    outstanding: the frame with tag 0 and the wrong magic "XNIT" is taken as
    that data and, completing the transfer, is acknowledged.  After [awg_4]
    two frames are outstanding: the frame with tag 0 and the right magic
    "INIT" is taken as the first of them and gets no reply. *)
Lemma tag_0_frame_during_table_transfer :
  (run [Packet hal_ok awg_ch0] boot0 = Returned after_awg_ch0 /\
   RECV_Packet.packet_type handshake_XNIT = 0 /\
   RECV_Packet.HandShake.handshake_string handshake_XNIT <> HS_STRING /\
   exists m,
     GotCDC_64B_Packet hal_ok handshake_XNIT after_awg_ch0 = Returned m /\
     usb_tx m = usb_tx after_awg_ch0 ++ [ack]) /\
  (run [Packet hal_ok awg_4] boot0 = Returned after_awg_4 /\
   RECV_Packet.packet_type handshake_INIT = 0 /\
   RECV_Packet.HandShake.handshake_string handshake_INIT = HS_STRING /\
   exists m,
     GotCDC_64B_Packet hal_ok handshake_INIT after_awg_4 = Returned m /\
     usb_tx m = usb_tx after_awg_4).
Proof.
  split.
  - split; [vm_compute; reflexivity|]. split; [reflexivity|].
    split; [vm_compute; intros H; discriminate H|].
    exists (result (GotCDC_64B_Packet hal_ok handshake_XNIT after_awg_ch0)).
    split; vm_compute; reflexivity.
  - split; [vm_compute; reflexivity|]. split; [reflexivity|].
    split; [reflexivity|].
    exists (result (GotCDC_64B_Packet hal_ok handshake_INIT after_awg_4)).
    split; vm_compute; reflexivity.
Qed.

(** ** C4: one pass of the main loop with both subsystems ready *)

(** The logic analyser is started (rising edge on pin 0), sixteen samples
    with the port values 0 to 15 are captured (the second one triggers),
    TIM16 elapses, and one TIM17 interrupt makes oscilloscope data
    available in free run. *)
Definition tr_streaming : list event :=
  Packet hal_ok logic_start ::
  map (fun n => PulseFinished HAL_TIM_ACTIVE_CHANNEL_1 (Z.of_nat n))
      (seq 0 16) ++
  [PeriodElapsed htim16; IrqTIM17].
Definition streaming : state := result (run tr_streaming boot0).

Definition one_pass : list event := [MainADC; MainLogic; MainSend].

(** C4 on this run.  Both subsystems have data, no command is being
    handled, both cursors are 0 and the logic buffer holds the samples 0 to
    15.  One pass of the loop sends one frame: the oscilloscope windows at
    cursor 0, but the logic window at 8, and the logic cursor ends at 16
    where the oscilloscope cursor ends at 8.  The next pass sends the logic
    window at 24: the samples at 0 to 7 and at 16 to 23 are not sent. *)
Lemma logic_cursor_moves_twice_in_one_pass :
  run tr_streaming boot0 = Returned streaming /\
  rd pauseTransmit streaming = 0 /\
  rd adcpos streaming = 0 /\ rd logicpos streaming = 0 /\
  map (fun i => rd_arr Logic_buff i streaming) [0; 1; 2; 3; 4; 5; 6; 7] =
    [0; 1; 2; 3; 4; 5; 6; 7] /\
  run one_pass streaming = Returned (main_loop_pass streaming) /\
  usb_tx (main_loop_pass streaming) =
    usb_tx streaming ++
    [TxData (DATA_Packet.mk 5 0 8
               (repeat (Some 0) 8) (repeat (Some 0) 8)
               (map Some [8; 9; 10; 11; 12; 13; 14; 15]))] /\
  rd adcpos (main_loop_pass streaming) = 8 /\
  rd logicpos (main_loop_pass streaming) = 16 /\
  run (IrqTIM17 :: one_pass) (main_loop_pass streaming) =
    Returned (main_loop_pass (TIM17_IRQHandler (main_loop_pass streaming))) /\
  usb_tx (main_loop_pass (TIM17_IRQHandler (main_loop_pass streaming))) =
    usb_tx (main_loop_pass streaming) ++
    [TxData (DATA_Packet.mk 5 8 24
               (repeat (Some 0) 8) (repeat (Some 0) 8)
               (repeat (Some 0) 8))].
Proof. vm_compute. repeat split. Qed.
